(** * Fall-decision engine of the elderly fall detection system

    A shallow embedding of [pose_detection/utils/angle_calc.py] and
    [pose_detection/fall_detector.py], of the accessors of
    [pose_detection/detector.py] and of the loop of [app.py], and the
    properties of the decision engine proved over it.

    Numbers.  Python [int] is [Z].  Python [float] is modelled by the exact
    rationals [Q]: arithmetic is the exact one, without rounding, infinities
    or NaN, and an [int] converts to a [float] without overflow.  The two
    agree on the coordinates of an image ([in_range] below); a statement
    that rounding or overflow would decide is made on that range.  The
    comparisons of the source are the boolean comparisons [Qle_bool] and
    [Qltb].  The three functions of the C library that the source reaches
    through [math] ([math.sqrt], [math.atan2], [math.degrees]) have no
    rational counterpart; they are the operations of the interface
    [MathLib], and every definition and theorem is generic in it.

    Exceptions.  A Python function that can raise returns a [Result]; a
    method of [FallDetector] is a state transformer with outcome
    [Returned] or [Raised], and both carry the state of the object as the
    method leaves it.

    Clock.  [time.time()] is read up to three times by one [detect] call;
    the readings are the three fields of a [Clock] record handed to the
    call in the order the source reads them. *)

From Stdlib Require Import ZArith QArith Qround Lqa Lia List Bool.
From stdpp Require Import gmap strings list.

Local Open Scope Z_scope.

(** ** Python primitives *)

Module Py.

Inductive Exn : Type :=
| ZeroDivisionError
| KeyError
| IndexError
| ValueError.

Inductive Result (A : Type) : Type :=
| Ok (a : A)
| Raise (e : Exn).
Arguments Ok {A} a.
Arguments Raise {A} e.

Definition bind {A B : Type} (m : Result A) (k : A -> Result B) : Result B :=
  match m with
  | Ok a => k a
  | Raise e => Raise e
  end.

(** [x > y] and [x >= y] on floats *)
Definition Qltb (x y : Q) : bool := negb (Qle_bool y x).
Definition Qgtb (x y : Q) : bool := Qltb y x.
Definition Qgeb (x y : Q) : bool := Qle_bool y x.

(** [a / b] on two ints: true division *)
Definition int_truediv (a b : Z) : Result Q :=
  if b =? 0 then Raise ZeroDivisionError
  else Ok (inject_Z a / inject_Z b)%Q.

(** [int(x)] on a float: truncation towards zero *)
Definition int_of_float (x : Q) : Z := Z.quot (Qnum x) (Z.pos (Qden x)).

(** [l[i]], a negative [i] counting from the end *)
Definition index {A : Type} (l : list A) (i : Z) : Result A :=
  let n := Z.of_nat (length l) in
  let j := if i <? 0 then n + i else i in
  if (j <? 0) || (n <=? j) then Raise IndexError
  else match l !! Z.to_nat j with
       | Some x => Ok x
       | None => Raise IndexError
       end.

(** [range(a, b)] *)
Definition range (a b : Z) : list Z :=
  map (fun k => a + Z.of_nat k) (seq 0 (Z.to_nat (b - a))).

(** [max(l)]: the first element, replaced by each later one that is
    strictly greater; [ValueError] on the empty list *)
Definition max_step (m y : Q) : Q := if Qgtb y m then y else m.

Definition max (l : list Q) : Result Q :=
  match l with
  | [] => Raise ValueError
  | x :: xs => Ok (fold_left max_step xs x)
  end.

(** [min(x, y)] on two arguments: [y] when it is strictly smaller *)
Definition min2 (x y : Q) : Q := if Qltb y x then y else x.

(** the body of a [for] loop that appends one value per iteration *)
Fixpoint for_append {A B : Type} (body : A -> Result B) (l : list A)
  : Result (list B) :=
  match l with
  | [] => Ok []
  | i :: rest =>
      bind (body i) (fun x =>
      bind (for_append body rest) (fun xs => Ok (x :: xs)))
  end.

End Py.

Import Py.

Notation "'let!' x ':=' m 'in' k" := (Py.bind m (fun x => k))
  (at level 10, x name, m at level 100, k at level 200).

(** ** The [math] module *)

Class MathLib : Type := {
  math_sqrt : Z -> Q;
  math_atan2 : Z -> Z -> Q;
  math_degrees : Q -> Q
}.

(** ** angle_calc.py: geometry *)

Abbreviation Point := (Z * Z)%type.
Abbreviation JointMap := (gmap string Point).

Module Geometry.
Section Geometry.
Context `{MathLib}.

Definition contains (landmarks : JointMap) (point : string) : bool :=
  match landmarks !! point with
  | Some _ => true
  | None => false
  end.

Definition getitem (landmarks : JointMap) (point : string) : Result Point :=
  match landmarks !! point with
  | Some p => Ok p
  | None => Raise KeyError
  end.

(** [for point in points: if point not in landmarks: return None] *)
Fixpoint any_missing (landmarks : JointMap) (points : list string) : bool :=
  match points with
  | [] => false
  | point :: rest =>
      if negb (contains landmarks point) then true
      else any_missing landmarks rest
  end.

Definition calculate_angle_from_vertical (point1 point2 : Point) : Q :=
  let dx := point2.1 - point1.1 in
  let dy := point2.2 - point1.2 in
  let angle_rad := math_atan2 (Z.abs dx) (Z.abs dy) in
  let angle_deg := math_degrees angle_rad in
  angle_deg.

Definition required_points : list string :=
  ["left_shoulder"; "right_shoulder"; "left_hip"; "right_hip"].

Definition calculate_torso_angle (landmarks : JointMap) : Result (option Q) :=
  if any_missing landmarks required_points then Ok None
  else
    let! ls := getitem landmarks "left_shoulder" in
    let! rs := getitem landmarks "right_shoulder" in
    let! lh := getitem landmarks "left_hip" in
    let! rh := getitem landmarks "right_hip" in
    let shoulder_mid_x := (inject_Z (ls.1 + rs.1) / 2)%Q in
    let shoulder_mid_y := (inject_Z (ls.2 + rs.2) / 2)%Q in
    let hip_mid_x := (inject_Z (lh.1 + rh.1) / 2)%Q in
    let hip_mid_y := (inject_Z (lh.2 + rh.2) / 2)%Q in
    let shoulder_mid := (int_of_float shoulder_mid_x, int_of_float shoulder_mid_y) in
    let hip_mid := (int_of_float hip_mid_x, int_of_float hip_mid_y) in
    Ok (Some (calculate_angle_from_vertical shoulder_mid hip_mid)).

(** angle of a segment from the horizontal, shared by the shoulder and
    the hip line *)
Definition angle_from_horizontal (left right : Point) : Q :=
  let dx := right.1 - left.1 in
  let dy := right.2 - left.2 in
  math_degrees (math_atan2 (Z.abs dy) (Z.abs dx)).

Definition calculate_shoulder_angle (landmarks : JointMap) : Result (option Q) :=
  if negb (contains landmarks "left_shoulder")
     || negb (contains landmarks "right_shoulder")
  then Ok None
  else
    let! left := getitem landmarks "left_shoulder" in
    let! right := getitem landmarks "right_shoulder" in
    Ok (Some (angle_from_horizontal left right)).

Definition calculate_hip_angle (landmarks : JointMap) : Result (option Q) :=
  if negb (contains landmarks "left_hip")
     || negb (contains landmarks "right_hip")
  then Ok None
  else
    let! left := getitem landmarks "left_hip" in
    let! right := getitem landmarks "right_hip" in
    Ok (Some (angle_from_horizontal left right)).

(** the dictionary [{'left_leg': .., 'right_leg': ..}] as a pair *)
Definition calculate_leg_angles (landmarks : JointMap)
  : Result (option Q * option Q) :=
  let! left_leg := (if contains landmarks "left_hip" && contains landmarks "left_ankle"
     then let! hip := getitem landmarks "left_hip" in
          let! ankle := getitem landmarks "left_ankle" in
          Ok (Some (calculate_angle_from_vertical hip ankle))
     else Ok None) in
  let! right_leg := (if contains landmarks "right_hip" && contains landmarks "right_ankle"
     then let! hip := getitem landmarks "right_hip" in
          let! ankle := getitem landmarks "right_ankle" in
          Ok (Some (calculate_angle_from_vertical hip ankle))
     else Ok None) in
  Ok (left_leg, right_leg).

Definition calculate_body_center (landmarks : JointMap) : Result (option Point) :=
  if any_missing landmarks required_points then Ok None
  else
    let! ls := getitem landmarks "left_shoulder" in
    let! rs := getitem landmarks "right_shoulder" in
    let shoulder_mid_x := (inject_Z (ls.1 + rs.1) / 2)%Q in
    let shoulder_mid_y := (inject_Z (ls.2 + rs.2) / 2)%Q in
    let! p2 := getitem landmarks "left_hip" in
    let! p3 := getitem landmarks "right_hip" in
    let center_x := ((shoulder_mid_x + inject_Z p2.1 + inject_Z p3.1) / 3)%Q in
    let center_y := ((shoulder_mid_y + inject_Z p2.2 + inject_Z p3.2) / 3)%Q in
    Ok (Some (int_of_float center_x, int_of_float center_y)).

Definition calculate_head_height_ratio (landmarks : JointMap) (frame_height : Z)
  : Result (option Q) :=
  if negb (contains landmarks "nose") then Ok None
  else
    let! nose := getitem landmarks "nose" in
    let nose_y := nose.2 in
    let! r := int_truediv nose_y frame_height in
    Ok (Some r).

Definition calculate_center_shift (current_center previous_center : Point) : Q :=
  let dx := current_center.1 - previous_center.1 in
  let dy := current_center.2 - previous_center.2 in
  math_sqrt (dx * dx + dy * dy).

End Geometry.
End Geometry.

(** ** angle_calc.py: class AngleTracker *)

Module Tracker.
Section Tracker.
Context `{MathLib}.

Record AngleTracker : Type := {
  history_size : Z;
  torso_history : list Q;
  center_history : list Point;
  head_height_history : list Q
}.

(** [AngleTracker(history_size)] *)
Definition __init__ (history_size : Z) : AngleTracker :=
  {| history_size := history_size;
     torso_history := [];
     center_history := [];
     head_height_history := [] |}.

(** [hist.append(x)], then [hist.pop(0)] when the list became longer than
    [history_size] (the list is not empty there, [pop] cannot raise) *)
Definition push {A : Type} (size : Z) (hist : list A) (x : A) : list A :=
  let hist := hist ++ [x] in
  if Z.of_nat (length hist) >? size then drop 1 hist else hist.

Definition push_opt {A : Type} (size : Z) (hist : list A) (x : option A) : list A :=
  match x with
  | Some v => push size hist v
  | None => hist
  end.

Definition update (self : AngleTracker) (torso_angle : option Q)
    (center : option Point) (head_height : option Q) : AngleTracker :=
  {| history_size := history_size self;
     torso_history := push_opt (history_size self) (torso_history self) torso_angle;
     center_history := push_opt (history_size self) (center_history self) center;
     head_height_history :=
       push_opt (history_size self) (head_height_history self) head_height |}.

(** [sum(hist) / len(hist)]; the list is not empty where it divides *)
Definition get_average_torso_angle (self : AngleTracker) : Result (option Q) :=
  match torso_history self with
  | [] => Ok None
  | _ :: _ =>
      Ok (Some (fold_left Qplus (torso_history self) 0
                / inject_Z (Z.of_nat (length (torso_history self))))%Q)
  end.

Definition get_torso_angle_change_rate (self : AngleTracker) : Result (option Q) :=
  if Z.of_nat (length (torso_history self)) <? 2 then Ok None
  else
    let! a := index (torso_history self) (-1) in
    let! b := index (torso_history self) (-2) in
    Ok (Some (a - b)%Q).

Definition get_center_shift (self : AngleTracker) : Result (option Q) :=
  if Z.of_nat (length (center_history self)) <? 2 then Ok None
  else
    let! a := index (center_history self) (-1) in
    let! b := index (center_history self) (-2) in
    Ok (Some (Geometry.calculate_center_shift a b)).

Definition get_head_height_change (self : AngleTracker) : Result (option Q) :=
  if Z.of_nat (length (head_height_history self)) <? 2 then Ok None
  else
    let! a := index (head_height_history self) (-1) in
    let! b := index (head_height_history self) (-2) in
    Ok (Some (a - b)%Q).

Definition get_max_center_shift (self : AngleTracker) (frames : Z)
  : Result (option Q) :=
  if Z.of_nat (length (center_history self)) <? 2 then Ok None
  else
    let check_frames := Z.min frames (Z.of_nat (length (center_history self)) - 1) in
    let! shifts := for_append
        (fun i =>
           let! cur := index (center_history self) i in
           let! prev := index (center_history self) (i - 1) in
           Ok (Geometry.calculate_center_shift cur prev))
        (range (- check_frames) 0) in
    match shifts with
    | [] => Ok None
    | _ :: _ => let! m := Py.max shifts in Ok (Some m)
    end.

Definition reset (self : AngleTracker) : AngleTracker :=
  {| history_size := history_size self;
     torso_history := [];
     center_history := [];
     head_height_history := [] |}.

End Tracker.
End Tracker.

(** ** fall_detector.py *)

Module Detector.

Inductive AlertSeverity : Type :=
| NONE
| MILD
| SEVERE.

(** [severity.value] *)
Definition value (s : AlertSeverity) : Z :=
  match s with
  | NONE => 0
  | MILD => 1
  | SEVERE => 2
  end.

Definition is_NONE (s : AlertSeverity) : bool :=
  match s with
  | NONE => true
  | _ => false
  end.

Definition is_MILD (s : AlertSeverity) : bool :=
  match s with
  | MILD => true
  | _ => false
  end.

Definition is_SEVERE (s : AlertSeverity) : bool :=
  match s with
  | SEVERE => true
  | _ => false
  end.

(** The three texts that [detect] appends to [trigger_reasons]; the first
    one carries the angle it formats. *)
Inductive Reason : Type :=
| TorsoAngleAbnormal (torso_angle : Q)
| HeadHeightDropped
| BodyCenterShifted.

Record DetectionResult : Type := {
  is_fall_detected : bool;
  severity : AlertSeverity;
  torso_angle : option Q;
  head_height : option Q;
  center_shift : option Q;
  trigger_reasons : list Reason;
  timestamp : Q;
  confidence : Q
}.

(** The readings of [time.time()] in one [detect] call, in program order:
    in [_is_in_cooldown], in the update of [last_alert_time], and in the
    [timestamp] of the result. *)
Record Clock : Type := {
  t_cooldown : Q;
  t_alert : Q;
  t_stamp : Q
}.

Record FallDetector : Type := {
  torso_angle_threshold : Q;
  head_drop_threshold : Q;
  center_shift_threshold : Q;
  consecutive_frames : Z;
  cooldown_seconds : Q;
  mild_angle_range : Q * Q;
  severe_angle_min : Q;
  angle_tracker : Tracker.AngleTracker;
  consecutive_detections : Z;
  last_alert_time : Q;
  baseline_head_height : option Q;
  baseline_center : option Point;
  is_calibrated : bool
}.

(** Attribute assignments [self.x = v]. *)
Definition set_angle_tracker (v : Tracker.AngleTracker) (self : FallDetector)
  : FallDetector :=
  {| torso_angle_threshold := torso_angle_threshold self;
     head_drop_threshold := head_drop_threshold self;
     center_shift_threshold := center_shift_threshold self;
     consecutive_frames := consecutive_frames self;
     cooldown_seconds := cooldown_seconds self;
     mild_angle_range := mild_angle_range self;
     severe_angle_min := severe_angle_min self;
     angle_tracker := v;
     consecutive_detections := consecutive_detections self;
     last_alert_time := last_alert_time self;
     baseline_head_height := baseline_head_height self;
     baseline_center := baseline_center self;
     is_calibrated := is_calibrated self |}.

Definition set_consecutive_detections (v : Z) (self : FallDetector)
  : FallDetector :=
  {| torso_angle_threshold := torso_angle_threshold self;
     head_drop_threshold := head_drop_threshold self;
     center_shift_threshold := center_shift_threshold self;
     consecutive_frames := consecutive_frames self;
     cooldown_seconds := cooldown_seconds self;
     mild_angle_range := mild_angle_range self;
     severe_angle_min := severe_angle_min self;
     angle_tracker := angle_tracker self;
     consecutive_detections := v;
     last_alert_time := last_alert_time self;
     baseline_head_height := baseline_head_height self;
     baseline_center := baseline_center self;
     is_calibrated := is_calibrated self |}.

Definition set_last_alert_time (v : Q) (self : FallDetector) : FallDetector :=
  {| torso_angle_threshold := torso_angle_threshold self;
     head_drop_threshold := head_drop_threshold self;
     center_shift_threshold := center_shift_threshold self;
     consecutive_frames := consecutive_frames self;
     cooldown_seconds := cooldown_seconds self;
     mild_angle_range := mild_angle_range self;
     severe_angle_min := severe_angle_min self;
     angle_tracker := angle_tracker self;
     consecutive_detections := consecutive_detections self;
     last_alert_time := v;
     baseline_head_height := baseline_head_height self;
     baseline_center := baseline_center self;
     is_calibrated := is_calibrated self |}.

Definition set_baseline (hh : option Q) (c : option Point) (b : bool)
    (self : FallDetector) : FallDetector :=
  {| torso_angle_threshold := torso_angle_threshold self;
     head_drop_threshold := head_drop_threshold self;
     center_shift_threshold := center_shift_threshold self;
     consecutive_frames := consecutive_frames self;
     cooldown_seconds := cooldown_seconds self;
     mild_angle_range := mild_angle_range self;
     severe_angle_min := severe_angle_min self;
     angle_tracker := angle_tracker self;
     consecutive_detections := consecutive_detections self;
     last_alert_time := last_alert_time self;
     baseline_head_height := hh;
     baseline_center := c;
     is_calibrated := b |}.

(** The outcome of a method call: its result or the exception it raised,
    and the object as the call left it. *)
Inductive Outcome (A : Type) : Type :=
| Returned (a : A) (self : FallDetector)
| Raised (e : Exn) (self : FallDetector).
Arguments Returned {A} a self.
Arguments Raised {A} e self.

Definition M (A : Type) : Type := FallDetector -> Outcome A.

Definition ret {A : Type} (a : A) : M A := fun self => Returned a self.

Definition mbind {A B : Type} (m : M A) (k : A -> M B) : M B :=
  fun self =>
    match m self with
    | Returned a self' => k a self'
    | Raised e self' => Raised e self'
    end.

(** a call that only reads [self] *)
Definition call {A : Type} (f : FallDetector -> Result A) : M A :=
  fun self =>
    match f self with
    | Ok a => Returned a self
    | Raise e => Raised e self
    end.

Definition lift {A : Type} (r : Result A) : M A := call (fun _ => r).

Definition get : M FallDetector := fun self => Returned self self.

Definition modify (f : FallDetector -> FallDetector) : M unit :=
  fun self => Returned tt (f self).

Notation "'do!' x ':=' m 'in' k" := (mbind m (fun x => k))
  (at level 10, x name, m at level 100, k at level 200).

Section Methods.
Context `{MathLib}.

(** [FallDetector.__init__]; it has no [raise] and returns for every
    argument. *)
Definition __init__ (torso_angle_threshold head_drop_threshold
    center_shift_threshold : Q) (consecutive_frames : Z) (cooldown_seconds : Q)
    (mild_angle_range : Q * Q) (severe_angle_min : Q) : Result FallDetector :=
  Ok {| torso_angle_threshold := torso_angle_threshold;
        head_drop_threshold := head_drop_threshold;
        center_shift_threshold := center_shift_threshold;
        consecutive_frames := consecutive_frames;
        cooldown_seconds := cooldown_seconds;
        mild_angle_range := mild_angle_range;
        severe_angle_min := severe_angle_min;
        angle_tracker := Tracker.__init__ 30;
        consecutive_detections := 0;
        last_alert_time := 0;
        baseline_head_height := None;
        baseline_center := None;
        is_calibrated := false |}.

(** [FallDetector()] with the default arguments of the signature *)
Definition default_init : Result FallDetector :=
  __init__ 35.0 0.15 150.0 5 30.0 (35.0, 50.0)%Q 50.0.

Definition calibrate (head_height : Q) (center : Point) : M unit :=
  modify (set_baseline (Some head_height) (Some center) true).

Definition reset_calibration : M unit :=
  do! _ := modify (set_baseline None None false) in
  modify (fun self => set_angle_tracker (Tracker.reset (angle_tracker self)) self).

Definition _check_torso_angle (self : FallDetector) (angle : Q)
  : bool * AlertSeverity :=
  if Qgeb angle (severe_angle_min self) then (true, SEVERE)
  else if Qgeb angle (mild_angle_range self).1 then (true, MILD)
  else (false, NONE).

Definition _check_head_drop (self : FallDetector) (current_height : Q)
  : Result bool :=
  let! height_change := Tracker.get_head_height_change (angle_tracker self) in
  if match height_change with
     | Some hc => Qgtb hc (head_drop_threshold self)
     | None => false
     end
  then Ok true
  else
    match baseline_head_height self with
    | Some baseline =>
        let diff := (current_height - baseline)%Q in
        if Qgtb diff (head_drop_threshold self * 2)%Q then Ok true else Ok false
    | None => Ok false
    end.

Definition _check_center_shift (self : FallDetector) : Result bool :=
  let! max_shift := Tracker.get_max_center_shift (angle_tracker self) 5 in
  if match max_shift with
     | Some ms => Qgtb ms (center_shift_threshold self)
     | None => false
     end
  then Ok true
  else Ok false.

Definition _is_in_cooldown (self : FallDetector) (time_time : Q) : bool :=
  Qltb (time_time - last_alert_time self)%Q (cooldown_seconds self).

Definition _calculate_confidence (self : FallDetector) (trigger_count : Z)
    (severity : AlertSeverity) : Result Q :=
  let base_confidence := (inject_Z trigger_count / 3.0)%Q in
  let base_confidence :=
    if is_SEVERE severity then (base_confidence * 1.2)%Q
    else if is_MILD severity then (base_confidence * 1.0)%Q
    else base_confidence in
  let! ratio := int_truediv (consecutive_detections self) (consecutive_frames self) in
  let frame_ratio := min2 ratio 1.0 in
  let base_confidence := (base_confidence * (0.5 + 0.5 * frame_ratio))%Q in
  Ok (min2 base_confidence 1.0).

Definition detect (landmarks : JointMap) (frame_height : Z) (clock : Clock)
  : M DetectionResult :=
  let trigger_reasons : list Reason := [] in
  let max_severity := NONE in
  do! torso_angle := lift (Geometry.calculate_torso_angle landmarks) in
  do! body_center := lift (Geometry.calculate_body_center landmarks) in
  do! head_height :=
    lift (Geometry.calculate_head_height_ratio landmarks frame_height) in
  do! _ := modify (fun self =>
    set_angle_tracker
      (Tracker.update (angle_tracker self) torso_angle body_center head_height)
      self) in
  (* condition 1: torso angle *)
  do! self := get in
  let '(trigger_reasons, max_severity) :=
    match torso_angle with
    | Some angle =>
        let '(is_abnormal, severity) := _check_torso_angle self angle in
        if is_abnormal then
          (trigger_reasons ++ [TorsoAngleAbnormal angle],
           if value severity >? value max_severity then severity
           else max_severity)
        else (trigger_reasons, max_severity)
    | None => (trigger_reasons, max_severity)
    end in
  (* condition 2: head drop *)
  do! head_dropped :=
    match head_height with
    | Some hh => call (fun self => _check_head_drop self hh)
    | None => ret false
    end in
  let '(trigger_reasons, max_severity) :=
    if head_dropped then
      (trigger_reasons ++ [HeadHeightDropped],
       if is_NONE max_severity then MILD else max_severity)
    else (trigger_reasons, max_severity) in
  (* condition 3: shift of the body center *)
  do! center_shifted := call _check_center_shift in
  let '(trigger_reasons, max_severity) :=
    if center_shifted then
      (trigger_reasons ++ [BodyCenterShifted],
       if is_NONE max_severity then MILD else max_severity)
    else (trigger_reasons, max_severity) in
  let has_trigger := Z.of_nat (length trigger_reasons) >? 0 in
  do! _ := modify (fun self =>
    if has_trigger then
      set_consecutive_detections (consecutive_detections self + 1) self
    else
      set_consecutive_detections (Z.max 0 (consecutive_detections self - 1)) self) in
  (* at least two conditions, or enough consecutive frames *)
  do! self := get in
  let should_alert := false in
  let should_alert :=
    if Z.of_nat (length trigger_reasons) >=? 2 then true
    else if consecutive_detections self >=? consecutive_frames self then true
    else should_alert in
  (* cooldown *)
  let should_alert :=
    if should_alert && _is_in_cooldown self (t_cooldown clock) then false
    else should_alert in
  do! _ := (if should_alert then modify (set_last_alert_time (t_alert clock))
            else ret tt) in
  do! confidence := call (fun self =>
    _calculate_confidence self (Z.of_nat (length trigger_reasons)) max_severity) in
  do! center_shift := call (fun self => Tracker.get_center_shift (angle_tracker self)) in
  ret {| is_fall_detected := should_alert;
         severity := max_severity;
         torso_angle := torso_angle;
         head_height := head_height;
         center_shift := center_shift;
         trigger_reasons := trigger_reasons;
         timestamp := t_stamp clock;
         confidence := confidence |}.

Definition force_reset_cooldown : M unit :=
  do! _ := modify (set_last_alert_time 0) in
  modify (set_consecutive_detections 0).

End Methods.

End Detector.

(** * Views of one frame, executions, and the specification side *)

Import Detector.

Section Views.
Context `{MathLib}.

(** ** The three rules of one frame *)

(** the torso rule on an optional angle *)
Definition torso_rule (self : FallDetector) (torso : option Q)
  : bool * AlertSeverity :=
  match torso with
  | Some angle => _check_torso_angle self angle
  | None => (false, NONE)
  end.

Definition head_rule (self : FallDetector) (head : option Q) : Result bool :=
  match head with
  | Some hh => _check_head_drop self hh
  | None => Ok false
  end.

Definition reasons_of (torso : option Q) (b1 b2 b3 : bool) : list Reason :=
  (if b1 then match torso with
              | Some angle => [TorsoAngleAbnormal angle]
              | None => []
              end
   else [])
  ++ (if b2 then [HeadHeightDropped] else [])
  ++ (if b3 then [BodyCenterShifted] else []).

Definition severity_of (s1 : AlertSeverity) (b1 b2 b3 : bool) : AlertSeverity :=
  if b1 then s1 else if b2 || b3 then MILD else NONE.

Definition next_counter (self : FallDetector) (n : Z) : Z :=
  if n >? 0 then consecutive_detections self + 1
  else Z.max 0 (consecutive_detections self - 1).

Definition eligible (self : FallDetector) (n counter : Z) : bool :=
  (n >=? 2) || (counter >=? consecutive_frames self).

(** the part of [detect] that follows the three rules *)
Definition decide (trigger_reasons : list Reason) (max_severity : AlertSeverity)
    (torso_angle head_height : option Q) (clock : Clock) : M DetectionResult :=
  let has_trigger := Z.of_nat (length trigger_reasons) >? 0 in
  do! _ := modify (fun self =>
    if has_trigger then
      set_consecutive_detections (consecutive_detections self + 1) self
    else
      set_consecutive_detections (Z.max 0 (consecutive_detections self - 1)) self) in
  do! self := get in
  let should_alert := false in
  let should_alert :=
    if Z.of_nat (length trigger_reasons) >=? 2 then true
    else if consecutive_detections self >=? consecutive_frames self then true
    else should_alert in
  let should_alert :=
    if should_alert && _is_in_cooldown self (t_cooldown clock) then false
    else should_alert in
  do! _ := (if should_alert then modify (set_last_alert_time (t_alert clock))
            else ret tt) in
  do! confidence := call (fun self =>
    _calculate_confidence self (Z.of_nat (length trigger_reasons)) max_severity) in
  do! center_shift := call (fun self => Tracker.get_center_shift (angle_tracker self)) in
  ret {| is_fall_detected := should_alert;
         severity := max_severity;
         torso_angle := torso_angle;
         head_height := head_height;
         center_shift := center_shift;
         trigger_reasons := trigger_reasons;
         timestamp := t_stamp clock;
         confidence := confidence |}.

(** ** Executions *)

(** A call of the public interface of [FallDetector]. *)
Inductive Call : Type :=
| Detect (landmarks : JointMap) (frame_height : Z) (clock : Clock)
| Calibrate (head_height : Q) (center : Point)
| ResetCalibration
| ForceResetCooldown.

Definition exec (c : Call) : M (option DetectionResult) :=
  match c with
  | Detect landmarks frame_height clock =>
      do! r := detect landmarks frame_height clock in ret (Some r)
  | Calibrate head_height center =>
      do! _ := calibrate head_height center in ret None
  | ResetCalibration => do! _ := reset_calibration in ret None
  | ForceResetCooldown => do! _ := force_reset_cooldown in ret None
  end.

(** A sequence of calls; an exception ends it (the caller in [app.py]
    does not catch any). *)
Fixpoint run (calls : list Call) : M (list (option DetectionResult)) :=
  match calls with
  | [] => ret []
  | c :: rest =>
      do! o := exec c in
      do! os := run rest in
      ret (o :: os)
  end.

(** The states an engine can be in: constructed by [__init__], then any
    calls that returned. *)
Inductive reachable : FallDetector -> Prop :=
| reachable_init a1 a2 a3 a4 a5 a6 a7 self :
    __init__ a1 a2 a3 a4 a5 a6 a7 = Ok self -> reachable self
| reachable_call self c o self' :
    reachable self -> exec c self = Returned o self' -> reachable self'.

Definition is_detect (c : Call) : bool :=
  match c with
  | Detect _ _ _ => true
  | _ => false
  end.

Definition is_force_reset (c : Call) : bool :=
  match c with
  | ForceResetCooldown => true
  | _ => false
  end.

(** the clock readings of a call, when it reads the clock *)
Definition clock_of (c : Call) : option Clock :=
  match c with
  | Detect _ _ clock => Some clock
  | _ => None
  end.

(** the readings of one call are taken in program order from a clock that
    does not go back *)
Definition monotone (clock : Clock) : Prop :=
  (t_cooldown clock <= t_alert clock /\ t_alert clock <= t_stamp clock)%Q.

(** [t] lies in the half-open interval [[T, T + cooldown)] *)
Definition in_cooldown_window (T cooldown t : Q) : Prop :=
  (T <= t /\ t < T + cooldown)%Q.

(** Frames that each trigger exactly one rule, from a given state on. *)
Inductive single_rule_frames : FallDetector -> list Call -> Prop :=
| single_rule_nil self : single_rule_frames self []
| single_rule_cons self landmarks frame_height clock rest r self' :
    detect landmarks frame_height clock self = Returned r self' ->
    length (trigger_reasons r) = 1%nat ->
    single_rule_frames self' rest ->
    single_rule_frames self (Detect landmarks frame_height clock :: rest).

(** ** The specification of [max_center_shift] *)

(** the distance between each sample and the one before it, oldest pair
    first *)
Definition adjacent_shifts (history : list Point) : list Q :=
  zip_with Geometry.calculate_center_shift (drop 1 history) history.

(** the last [min(K, length - 1)] adjacent pairs *)
Definition window_shifts (history : list Point) (K : Z) : list Q :=
  let pairs := adjacent_shifts history in
  let m := Z.to_nat (Z.min K (Z.of_nat (length history) - 1)) in
  drop (length pairs - m) pairs.

(** the samples that those pairs join *)
Definition window_points (history : list Point) (K : Z) : list Point :=
  let m := Z.to_nat (Z.min K (Z.of_nat (length history) - 1)) in
  drop (length history - S m) history.

Definition is_maximum (m : Q) (l : list Q) : Prop :=
  In m l /\ forall x, In x l -> (x <= m)%Q.

(** The distance as the specification names it, written without the
    helper of the source: the square root of the sum of the squared
    differences of the coordinates. *)
Definition squared_distance (p q : Point) : Z :=
  (p.1 - q.1) ^ 2 + (p.2 - q.2) ^ 2.

Definition euclidean_distance (p q : Point) : Q :=
  math_sqrt (squared_distance p q).

(** the Euclidean distance between each sample and the one before it,
    oldest pair first *)
Definition adjacent_distances (history : list Point) : list Q :=
  zip_with euclidean_distance (drop 1 history) history.

(** those of the last [min(K, length - 1)] adjacent pairs *)
Definition window_distances (history : list Point) (K : Z) : list Q :=
  let pairs := adjacent_distances history in
  let m := Z.to_nat (Z.min K (Z.of_nat (length history) - 1)) in
  drop (length pairs - m) pairs.

(** the displacement from the oldest to the newest sample of a window *)
Definition net_displacement (oldest newest : Point) : Q :=
  euclidean_distance newest oldest.

(** ** The coordinates of an image

    Pixel coordinates are small integers.  Below [2 ^ 31] in absolute
    value, the doubles of the source hold the coordinates, their sums,
    halves and squares without overflow, and [int()] of a mean of them is
    the truncation of the exact mean; statements that say that a function
    returns, or where a value lies, are made on this range. *)
Definition coordinate_bound : Z := 2 ^ 31.

Definition in_range (p : Point) : Prop :=
  Z.abs p.1 <= coordinate_bound /\ Z.abs p.2 <= coordinate_bound.

Definition joints_in_range (landmarks : JointMap) : Prop :=
  forall name p, landmarks !! name = Some p -> in_range p.


(** ** What a call leaves unchanged *)

(** the seven arguments of [__init__] *)
Definition same_config (self self' : FallDetector) : Prop :=
  torso_angle_threshold self' = torso_angle_threshold self
  /\ head_drop_threshold self' = head_drop_threshold self
  /\ center_shift_threshold self' = center_shift_threshold self
  /\ consecutive_frames self' = consecutive_frames self
  /\ cooldown_seconds self' = cooldown_seconds self
  /\ mild_angle_range self' = mild_angle_range self
  /\ severe_angle_min self' = severe_angle_min self.

Definition same_baseline (self self' : FallDetector) : Prop :=
  baseline_head_height self' = baseline_head_height self
  /\ baseline_center self' = baseline_center self
  /\ is_calibrated self' = is_calibrated self.

(** a call made while the cooldown that started at [T] is running: it is
    not [force_reset_cooldown], and a [detect] reads a clock that does not
    go back and stamps its result inside [[T, T + cooldown)] *)
Definition within_cooldown (T cooldown : Q) (c : Call) : Prop :=
  match c with
  | Detect _ _ clock =>
      monotone clock /\ in_cooldown_window T cooldown (t_stamp clock)
  | ForceResetCooldown => False
  | _ => True
  end.

(** ** What the source assumes of the [math] module *)

(** [math.sqrt] is exact on the perfect squares that a double holds
    exactly, those below [2 ^ 53] *)
Definition sqrt_exact : Prop :=
  forall k : Z, 0 <= k -> k * k < 2 ^ 53 ->
    (math_sqrt (k * k) == inject_Z k)%Q.

(** a horizontal segment is at 90 degrees from the vertical *)
Definition atan2_horizontal : Prop :=
  forall y : Z, 0 < y -> (math_degrees (math_atan2 y 0) == 90)%Q.

End Views.

(** ** A rational instance of the [math] interface

    Exact on perfect squares and on the axes; elsewhere an approximation
    ([atan] within 0.004 rad on the quadrant the source uses).  It serves to
    run the model on concrete frames. *)

Definition pi_q : Q := 355 # 113.

Definition atan_unit (t : Q) : Q :=
  (t * (pi_q / 4) + 0.273 * t * (1 - t))%Q.

Definition approx_atan2 (y x : Z) : Q :=
  if y =? 0 then 0%Q
  else if x =? 0 then (pi_q / 2)%Q
  else if y <=? x then atan_unit (inject_Z y / inject_Z x)
  else (pi_q / 2 - atan_unit (inject_Z x / inject_Z y))%Q.

Definition approx_math : MathLib :=
  {| math_sqrt := fun n => inject_Z (Z.sqrt n);
     math_atan2 := approx_atan2;
     math_degrees := fun r => (r * (180 / pi_q))%Q |}.

(** ** Concrete engines and frames *)

Definition clock_at (t : Q) : Clock :=
  {| t_cooldown := t; t_alert := t; t_stamp := t |}.

(** [FallDetector()], the engine with the default arguments *)
Definition default_detector : FallDetector :=
  {| torso_angle_threshold := 35.0;
     head_drop_threshold := 0.15;
     center_shift_threshold := 150.0;
     consecutive_frames := 5;
     cooldown_seconds := 30.0;
     mild_angle_range := (35.0, 50.0)%Q;
     severe_angle_min := 50.0;
     angle_tracker := Tracker.__init__ 30;
     consecutive_detections := 0;
     last_alert_time := 0;
     baseline_head_height := None;
     baseline_center := None;
     is_calibrated := false |}.

(** the default engine after [calibrate(0.0, (0, 0))] *)
Definition calibrated_detector : FallDetector :=
  set_baseline (Some 0%Q) (Some (0, 0)) true default_detector.

(** only the nose is seen, at height [y] *)
Definition nose_at (y : Z) : JointMap := {[ "nose" := (0, y) ]}.

(** a body lying across the frame: shoulders above one another at the left,
    hips at the right, the nose low *)
Definition lying_body : JointMap :=
  <[ "nose" := (0, 400) ]>
  (<[ "left_shoulder" := (0, 0) ]>
  (<[ "right_shoulder" := (0, 0) ]>
  (<[ "left_hip" := (100, 0) ]>
  (<[ "right_hip" := (100, 0) ]> ∅)))).

(** the engine as [app.py] constructs it from the default settings: the head
    drop threshold is 100 pixels of a 480 pixel frame *)
Definition app_detector : FallDetector :=
  {| torso_angle_threshold := 35;
     head_drop_threshold := 100 / 480;
     center_shift_threshold := 150;
     consecutive_frames := 5;
     cooldown_seconds := 30;
     mild_angle_range := (35.0, 50.0)%Q;
     severe_angle_min := 50.0;
     angle_tracker := Tracker.__init__ 30;
     consecutive_detections := 0;
     last_alert_time := 0;
     baseline_head_height := None;
     baseline_center := None;
     is_calibrated := false |}.

(** a body standing upright, its center at abscissa [x] *)
Definition upright_body (x : Z) : JointMap :=
  <[ "left_shoulder" := (x - 50, 100) ]>
  (<[ "right_shoulder" := (x + 50, 100) ]>
  (<[ "left_hip" := (x - 50, 300) ]>
  (<[ "right_hip" := (x + 50, 300) ]> ∅))).

(** the result and the state of a call that returned *)
Definition returned {A : Type} (o : Outcome A) : option A :=
  match o with
  | Returned a _ => Some a
  | Raised _ _ => None
  end.

Definition state_after {A : Type} (o : Outcome A) : FallDetector :=
  match o with
  | Returned _ self => self
  | Raised _ self => self
  end.

(** the torso of [lying_body], the nose out of sight *)
Definition lying_torso : JointMap := delete "nose" lying_body.

(** five frames of a motionless lying torso *)
Definition five_lying_frames : list Call :=
  map (fun t => Detect lying_torso 480 (clock_at (inject_Z t)))
    [1000; 1001; 1002; 1003; 1004].

(** the configurations the specification wants rejected: a negative
    threshold, or a mild angle range whose bounds are inverted *)
Definition invalid_configuration (torso_angle_threshold head_drop_threshold
    center_shift_threshold : Q) (consecutive_frames : Z) (cooldown_seconds : Q)
    (mild_angle_range : Q * Q) (severe_angle_min : Q) : Prop :=
  (torso_angle_threshold < 0)%Q \/ (head_drop_threshold < 0)%Q
  \/ (center_shift_threshold < 0)%Q \/ consecutive_frames < 0
  \/ (cooldown_seconds < 0)%Q \/ (severe_angle_min < 0)%Q
  \/ (mild_angle_range.2 < mild_angle_range.1)%Q.

(** ** detector.py: the accessors of class PoseDetector

    [PoseDetector.detect] hands the frame to MediaPipe and stores the
    landmarks it finds; the model starts from the stored landmarks.
    [np.mean] is the exact mean. *)

Module Pose.

(** one landmark of MediaPipe: normalized coordinates and a visibility *)
Record Landmark : Type := {
  x : Q;
  y : Q;
  visibility : Q
}.

(** the attribute [self.landmarks]: [None] when no pose was found *)
Record PoseDetector : Type := {
  landmarks : option (list Landmark)
}.

(** the dictionary [PoseDetector.LANDMARKS], in the order it is written *)
Definition LANDMARKS : list (string * Z) :=
  [ ("nose", 0); ("left_eye_inner", 1); ("left_eye", 2); ("left_eye_outer", 3);
    ("right_eye_inner", 4); ("right_eye", 5); ("right_eye_outer", 6);
    ("left_ear", 7); ("right_ear", 8); ("mouth_left", 9); ("mouth_right", 10);
    ("left_shoulder", 11); ("right_shoulder", 12); ("left_elbow", 13);
    ("right_elbow", 14); ("left_wrist", 15); ("right_wrist", 16);
    ("left_pinky", 17); ("right_pinky", 18); ("left_index", 19);
    ("right_index", 20); ("left_thumb", 21); ("right_thumb", 22);
    ("left_hip", 23); ("right_hip", 24); ("left_knee", 25); ("right_knee", 26);
    ("left_ankle", 27); ("right_ankle", 28); ("left_heel", 29);
    ("right_heel", 30); ("left_foot_index", 31); ("right_foot_index", 32) ].

(** [self.LANDMARKS[name]], [None] when [name not in self.LANDMARKS] *)
Fixpoint lookup_name (table : list (string * Z)) (name : string) : option Z :=
  match table with
  | [] => None
  | (k, idx) :: rest => if String.eqb k name then Some idx else lookup_name rest name
  end.

(** [(int(landmark.x * frame_width), int(landmark.y * frame_height))] *)
Definition to_pixel (landmark : Landmark) (frame_width frame_height : Z) : Point :=
  (int_of_float (x landmark * inject_Z frame_width)%Q,
   int_of_float (y landmark * inject_Z frame_height)%Q).

Definition get_landmark_position (self : PoseDetector) (landmark_name : string)
    (frame_width frame_height : Z) : Result (option Point) :=
  match landmarks self with
  | None => Ok None
  | Some lms =>
      match lookup_name LANDMARKS landmark_name with
      | None => Ok None
      | Some idx =>
          let! landmark := index lms idx in
          Ok (Some (to_pixel landmark frame_width frame_height))
      end
  end.

(** [for name, idx in self.LANDMARKS.items(): landmarks_dict[name] = ...] *)
Fixpoint fill_landmarks (lms : list Landmark) (items : list (string * Z))
    (frame_width frame_height : Z) (landmarks_dict : JointMap) : Result JointMap :=
  match items with
  | [] => Ok landmarks_dict
  | (name, idx) :: rest =>
      let! landmark := index lms idx in
      fill_landmarks lms rest frame_width frame_height
        (<[ name := to_pixel landmark frame_width frame_height ]> landmarks_dict)
  end.

Definition get_all_landmarks (self : PoseDetector) (frame_width frame_height : Z)
  : Result JointMap :=
  match landmarks self with
  | None => Ok ∅
  | Some lms => fill_landmarks lms LANDMARKS frame_width frame_height ∅
  end.

Definition get_landmark_visibility (self : PoseDetector) (landmark_name : string)
  : Result Q :=
  match landmarks self with
  | None => Ok 0.0%Q
  | Some lms =>
      match lookup_name LANDMARKS landmark_name with
      | None => Ok 0.0%Q
      | Some idx =>
          let! landmark := index lms idx in
          Ok (visibility landmark)
      end
  end.

(** [pos and self.get_landmark_visibility(point) > 0.5]: a position is a
    pair, true as a condition whenever it is not [None] *)
Definition visible_position (self : PoseDetector) (point : string)
    (frame_width frame_height : Z) : Result (option Point) :=
  let! pos := get_landmark_position self point frame_width frame_height in
  match pos with
  | None => Ok None
  | Some p =>
      let! v := get_landmark_visibility self point in
      if Qgtb v 0.5 then Ok (Some p) else Ok None
  end.





Definition get_head_position (self : PoseDetector) (frame_width frame_height : Z)
  : Result (option Point) :=
  visible_position self "nose" frame_width frame_height.

End Pose.

(** ** More views of the engine *)

Section MoreViews.
Context `{MathLib}.

(** frames that trigger no rule, from a given state on *)
Inductive quiet_frames : FallDetector -> list Call -> Prop :=
| quiet_nil self : quiet_frames self []
| quiet_cons self landmarks frame_height clock rest r self' :
    detect landmarks frame_height clock self = Returned r self' ->
    trigger_reasons r = [] ->
    quiet_frames self' rest ->
    quiet_frames self (Detect landmarks frame_height clock :: rest).

(** the engine with other values for the two settings that no method
    reads: [torso_angle_threshold] and the upper end of [mild_angle_range] *)
Definition with_unread_settings (threshold upper : Q) (self : FallDetector)
  : FallDetector :=
  {| torso_angle_threshold := threshold;
     head_drop_threshold := head_drop_threshold self;
     center_shift_threshold := center_shift_threshold self;
     consecutive_frames := consecutive_frames self;
     cooldown_seconds := cooldown_seconds self;
     mild_angle_range := ((mild_angle_range self).1, upper);
     severe_angle_min := severe_angle_min self;
     angle_tracker := angle_tracker self;
     consecutive_detections := consecutive_detections self;
     last_alert_time := last_alert_time self;
     baseline_head_height := baseline_head_height self;
     baseline_center := baseline_center self;
     is_calibrated := is_calibrated self |}.

(** a [detect] call on a frame that has no body center *)
Definition centerless (c : Call) : Prop :=
  match c with
  | Detect landmarks _ _ => Geometry.calculate_body_center landmarks = Ok None
  | _ => False
  end.

(** a [detect] call on a frame whose body center is [c] *)
Definition frame_center (call : Call) (c : Point) : Prop :=
  match call with
  | Detect landmarks _ _ => Geometry.calculate_body_center landmarks = Ok (Some c)
  | _ => False
  end.

(** the buffer holds two successive centers more than [threshold] apart,
    with [k] centers after them *)
Definition jump_in_window (threshold : Q) (history : list Point) (k : nat) : Prop :=
  exists l p q rest,
    history = l ++ [p; q] ++ rest
    /\ length rest = k
    /\ (threshold < Geometry.calculate_center_shift q p)%Q.

(** a tracker fed with a stream of samples, absent ones included *)
Definition feed (tr : Tracker.AngleTracker)
    (samples : list (option Q * option Point * option Q)) : Tracker.AngleTracker :=
  fold_left (fun t s => Tracker.update t s.1.1 s.1.2 s.2) samples tr.

(** the last [n] elements of a list *)
Definition last_n {A : Type} (n : nat) (l : list A) : list A :=
  drop (length l - n) l.

(** what every reachable engine satisfies *)
Definition engine_invariant (self : FallDetector) : Prop :=
  0 <= consecutive_detections self
  /\ Tracker.history_size (angle_tracker self) = 30
  /\ (length (Tracker.torso_history (angle_tracker self)) <= 30)%nat
  /\ (length (Tracker.center_history (angle_tracker self)) <= 30)%nat
  /\ (length (Tracker.head_height_history (angle_tracker self)) <= 30)%nat
  /\ (is_calibrated self = true
      <-> is_Some (baseline_head_height self) /\ is_Some (baseline_center self))
  /\ (is_calibrated self = false
      <-> baseline_head_height self = None /\ baseline_center self = None).

End MoreViews.

(** ** app.py: the body of the loop of [FallDetectionApp.start]

    What the loop does with the two detectors; reading the camera, drawing,
    printing and sending the alert are left out.  [detected], the value
    that [PoseDetector.detect] returned, is true exactly when it stored
    landmarks. *)

Module App.
Section App.
Context `{MathLib}.

(** the result that the loop builds itself when no pose was found *)
Definition default_result (time_time : Q) : DetectionResult :=
  {| is_fall_detected := false;
     severity := NONE;
     torso_angle := None;
     head_height := None;
     center_shift := None;
     trigger_reasons := [];
     timestamp := time_time;
     confidence := 0.0 |}.

(** [if detected: landmarks = get_all_landmarks(w, h);
     detection_result = fall_detector.detect(landmarks, h)
     else: detection_result = DetectionResult(...)] *)
Definition process_frame (pose_detector : Pose.PoseDetector) (w h : Z)
    (clock : Clock) : M DetectionResult :=
  match Pose.landmarks pose_detector with
  | Some _ =>
      do! landmarks := lift (Pose.get_all_landmarks pose_detector w h) in
      detect landmarks h clock
  | None => ret (default_result (t_stamp clock))
  end.

(** the key [c]: [if center and head_height: calibrate(head_height, center)];
    a pair is true as a condition, a float is true when it is not zero *)
Definition on_key_c (pose_detector : Pose.PoseDetector) (w h : Z) : M unit :=
  match Pose.landmarks pose_detector with
  | Some _ =>
      do! landmarks := lift (Pose.get_all_landmarks pose_detector w h) in
      do! center := lift (Geometry.calculate_body_center landmarks) in
      do! head_height := lift (Geometry.calculate_head_height_ratio landmarks h) in
      match center, head_height with
      | Some c, Some hh =>
          if Qeq_bool hh 0 then ret tt else calibrate hh c
      | _, _ => ret tt
      end
  | None => ret tt
  end.

(** the key [r] *)
Definition on_key_r : M unit := force_reset_cooldown.

End App.
End App.

(** landmarks of a person upright in the middle of the frame, all visible;
    the nose is the only landmark above the shoulders *)
Definition standing_landmarks : list Pose.Landmark :=
  map (fun i =>
         if i =? 0 then {| Pose.x := 0.5; Pose.y := 0.2; Pose.visibility := 0.9 |}
         else if i =? 11 then {| Pose.x := 0.4; Pose.y := 0.3; Pose.visibility := 0.9 |}
         else if i =? 12 then {| Pose.x := 0.6; Pose.y := 0.3; Pose.visibility := 0.9 |}
         else if i =? 23 then {| Pose.x := 0.4; Pose.y := 0.6; Pose.visibility := 0.9 |}
         else if i =? 24 then {| Pose.x := 0.6; Pose.y := 0.6; Pose.visibility := 0.3 |}
         else {| Pose.x := 0.5; Pose.y := 0.5; Pose.visibility := 0.9 |})
    (range 0 33).

Definition standing_pose : Pose.PoseDetector :=
  {| Pose.landmarks := Some standing_landmarks |}.

(** a tracker that holds one sample of each kind *)
Definition sampled_tracker : Tracker.AngleTracker :=
  Tracker.update (Tracker.__init__ 30) (Some 10%Q) (Some (0, 0)) (Some (1 # 2)).

(** the default engine after one frame of a body standing at abscissa 100 *)
Definition first_frame_detector : FallDetector :=
  state_after (detect (H := approx_math) (upright_body 100) 480 (clock_at 1000)
                 default_detector).

(** then a second frame of the body standing 300 pixels to the right *)
Definition shifted_detector : FallDetector :=
  state_after (detect (H := approx_math) (upright_body 400) 480 (clock_at 1001)
                 first_frame_detector).

(** two frames that show the nose only *)
Definition two_nose_frames : list Call :=
  [Detect (nose_at 100) 480 (clock_at 1002); Detect (nose_at 100) 480 (clock_at 1003)].

(** three frames of a body standing still *)
Definition three_upright_frames : list Call :=
  map (fun t => Detect (upright_body 150) 480 (clock_at (inject_Z t)))
    [1000; 1001; 1002].

(** the default engine with its counter at 2 *)
Definition counting_detector : FallDetector :=
  set_consecutive_detections 2 default_detector.

(** the upright body of [upright_body], standing on its head *)
Definition headstand_body (x : Z) : JointMap :=
  <[ "left_shoulder" := (x - 50, 300) ]>
  (<[ "right_shoulder" := (x + 50, 300) ]>
  (<[ "left_hip" := (x - 50, 100) ]>
  (<[ "right_hip" := (x + 50, 100) ]> ∅))).

(** the upright body seen in a mirror *)
Definition mirrored_body (x : Z) : JointMap :=
  <[ "left_shoulder" := (x + 50, 100) ]>
  (<[ "right_shoulder" := (x - 50, 100) ]>
  (<[ "left_hip" := (x + 50, 300) ]>
  (<[ "right_hip" := (x - 50, 300) ]> ∅))).

(** the standing person with the nose in the top row of the frame *)
Definition top_row_pose : Pose.PoseDetector :=
  {| Pose.landmarks :=
       Some ({| Pose.x := 0.5; Pose.y := 0; Pose.visibility := 0.9 |}
             :: drop 1 standing_landmarks) |}.

(** the jump of 300 pixels, then four frames of the body standing still *)
Definition jump_frames : list Call :=
  map (fun t => Detect (upright_body 400) 480 (clock_at (inject_Z t)))
    [1001; 1002; 1003; 1004; 1005].

(** the body centers of [upright_body 100] and of [upright_body 400] *)
Definition center_before_jump : Point := (100, 233).
Definition center_after_jump : Point := (400, 233).

(** a tracker whose center went from (0, 0) to (3, 4) and came back *)
Definition back_and_forth_tracker : Tracker.AngleTracker :=
  {| Tracker.history_size := 30;
     Tracker.torso_history := [];
     Tracker.center_history := [(0, 0); (3, 4); (0, 0)];
     Tracker.head_height_history := [] |}.

(** * Lemmas *)

(** ** Comparisons and Python primitives *)

Lemma Qltb_true (x y : Q) : Qltb x y = true <-> (x < y)%Q.
Proof.
  unfold Qltb. destruct (Qle_bool y x) eqn:E; cbn [negb].
  - apply Qle_bool_iff in E. split; [discriminate | intros; lra].
  - split; intros; [|reflexivity].
    apply Qnot_le_lt. intros Hle. apply Qle_bool_iff in Hle. congruence.
Qed.

Lemma Qltb_false (x y : Q) : Qltb x y = false <-> (y <= x)%Q.
Proof.
  unfold Qltb. rewrite negb_false_iff. apply Qle_bool_iff.
Qed.

Lemma Qgtb_true (x y : Q) : Qgtb x y = true <-> (y < x)%Q.
Proof. apply Qltb_true. Qed.

Lemma Qgeb_true (x y : Q) : Qgeb x y = true <-> (y <= x)%Q.
Proof. apply Qle_bool_iff. Qed.

Lemma index_from_end {A : Type} (l : list A) (k : nat) (x : A) :
  (1 <= k <= length l)%nat ->
  l !! (length l - k)%nat = Some x ->
  index l (- Z.of_nat k) = Ok x.
Proof.
  intros Hk Hx. unfold index.
  replace (- Z.of_nat k <? 0) with true by (symmetry; apply Z.ltb_lt; lia).
  replace (Z.of_nat (length l) + - Z.of_nat k <? 0) with false
    by (symmetry; apply Z.ltb_ge; lia).
  replace (Z.of_nat (length l) <=? Z.of_nat (length l) + - Z.of_nat k) with false
    by (symmetry; apply Z.leb_gt; lia).
  cbn [orb].
  replace (Z.to_nat (Z.of_nat (length l) + - Z.of_nat k)) with (length l - k)%nat by lia.
  by rewrite Hx.
Qed.

Lemma index_from_end_total {A : Type} (l : list A) (k : nat) :
  (1 <= k <= length l)%nat -> exists x, l !! (length l - k)%nat = Some x /\ index l (- Z.of_nat k) = Ok x.
Proof.
  intros Hk.
  destruct (lookup_lt_is_Some_2 l (length l - k)%nat) as [x Hx]; [lia|].
  exists x. split; [done|]. by apply index_from_end.
Qed.

Lemma range_neg_S (c : nat) :
  range (- Z.of_nat (S c)) 0 = (- Z.of_nat (S c)) :: range (- Z.of_nat c) 0.
Proof.
  unfold range.
  replace (Z.to_nat (0 - - Z.of_nat (S c))) with (S c) by lia.
  replace (Z.to_nat (0 - - Z.of_nat c)) with c by lia.
  cbn [seq map]. rewrite <- seq_shift, map_map.
  f_equal; try lia. apply map_ext. intros k. lia.
Qed.

Lemma range_empty (a : Z) : 0 <= a -> range a 0 = [].
Proof. intros Ha. unfold range. by replace (Z.to_nat (0 - a)) with 0%nat by lia. Qed.

(** [max] returns an element of the list that no element exceeds. *)
Lemma fold_max_step_spec (xs : list Q) (x : Q) :
  In (fold_left max_step xs x) (x :: xs)
  /\ forall y, In y (x :: xs) -> (y <= fold_left max_step xs x)%Q.
Proof.
  revert x. induction xs as [|z xs IH]; intros x; cbn [fold_left].
  - split; [by left|]. intros y [<-|[]]. apply Qle_refl.
  - destruct (IH (max_step x z)) as [Hin Hub]. split.
    + destruct Hin as [Heq|Hin]; [|right; by right].
      rewrite <- Heq. unfold max_step.
      destruct (Qgtb z x); [right; by left | by left].
    + intros y Hy.
      assert (Hstep : (x <= max_step x z /\ z <= max_step x z)%Q).
      { unfold max_step. destruct (Qgtb z x) eqn:E.
        - apply Qgtb_true in E. split; [by apply Qlt_le_weak | apply Qle_refl].
        - apply Qltb_false in E. split; [apply Qle_refl | done]. }
      destruct Hstep as [Hx Hz].
      assert (Hm := Hub (max_step x z) (or_introl eq_refl)).
      destruct Hy as [<-|[<-|Hy]].
      * by eapply Qle_trans.
      * by eapply Qle_trans.
      * apply Hub. by right.
Qed.

Lemma max_spec (l : list Q) (m : Q) :
  Py.max l = Ok m -> In m l /\ forall y, In y l -> (y <= m)%Q.
Proof.
  destruct l as [|x xs]; [discriminate|].
  intros [= <-]. apply fold_max_step_spec.
Qed.

(** ** Geometry: no function raises on missing joints *)

Section GeometryFacts.
Context `{MathLib}.

Lemma contains_true (lm : JointMap) (p : string) :
  Geometry.contains lm p = true ->
  exists v, lm !! p = Some v /\ Geometry.getitem lm p = Ok v.
Proof.
  unfold Geometry.contains, Geometry.getitem.
  destruct (lm !! p) as [v|]; [eauto | discriminate].
Qed.

Lemma contains_false (lm : JointMap) (p : string) :
  Geometry.contains lm p = false <-> lm !! p = None.
Proof.
  unfold Geometry.contains. destruct (lm !! p); split; congruence.
Qed.

Lemma any_missing_false (lm : JointMap) (pts : list string) (p : string) :
  Geometry.any_missing lm pts = false -> In p pts -> Geometry.contains lm p = true.
Proof.
  induction pts as [|q pts IH]; cbn [Geometry.any_missing]; [intros _ []|].
  destruct (Geometry.contains lm q) eqn:Eq; cbn [negb]; [|discriminate].
  intros Hrest [<-|Hin]; auto.
Qed.

Lemma any_missing_true (lm : JointMap) (pts : list string) (p : string) :
  In p pts -> lm !! p = None -> Geometry.any_missing lm pts = true.
Proof.
  intros Hin Hp. destruct (Geometry.any_missing lm pts) eqn:E; [done|].
  apply (any_missing_false _ _ p) in E; [|done].
  apply contains_false in Hp. congruence.
Qed.

Ltac lookup_joint lm E p :=
  let v := fresh "v" in
  let Hv := fresh "Hv" in
  let Hg := fresh "Hg" in
  destruct (contains_true lm p) as (v & Hv & Hg);
  [ first [ apply (any_missing_false lm _ p E); cbn; tauto | assumption ]
  | rewrite Hg; cbn [Py.bind] ].

Lemma calculate_torso_angle_returns (lm : JointMap) :
  exists v, Geometry.calculate_torso_angle lm = Ok v.
Proof.
  unfold Geometry.calculate_torso_angle.
  destruct (Geometry.any_missing lm Geometry.required_points) eqn:E; [eauto|].
  lookup_joint lm E "left_shoulder". lookup_joint lm E "right_shoulder".
  lookup_joint lm E "left_hip". lookup_joint lm E "right_hip". eauto.
Qed.

Lemma calculate_body_center_returns (lm : JointMap) :
  exists v, Geometry.calculate_body_center lm = Ok v.
Proof.
  unfold Geometry.calculate_body_center.
  destruct (Geometry.any_missing lm Geometry.required_points) eqn:E; [eauto|].
  lookup_joint lm E "left_shoulder". lookup_joint lm E "right_shoulder".
  lookup_joint lm E "left_hip". lookup_joint lm E "right_hip". eauto.
Qed.

Lemma calculate_shoulder_angle_returns (lm : JointMap) :
  exists v, Geometry.calculate_shoulder_angle lm = Ok v.
Proof.
  unfold Geometry.calculate_shoulder_angle.
  destruct (Geometry.contains lm "left_shoulder") eqn:E1; cbn [negb orb]; [|eauto].
  destruct (Geometry.contains lm "right_shoulder") eqn:E2; cbn [negb]; [|eauto].
  lookup_joint lm E1 "left_shoulder". lookup_joint lm E2 "right_shoulder". eauto.
Qed.

Lemma calculate_hip_angle_returns (lm : JointMap) :
  exists v, Geometry.calculate_hip_angle lm = Ok v.
Proof.
  unfold Geometry.calculate_hip_angle.
  destruct (Geometry.contains lm "left_hip") eqn:E1; cbn [negb orb]; [|eauto].
  destruct (Geometry.contains lm "right_hip") eqn:E2; cbn [negb]; [|eauto].
  lookup_joint lm E1 "left_hip". lookup_joint lm E2 "right_hip". eauto.
Qed.

Lemma calculate_leg_angles_returns (lm : JointMap) :
  exists v, Geometry.calculate_leg_angles lm = Ok v.
Proof.
  unfold Geometry.calculate_leg_angles.
  destruct (Geometry.contains lm "left_hip") eqn:E1;
    destruct (Geometry.contains lm "left_ankle") eqn:E2;
    destruct (Geometry.contains lm "right_hip") eqn:E3;
    destruct (Geometry.contains lm "right_ankle") eqn:E4;
    cbn [andb Py.bind];
    repeat match goal with
      | E : Geometry.contains lm ?p = true |- context [Geometry.getitem lm ?p] =>
          lookup_joint lm E p
      end; eauto.
Qed.

Lemma calculate_torso_angle_missing (lm : JointMap) (p : string) :
  In p Geometry.required_points -> lm !! p = None ->
  Geometry.calculate_torso_angle lm = Ok None.
Proof.
  intros Hin Hp. unfold Geometry.calculate_torso_angle.
  by rewrite (any_missing_true lm _ p Hin Hp).
Qed.

Lemma calculate_body_center_missing (lm : JointMap) (p : string) :
  In p Geometry.required_points -> lm !! p = None ->
  Geometry.calculate_body_center lm = Ok None.
Proof.
  intros Hin Hp. unfold Geometry.calculate_body_center.
  by rewrite (any_missing_true lm _ p Hin Hp).
Qed.

Lemma calculate_head_height_ratio_missing (lm : JointMap) (h : Z) :
  lm !! "nose" = None -> Geometry.calculate_head_height_ratio lm h = Ok None.
Proof.
  intros Hp. unfold Geometry.calculate_head_height_ratio.
  apply contains_false in Hp. by rewrite Hp.
Qed.

Lemma calculate_head_height_ratio_present (lm : JointMap) (h : Z) (nose : Point) :
  lm !! "nose" = Some nose -> h <> 0 ->
  Geometry.calculate_head_height_ratio lm h
  = Ok (Some (inject_Z nose.2 / inject_Z h)%Q).
Proof.
  intros Hp Hh.
  unfold Geometry.calculate_head_height_ratio, Geometry.contains,
    Geometry.getitem, int_truediv.
  rewrite Hp. cbn [negb Py.bind].
  by destruct (Z.eqb_spec h 0).
Qed.


Lemma calculate_head_height_ratio_returns (lm : JointMap) (h : Z) :
  h <> 0 -> exists v, Geometry.calculate_head_height_ratio lm h = Ok v.
Proof.
  intros Hh. destruct (lm !! "nose") as [nose|] eqn:Hp.
  - rewrite (calculate_head_height_ratio_present lm h nose Hp Hh). eauto.
  - rewrite (calculate_head_height_ratio_missing lm h Hp). eauto.
Qed.

End GeometryFacts.

(** ** The tracker: its queries return, and [get_max_center_shift] is the
    maximum over the window *)

Section TrackerFacts.
Context `{MathLib}.

Lemma get_head_height_change_returns (tr : Tracker.AngleTracker) :
  exists v, Tracker.get_head_height_change tr = Ok v.
Proof.
  unfold Tracker.get_head_height_change.
  destruct (Z.ltb_spec (Z.of_nat (length (Tracker.head_height_history tr))) 2);
    [eauto|].
  change (-1) with (- Z.of_nat 1). change (-2) with (- Z.of_nat 2).
  destruct (index_from_end_total (Tracker.head_height_history tr) 1)
    as (a & _ & ->); [lia|].
  destruct (index_from_end_total (Tracker.head_height_history tr) 2)
    as (b & _ & ->); [lia|].
  cbn [Py.bind]. eauto.
Qed.

Lemma get_center_shift_returns (tr : Tracker.AngleTracker) :
  exists v, Tracker.get_center_shift tr = Ok v.
Proof.
  unfold Tracker.get_center_shift.
  destruct (Z.ltb_spec (Z.of_nat (length (Tracker.center_history tr))) 2);
    [eauto|].
  change (-1) with (- Z.of_nat 1). change (-2) with (- Z.of_nat 2).
  destruct (index_from_end_total (Tracker.center_history tr) 1)
    as (a & _ & ->); [lia|].
  destruct (index_from_end_total (Tracker.center_history tr) 2)
    as (b & _ & ->); [lia|].
  cbn [Py.bind]. eauto.
Qed.

Lemma length_adjacent_shifts (history : list Point) :
  length (adjacent_shifts history) = (length history - 1)%nat.
Proof.
  unfold adjacent_shifts. rewrite length_zip_with, length_drop. lia.
Qed.

Lemma lookup_adjacent_shifts (history : list Point) (j : nat) (cur prev : Point) :
  history !! S j = Some cur -> history !! j = Some prev ->
  adjacent_shifts history !! j = Some (Geometry.calculate_center_shift cur prev).
Proof.
  intros Hc Hp. unfold adjacent_shifts.
  apply lookup_zip_with_Some. exists cur, prev.
  rewrite lookup_drop. auto.
Qed.

(** the loop of [get_max_center_shift] collects the last [c] adjacent
    shifts, oldest first *)
Lemma shifts_loop (history : list Point) (c : nat) :
  (c <= length history - 1)%nat ->
  for_append
    (fun i =>
       let! cur := index history i in
       let! prev := index history (i - 1) in
       Ok (Geometry.calculate_center_shift cur prev))
    (range (- Z.of_nat c) 0)
  = Ok (drop (length history - 1 - c) (adjacent_shifts history)).
Proof.
  induction c as [|c IH]; intros Hc.
  - rewrite range_empty by lia. cbn [for_append].
    rewrite drop_ge; [done|]. rewrite length_adjacent_shifts. lia.
  - rewrite range_neg_S. cbn [for_append].
    destruct (index_from_end_total history (S c)) as (cur & Hcur & ->); [lia|].
    replace (- Z.of_nat (S c) - 1) with (- Z.of_nat (S (S c))) by lia.
    destruct (index_from_end_total history (S (S c))) as (prev & Hprev & ->); [lia|].
    cbn [Py.bind]. rewrite IH by lia. cbn [Py.bind].
    f_equal. symmetry.
    replace (length history - 1 - c)%nat with (S (length history - 1 - S c)) by lia.
    apply drop_S. apply lookup_adjacent_shifts.
    + by replace (S (length history - 1 - S c)) with (length history - S c)%nat by lia.
    + by replace (length history - 1 - S c)%nat with (length history - S (S c))%nat by lia.
Qed.

Lemma get_max_center_shift_window (tr : Tracker.AngleTracker) (K : Z) :
  Tracker.get_max_center_shift tr K
  = Ok (if Z.of_nat (length (Tracker.center_history tr)) <? 2 then None
        else match window_shifts (Tracker.center_history tr) K with
             | [] => None
             | x :: xs => Some (fold_left max_step xs x)
             end).
Proof.
  unfold Tracker.get_max_center_shift, window_shifts.
  set (history := Tracker.center_history tr).
  destruct (Z.ltb_spec (Z.of_nat (length history)) 2) as [|Hlen]; [done|].
  set (cf := Z.min K (Z.of_nat (length history) - 1)).
  rewrite length_adjacent_shifts.
  assert (Hc : (Z.to_nat cf <= length history - 1)%nat) by lia.
  destruct (Z.le_gt_cases cf 0) as [Hneg|Hpos].
  - rewrite range_empty by lia. cbn [for_append Py.bind].
    replace (Z.to_nat cf) with 0%nat by lia.
    rewrite drop_ge; [done|]. rewrite length_adjacent_shifts. lia.
  - replace (- cf) with (- Z.of_nat (Z.to_nat cf)) by lia.
    rewrite (shifts_loop history (Z.to_nat cf) Hc). cbn [Py.bind].
    by destruct (drop _ _).
Qed.

Lemma get_max_center_shift_returns (tr : Tracker.AngleTracker) (K : Z) :
  exists v, Tracker.get_max_center_shift tr K = Ok v.
Proof. rewrite get_max_center_shift_window. eauto. Qed.

Lemma window_shifts_nonempty (history : list Point) (K : Z) :
  (2 <= length history)%nat -> 1 <= K -> window_shifts history K <> [].
Proof.
  intros Hlen HK Hnil. apply (f_equal length) in Hnil.
  unfold window_shifts in Hnil.
  rewrite length_drop, length_adjacent_shifts in Hnil. cbn [length] in Hnil. lia.
Qed.

End TrackerFacts.

(** ** One call of [detect] *)

Section DetectFacts.
Context `{MathLib}.

Lemma torso_rule_cases self torso :
  torso_rule self torso = (false, NONE)
  \/ (exists angle, torso = Some angle /\
        (torso_rule self torso = (true, MILD) \/ torso_rule self torso = (true, SEVERE))).
Proof.
  destruct torso as [angle|]; [|by left].
  unfold torso_rule, _check_torso_angle.
  destruct (Qgeb angle (severe_angle_min self)); [right; eauto|].
  destruct (Qgeb angle (mild_angle_range self).1); [right; eauto|by left].
Qed.

Lemma _check_head_drop_returns (self : FallDetector) (hh : Q) :
  exists b, _check_head_drop self hh = Ok b.
Proof.
  unfold _check_head_drop.
  destruct (get_head_height_change_returns (angle_tracker self)) as [v ->].
  cbn [Py.bind].
  destruct (match v with Some hc => _ | None => _ end); [eauto|].
  destruct (baseline_head_height self); [|eauto].
  destruct (Qgtb _ _); eauto.
Qed.

Lemma head_rule_returns (self : FallDetector) (head : option Q) :
  exists b, head_rule self head = Ok b.
Proof.
  destruct head as [hh|]; cbn [head_rule]; [apply _check_head_drop_returns | eauto].
Qed.

Lemma head_rule_absent (self : FallDetector) : head_rule self None = Ok false.
Proof. reflexivity. Qed.

Lemma _check_center_shift_returns (self : FallDetector) :
  exists b, _check_center_shift self = Ok b.
Proof.
  unfold _check_center_shift.
  destruct (get_max_center_shift_returns (angle_tracker self) 5) as [v ->].
  cbn [Py.bind].
  destruct (match v with Some ms => _ | None => _ end); eauto.
Qed.

Lemma _calculate_confidence_returns (self : FallDetector) (n : Z)
    (sev : AlertSeverity) :
  consecutive_frames self <> 0 -> exists c, _calculate_confidence self n sev = Ok c.
Proof.
  intros Hf. unfold _calculate_confidence, int_truediv.
  destruct (Z.eqb_spec (consecutive_frames self) 0); [done|].
  cbn [Py.bind]. eauto.
Qed.

Lemma _calculate_confidence_zero (self : FallDetector) (n : Z)
    (sev : AlertSeverity) :
  consecutive_frames self = 0 ->
  _calculate_confidence self n sev = Raise ZeroDivisionError.
Proof.
  intros Hf. unfold _calculate_confidence, int_truediv. by rewrite Hf.
Qed.

Lemma decide_Returned reasons sev torso head clk self1 r self' :
  decide reasons sev torso head clk self1 = Returned r self' ->
  exists conf shift,
    let n := Z.of_nat (length reasons) in
    let self2 := set_consecutive_detections (next_counter self1 n) self1 in
    let alert :=
      eligible self1 n (next_counter self1 n)
      && negb (_is_in_cooldown self1 (t_cooldown clk)) in
    _calculate_confidence self2 n sev = Ok conf
    /\ Tracker.get_center_shift (angle_tracker self1) = Ok shift
    /\ r = {| is_fall_detected := alert;
              severity := sev;
              torso_angle := torso;
              head_height := head;
              center_shift := shift;
              trigger_reasons := reasons;
              timestamp := t_stamp clk;
              confidence := conf |}
    /\ self' = (if alert then set_last_alert_time (t_alert clk) self2 else self2).
Proof.
  unfold decide, mbind, call, get, modify, ret, eligible, next_counter,
    _is_in_cooldown.
  set (n := Z.of_nat (length reasons)).
  intros Hd.
  destruct (n >? 0); cbn [consecutive_detections consecutive_frames
    last_alert_time cooldown_seconds set_consecutive_detections] in Hd |- *.
  all: destruct (n >=? 2); cbn [orb andb] in Hd |- *.
  all: try match type of Hd with
           | context [?a >=? consecutive_frames ?s] =>
               destruct (a >=? consecutive_frames s)
           end; cbn [orb andb] in Hd |- *.
  all: try destruct (Qltb (t_cooldown clk - last_alert_time self1)
                       (cooldown_seconds self1)); cbn [negb] in Hd |- *.
  all: match type of Hd with
       | context [_calculate_confidence ?s ?k ?v] =>
           destruct (_calculate_confidence s k v) as [conf|] eqn:Ec;
           [|discriminate]
       end.
  all: match type of Hd with
       | context [Tracker.get_center_shift ?t] =>
           destruct (Tracker.get_center_shift t) as [shift|] eqn:Es;
           [|discriminate]
       end.
  all: injection Hd as <- <-; exists conf, shift.
  all: repeat split; solve [exact Ec | exact Es].
Qed.

Ltac detect_center Hd torso clk self1 b1 s1 v2 :=
  let b3 := fresh "b3" in
  let E3 := fresh "E3" in
  let conf := fresh "conf" in
  let shift := fresh "shift" in
  cbn beta iota zeta in Hd;
  (destruct (_check_center_shift self1) as [b3|] eqn:E3; [|discriminate]);
  destruct b3; cbn beta iota zeta in Hd;
  match type of Hd with
  | _ = Returned ?r ?s' =>
      match type of E3 with
      | _ = Ok ?v3 =>
          destruct (decide_Returned (reasons_of torso b1 v2 v3)
                      (severity_of s1 b1 v2 v3) torso _ clk self1 r s' Hd)
            as (conf & shift & ? & ? & ? & ?);
          exists v2, v3, conf, shift; repeat split; assumption
      end
  end.

Ltac detect_branch Hd torso head clk self1 b1 s1 :=
  let b2 := fresh "b2" in
  let E2 := fresh "E2" in
  destruct head as [?hh|];
  [ match type of Hd with
    | context [_check_head_drop self1 ?x] =>
        destruct (_check_head_drop self1 x) as [b2|] eqn:E2;
        [|discriminate]
    end;
    destruct b2;
    [ detect_center Hd torso clk self1 b1 s1 true
    | detect_center Hd torso clk self1 b1 s1 false ]
  | detect_center Hd torso clk self1 b1 s1 false ].

Lemma detect_Returned lm h clk self r self' :
  detect lm h clk self = Returned r self' ->
  exists torso center head b2 b3 conf shift,
    let self1 :=
      set_angle_tracker
        (Tracker.update (angle_tracker self) torso center head) self in
    let b1 := (torso_rule self1 torso).1 in
    let s1 := (torso_rule self1 torso).2 in
    let reasons := reasons_of torso b1 b2 b3 in
    let n := Z.of_nat (length reasons) in
    let self2 := set_consecutive_detections (next_counter self n) self1 in
    let alert :=
      eligible self n (next_counter self n)
      && negb (_is_in_cooldown self (t_cooldown clk)) in
    Geometry.calculate_torso_angle lm = Ok torso
    /\ Geometry.calculate_body_center lm = Ok center
    /\ Geometry.calculate_head_height_ratio lm h = Ok head
    /\ head_rule self1 head = Ok b2
    /\ _check_center_shift self1 = Ok b3
    /\ _calculate_confidence self2 n (severity_of s1 b1 b2 b3) = Ok conf
    /\ Tracker.get_center_shift (angle_tracker self1) = Ok shift
    /\ r = {| is_fall_detected := alert;
              severity := severity_of s1 b1 b2 b3;
              torso_angle := torso;
              head_height := head;
              center_shift := shift;
              trigger_reasons := reasons;
              timestamp := t_stamp clk;
              confidence := conf |}
    /\ self' = (if alert then set_last_alert_time (t_alert clk) self2 else self2).
Proof.
  intros Hd.
  unfold detect, mbind at 1 2 3 4 5 6 7, lift, call at 1 2 3, modify at 1, get at 1 in Hd.
  destruct (Geometry.calculate_torso_angle lm) as [torso|] eqn:Et; [|discriminate].
  destruct (Geometry.calculate_body_center lm) as [center|] eqn:Ec; [|discriminate].
  destruct (Geometry.calculate_head_height_ratio lm h) as [head|] eqn:Eh; [|discriminate].
  exists torso, center, head.
  set (self1 := set_angle_tracker _ self) in *.
  unfold mbind at 1 2, modify at 1, get at 1, call at 1 2, ret at 1 in Hd.
  destruct torso as [angle|];
    unfold torso_rule, _check_torso_angle in *;
    [ destruct (Qgeb angle (severe_angle_min self1));
      [ detect_branch Hd (Some angle) head clk self1 true SEVERE
      | destruct (Qgeb angle (mild_angle_range self1).1);
        [ detect_branch Hd (Some angle) head clk self1 true MILD
        | detect_branch Hd (Some angle) head clk self1 false NONE ] ]
    | detect_branch Hd (@None Q) head clk self1 false NONE ].
Qed.

Lemma decide_returns reasons sev torso head clk self1 :
  consecutive_frames self1 <> 0 ->
  exists r self', decide reasons sev torso head clk self1 = Returned r self'.
Proof.
  intros Hf.
  unfold decide, mbind, call, get, modify, ret.
  set (n := Z.of_nat (length reasons)).
  match goal with
  | |- context [if ?c then (fun s : FallDetector => Returned tt (set_last_alert_time _ s)) else _] =>
      destruct c
  end.
  all: match goal with
       | |- context [_calculate_confidence ?s ?k ?v] =>
           destruct (_calculate_confidence_returns s k v) as [conf ->];
           [by destruct (n >? 0)|]
       end.
  all: match goal with
       | |- context [Tracker.get_center_shift ?t] =>
           destruct (get_center_shift_returns t) as [shift ->]
       end.
  all: eauto.
Qed.

(** [detect], once the three features and the two fallible rules are
    known, is its closing part on the reasons and severity they give. *)
Lemma detect_forward lm h clk self torso center head b2 b3 :
  let self1 :=
    set_angle_tracker
      (Tracker.update (angle_tracker self) torso center head) self in
  Geometry.calculate_torso_angle lm = Ok torso ->
  Geometry.calculate_body_center lm = Ok center ->
  Geometry.calculate_head_height_ratio lm h = Ok head ->
  head_rule self1 head = Ok b2 ->
  _check_center_shift self1 = Ok b3 ->
  detect lm h clk self
  = decide (reasons_of torso (torso_rule self1 torso).1 b2 b3)
      (severity_of (torso_rule self1 torso).2 (torso_rule self1 torso).1 b2 b3)
      torso head clk self1.
Proof.
  intros self1 Et Ec Eh E2 E3.
  unfold detect, mbind at 1 2 3 4 5 6 7, lift, call at 1 2 3, modify at 1, get at 1.
  rewrite Et, Ec, Eh. fold self1.
  unfold mbind at 1 2, modify at 1, get at 1, call at 1 2, ret at 1.
  destruct torso as [angle|]; unfold torso_rule, _check_torso_angle in *;
    [ destruct (Qgeb angle (severe_angle_min self1));
      [ | destruct (Qgeb angle (mild_angle_range self1).1) ] | ];
    (destruct head as [hh|]; cbn [head_rule] in E2;
     [ rewrite E2; destruct b2 | injection E2 as <- ]);
    cbn beta iota zeta; rewrite E3; destruct b3; reflexivity.
Qed.

Lemma detect_returns lm h clk self :
  h <> 0 -> consecutive_frames self <> 0 ->
  exists r self', detect lm h clk self = Returned r self'.
Proof.
  intros Hh Hf.
  destruct (calculate_torso_angle_returns lm) as [torso Et].
  destruct (calculate_body_center_returns lm) as [center Ec].
  destruct (calculate_head_height_ratio_returns lm h Hh) as [head Eh].
  set (self1 := set_angle_tracker
                  (Tracker.update (angle_tracker self) torso center head) self).
  destruct (head_rule_returns self1 head) as [b2 E2].
  destruct (_check_center_shift_returns self1) as [b3 E3].
  rewrite (detect_forward lm h clk self torso center head b2 b3 Et Ec Eh E2 E3).
  by apply decide_returns.
Qed.

End DetectFacts.

(** ** Summary of one returning [detect] call *)

Section DetectSummary.
Context `{MathLib}.

Lemma detect_summary lm h clk self r self' :
  detect lm h clk self = Returned r self' ->
  let n := Z.of_nat (length (trigger_reasons r)) in
  consecutive_detections self' = next_counter self n
  /\ is_fall_detected r
     = eligible self n (consecutive_detections self')
       && negb (_is_in_cooldown self (t_cooldown clk))
  /\ last_alert_time self'
     = (if is_fall_detected r then t_alert clk else last_alert_time self)
  /\ timestamp r = t_stamp clk
  /\ same_config self self'
  /\ same_baseline self self'.
Proof.
  intros Hd.
  destruct (detect_Returned _ _ _ _ _ _ Hd)
    as (torso & center & head & b2 & b3 & conf & shift & Hall).
  cbv zeta in Hall.
  destruct Hall as (_ & _ & _ & _ & _ & _ & _ & -> & ->).
  cbn [trigger_reasons is_fall_detected timestamp].
  set (n := Z.of_nat (length _)).
  destruct (eligible self n (next_counter self n)
            && negb (_is_in_cooldown self (t_cooldown clk))) eqn:Ea;
    cbn [consecutive_detections last_alert_time set_last_alert_time
         set_consecutive_detections set_angle_tracker];
    rewrite Ea; repeat split; reflexivity.
Qed.

Lemma eligible_true (self : FallDetector) (n counter : Z) :
  eligible self n counter = true
  <-> 2 <= n \/ consecutive_frames self <= counter.
Proof.
  unfold eligible. rewrite orb_true_iff, !Z.geb_le. tauto.
Qed.

End DetectSummary.

(** ** The model on the scenarios of the specification *)

(** an upright body triggers no rule *)
Example upright_frame_triggers_nothing :
  option_map trigger_reasons
    (returned (detect (H := approx_math) (upright_body 150) 480 (clock_at 1000)
                 default_detector))
  = Some [].
Proof. by vm_compute. Qed.

(** the nose drops from 100 to 400 within one frame of a 480 pixel image:
    the head rule triggers *)
Example head_drop_between_two_frames :
  let s1 := state_after (detect (H := approx_math) (nose_at 100) 480
                           (clock_at 1000) app_detector) in
  option_map trigger_reasons
    (returned (detect (H := approx_math) (nose_at 400) 480 (clock_at 1001) s1))
  = Some [HeadHeightDropped].
Proof. by vm_compute. Qed.

(** C5.  The torso rule and the head rule are guarded by the presence of
    their feature; the center rule is not.  After two frames whose body
    centers are 300 pixels apart, a frame that shows the nose only has no
    body center, and [detect] still returns the center rule among its
    reasons. *)
Example center_rule_on_frame_without_center :
  let s1 := state_after (detect (H := approx_math) (upright_body 100) 480
                           (clock_at 1000) default_detector) in
  let s2 := state_after (detect (H := approx_math) (upright_body 400) 480
                           (clock_at 1001) s1) in
  Geometry.calculate_body_center (nose_at 100) = Ok None
  /\ option_map trigger_reasons
       (returned (detect (H := approx_math) (nose_at 100) 480 (clock_at 1002) s2))
     = Some [BodyCenterShifted].
Proof. by vm_compute. Qed.

Section ConcreteFacts.
Context `{MathLib}.

Lemma default_init_detector : default_init = Ok default_detector.
Proof. reflexivity. Qed.

Lemma default_detector_reachable : reachable default_detector.
Proof.
  apply (reachable_init 35.0 0.15 150.0 5 30.0 (35.0, 50.0)%Q 50.0).
  reflexivity.
Qed.

Lemma calibrated_detector_reachable : reachable calibrated_detector.
Proof.
  apply (reachable_call default_detector (Calibrate 0 (0, 0)) None).
  - apply default_detector_reachable.
  - reflexivity.
Qed.

Lemma reachable_run (calls : list Call) (self self' : FallDetector) os :
  reachable self -> run calls self = Returned os self' -> reachable self'.
Proof.
  revert self os. induction calls as [|c rest IH]; intros self os Hr Hrun.
  - injection Hrun as _ <-. done.
  - cbn [run] in Hrun. unfold mbind at 1 in Hrun.
    destruct (exec c self) as [o s1|] eqn:Ec; [|discriminate].
    unfold mbind at 1 in Hrun.
    destruct (run rest s1) as [os' s2|] eqn:Er; [|discriminate].
    injection Hrun as _ <-.
    eapply IH; [|exact Er]. eapply reachable_call; eauto.
Qed.

End ConcreteFacts.

(** * Properties of the decision engine *)

Section Properties.
Context `{MathLib}.

(** C1.  For every [detect] call that returns there is an eligibility flag
    [should_alert] that is true exactly when at least two rules triggered
    in the frame or the counter, as updated by this call, has reached
    [consecutive_frames]; the alarm of the result is that flag gated by the
    cooldown.  In particular there is a reachable engine and a frame in
    which two distinct rules trigger and the alarm fires although the
    counter is below [consecutive_frames]. *)
Theorem alarm_eligibility :
  atan2_horizontal ->
  (forall lm h clk self r self',
      detect lm h clk self = Returned r self' ->
      let n := Z.of_nat (length (trigger_reasons r)) in
      exists should_alert : bool,
        (should_alert = true
         <-> 2 <= n \/ consecutive_frames self' <= consecutive_detections self')
        /\ is_fall_detected r
           = should_alert && negb (_is_in_cooldown self (t_cooldown clk)))
  /\ (exists lm h clk self r self' angle,
        reachable self
        /\ detect lm h clk self = Returned r self'
        /\ trigger_reasons r = [TorsoAngleAbnormal angle; HeadHeightDropped]
        /\ consecutive_detections self' < consecutive_frames self'
        /\ is_fall_detected r = true).
Proof.
  intros Hatan. split.
  - intros lm h clk self r self' Hd n.
    destruct (detect_summary _ _ _ _ _ _ Hd) as (_ & Ha & _ & _ & Hc & _).
    fold n in Ha. exists (eligible self n (consecutive_detections self')).
    split; [|exact Ha].
    rewrite eligible_true. destruct Hc as (_ & _ & _ & -> & _). tauto.
  - set (a := math_degrees (math_atan2 100 0)).
    set (self1 :=
           set_angle_tracker
             (Tracker.update (angle_tracker calibrated_detector)
                (Some a) (Some (66, 0)) (Some (inject_Z 400 / inject_Z 480)%Q))
             calibrated_detector).
    assert (Htorso : torso_rule self1 (Some a) = (true, SEVERE)).
    { unfold torso_rule, _check_torso_angle.
      replace (Qgeb a (severe_angle_min self1)) with true; [done|].
      symmetry. apply Qgeb_true. unfold a. rewrite (Hatan 100) by lia.
      by vm_compute. }
    assert (Hfwd := detect_forward lying_body 480 (clock_at 1000)
                      calibrated_detector (Some a) (Some (66, 0))
                      (Some (inject_Z 400 / inject_Z 480)%Q) true false).
    cbv zeta in Hfwd. fold self1 in Hfwd. rewrite Htorso in Hfwd.
    cbn [fst snd] in Hfwd.
    destruct (decide_returns
                (reasons_of (Some a) true true false)
                (severity_of SEVERE true true false)
                (Some a) (Some (inject_Z 400 / inject_Z 480)%Q)
                (clock_at 1000) self1) as (r & self' & Hdec); [by vm_compute|].
    exists lying_body, 480, (clock_at 1000), calibrated_detector, r, self', a.
    split; [apply calibrated_detector_reachable|].
    split.
    { rewrite <- Hdec. apply Hfwd; by vm_compute. }
    destruct (decide_Returned _ _ _ _ _ _ _ _ Hdec)
      as (conf & shift & _ & _ & -> & ->).
    by vm_compute.
Qed.

(** one call made inside the cooldown window keeps the window and raises
    no alarm *)
Lemma cooldown_step (T cd : Q) (c : Call) (self self' : FallDetector) o :
  last_alert_time self = T -> cooldown_seconds self = cd ->
  within_cooldown T cd c ->
  exec c self = Returned o self' ->
  last_alert_time self' = T /\ cooldown_seconds self' = cd
  /\ forall r, o = Some r -> is_fall_detected r = false.
Proof.
  intros HT Hcd Hw He. destruct c as [lm h clk|hh ctr| |]; cbn [exec] in He.
  - unfold mbind, ret in He.
    destruct (detect lm h clk self) as [r s1|] eqn:Hd; [|discriminate].
    injection He as <- <-.
    destruct (detect_summary _ _ _ _ _ _ Hd) as (_ & Ha & Hl & _ & Hc & _).
    destruct Hw as [[Hm1 Hm2] [_ Hin]].
    assert (Hcool : _is_in_cooldown self (t_cooldown clk) = true).
    { unfold _is_in_cooldown. apply Qltb_true. rewrite HT, Hcd. lra. }
    rewrite Hcool, andb_false_r in Ha. rewrite Ha in Hl.
    destruct Hc as (_ & _ & _ & _ & Hc & _).
    repeat split; [congruence | congruence | by intros r' [= <-]].
  - injection He as <- <-. repeat split; [done | done | discriminate].
  - injection He as <- <-. repeat split; [done | done | discriminate].
  - destruct Hw.
Qed.

Lemma cooldown_run (calls : list Call) (self self2 : FallDetector) os :
  Forall (within_cooldown (last_alert_time self) (cooldown_seconds self)) calls ->
  run calls self = Returned os self2 ->
  forall r', In (Some r') os -> is_fall_detected r' = false.
Proof.
  revert self os. induction calls as [|c rest IH]; intros self os Hall Hrun r' Hin.
  - injection Hrun as <- _. destruct Hin.
  - cbn [run] in Hrun. unfold mbind at 1 in Hrun.
    destruct (exec c self) as [o s1|] eqn:Ec; [|discriminate].
    unfold mbind at 1 in Hrun.
    destruct (run rest s1) as [os' s2'|] eqn:Er; [|discriminate].
    injection Hrun as <- <-.
    inversion Hall as [|? ? Hc Hrest]. clear Hall.
    destruct (cooldown_step _ _ _ _ _ _ eq_refl eq_refl Hc Ec)
      as (HT' & Hcd' & Hres).
    destruct Hin as [Heq|Hin]; [by apply Hres|].
    apply (IH s1 os'); [|done|done]. by rewrite HT', Hcd'.
Qed.

(** C2.  When a [detect] call raises the alarm, [last_alert_time] becomes
    the clock reading of that moment, [T]; from then on no [detect] call
    whose timestamp lies in [[T, T + cooldown_seconds)] returns
    [is_fall_detected = true], whatever the frames trigger (calls of
    [calibrate] and [reset_calibration] may come in between). *)
Theorem cooldown_suppresses lm h clk self r self1 :
  detect lm h clk self = Returned r self1 ->
  is_fall_detected r = true ->
  last_alert_time self1 = t_alert clk
  /\ forall calls os self2,
      Forall (within_cooldown (t_alert clk) (cooldown_seconds self1)) calls ->
      run calls self1 = Returned os self2 ->
      forall r', In (Some r') os -> is_fall_detected r' = false.
Proof.
  intros Hd Hfire.
  destruct (detect_summary _ _ _ _ _ _ Hd) as (_ & _ & Hl & _).
  rewrite Hfire in Hl. split; [done|].
  intros calls os self2 Hall. rewrite <- Hl in Hall.
  by apply cooldown_run.
Qed.

(** the counter after a [detect] call *)
Lemma detect_counter lm h clk self r self' :
  detect lm h clk self = Returned r self' ->
  consecutive_detections self'
  = match trigger_reasons r with
    | [] => Z.max 0 (consecutive_detections self - 1)
    | _ :: _ => consecutive_detections self + 1
    end.
Proof.
  intros Hd. destruct (detect_summary _ _ _ _ _ _ Hd) as (Hc & _).
  rewrite Hc. unfold next_counter. by destruct (trigger_reasons r).
Qed.

Lemma single_rule_run (N : Z) (frames : list Call) (self : FallDetector) :
  single_rule_frames self frames ->
  consecutive_frames self = N ->
  0 <= consecutive_detections self ->
  consecutive_detections self + Z.of_nat (length frames) <= N ->
  (forall c clock, In c frames -> clock_of c = Some clock ->
     _is_in_cooldown self (t_cooldown clock) = false) ->
  exists rs self',
    run frames self = Returned (map Some rs) self'
    /\ length rs = length frames
    /\ consecutive_detections self'
       = consecutive_detections self + Z.of_nat (length frames)
    /\ forall k r, rs !! k = Some r ->
         is_fall_detected r
         = (consecutive_detections self + Z.of_nat (S k) =? N).
Proof.
  intros Hs. induction Hs as [self|self lm h clk rest r s1 Hd Hone Hs IH];
    intros HN Hc0 Hlen Hgate.
  - exists [], self. cbn. repeat split; [lia|]. intros k r Hk. by destruct k.
  - destruct (detect_summary _ _ _ _ _ _ Hd) as (Hc & Ha & Hl & _ & Hcfg & _).
    cbv zeta in Hc, Ha. rewrite Hone in Hc, Ha. unfold next_counter in Hc.
    change (Z.of_nat 1 >? 0) with true in Hc. cbn iota in Hc.
    rewrite (Hgate _ clk (or_introl eq_refl) eq_refl) in Ha.
    unfold eligible in Ha. change (Z.of_nat 1 >=? 2) with false in Ha.
    rewrite Hc, HN in Ha. cbn [orb negb] in Ha. rewrite andb_true_r in Ha.
    cbn [length] in Hlen.
    assert (Hr : is_fall_detected r = (consecutive_detections self + 1 =? N)).
    { rewrite Ha. destruct (Z.geb_spec (consecutive_detections self + 1) N),
        (Z.eqb_spec (consecutive_detections self + 1) N); lia. }
    destruct rest as [|c rest].
    + exists [r], s1. cbn [run map length]. unfold mbind, ret. cbn [exec].
      unfold mbind, ret. rewrite Hd. repeat split; [lia|].
      intros [|k] r' Hk; [|by destruct k].
      injection Hk as <-. rewrite Hr. f_equal; lia.
    + assert (Hno : is_fall_detected r = false).
      { rewrite Hr. apply Z.eqb_neq. cbn [length] in Hlen. lia. }
      rewrite Hno in Hl.
      destruct Hcfg as (_ & _ & _ & Hcf & Hcd & _).
      destruct IH as (rs & s2 & Hrun & Hlrs & Hcnt & Hflags).
      * congruence.
      * lia.
      * cbn [length] in Hlen |- *. lia.
      * intros c' clock Hin Hclk. unfold _is_in_cooldown.
        rewrite Hl, Hcd. apply (Hgate c' clock); [by right | done].
      * exists (r :: rs), s2. split.
        { change (run (Detect lm h clk :: c :: rest) self)
            with (mbind (exec (Detect lm h clk))
                    (fun o => mbind (run (c :: rest)) (fun os => ret (o :: os)))
                    self).
          unfold mbind at 1. cbn [exec]. unfold mbind at 1, ret at 1.
          rewrite Hd. unfold mbind at 1. rewrite Hrun. reflexivity. }
        cbn [length] in *.
        split; [lia|].
        split; [rewrite Hcnt, Hc; lia|].
        intros [|k] r' Hk.
        { injection Hk as <-. rewrite Hr. f_equal; lia. }
        { cbn in Hk. rewrite (Hflags k r' Hk), Hc. f_equal; lia. }
Qed.

(** C3.  From an engine whose counter is 0 and for which no cooldown is
    running (as after construction), [consecutive_frames] frames that each
    trigger exactly one rule are all processed, the alarm is raised on the
    last of them and on none before, and the counter ends at
    [consecutive_frames]; in every [detect] call the counter goes up by one
    when a rule triggered and down by one, not below 0, otherwise. *)
Theorem debounce_first_alarm (self : FallDetector) (frames : list Call) :
  consecutive_detections self = 0 ->
  1 <= consecutive_frames self ->
  length frames = Z.to_nat (consecutive_frames self) ->
  single_rule_frames self frames ->
  (forall c clock, In c frames -> clock_of c = Some clock ->
     _is_in_cooldown self (t_cooldown clock) = false) ->
  (exists rs self',
      run frames self = Returned (map Some rs) self'
      /\ length rs = length frames
      /\ consecutive_detections self' = consecutive_frames self
      /\ forall k r, rs !! k = Some r ->
           is_fall_detected r = bool_decide (S k = length frames))
  /\ (forall lm h clk s r s',
        detect lm h clk s = Returned r s' ->
        consecutive_detections s'
        = match trigger_reasons r with
          | [] => Z.max 0 (consecutive_detections s - 1)
          | _ :: _ => consecutive_detections s + 1
          end).
Proof.
  intros Hc0 HN Hlen Hs Hgate. split; [|apply detect_counter].
  destruct (single_rule_run (consecutive_frames self) frames self Hs eq_refl)
    as (rs & self' & Hrun & Hlrs & Hcnt & Hflags); [lia | lia | done |].
  exists rs, self'. repeat split; [done | done | lia |].
  intros k r Hk. rewrite (Hflags k r Hk), Hc0.
  destruct (Z.eqb_spec (0 + Z.of_nat (S k)) (consecutive_frames self));
    [rewrite bool_decide_eq_true_2 | rewrite bool_decide_eq_false_2]; lia.
Qed.

(** C9.  The torso angle of a result is the one that
    [calculate_torso_angle] computes from the joints of the frame.  The
    severity that [detect] returns is SEVERE exactly when that angle was
    computed and is at least [severe_angle_min]; when a rule triggered and
    the torso rule did not, the severity is MILD. *)
Theorem severe_only_from_torso lm h clk self r self' :
  detect lm h clk self = Returned r self' ->
  Geometry.calculate_torso_angle lm = Ok (torso_angle r)
  /\ (severity r = SEVERE
      <-> exists angle, Geometry.calculate_torso_angle lm = Ok (Some angle)
                        /\ (severe_angle_min self <= angle)%Q)
  /\ (trigger_reasons r <> [] ->
      (forall angle, ~ In (TorsoAngleAbnormal angle) (trigger_reasons r)) ->
      severity r = MILD).
Proof.
  intros Hd.
  destruct (detect_Returned _ _ _ _ _ _ Hd)
    as (torso & center & head & b2 & b3 & conf & shift & Hall).
  cbv zeta in Hall. destruct Hall as (Et & _ & _ & _ & _ & _ & _ & -> & _).
  cbn [severity torso_angle trigger_reasons].
  split; [exact Et|]. rewrite Et.
  set (self1 := set_angle_tracker _ self).
  destruct torso as [angle|]; cbn [torso_rule].
  - unfold _check_torso_angle.
    change (severe_angle_min self1) with (severe_angle_min self).
    destruct (Qgeb angle (severe_angle_min self)) eqn:Es; cbn [fst snd].
    + apply Qgeb_true in Es. split.
      * split; [eauto | done].
      * intros _ Hno. destruct (Hno angle). cbn. by left.
    + assert (Hlt : ~ (severe_angle_min self <= angle)%Q).
      { intros Hle. apply Qgeb_true in Hle. congruence. }
      destruct (Qgeb angle (mild_angle_range self1).1); cbn [fst snd].
      * split.
        { split; [discriminate | by intros (a & [= <-] & Ha)]. }
        { intros _ Hno. destruct (Hno angle). cbn. by left. }
      * split.
        { split; [by destruct b2, b3 | by intros (a & [= <-] & Ha)]. }
        { by destruct b2, b3. }
  - cbn [fst snd]. split.
    + split; [by destruct b2, b3 | by intros (a & [=] & _)].
    + by destruct b2, b3.
Qed.

(** the helper of the source computes the Euclidean distance *)
Lemma calculate_center_shift_euclidean (p q : Point) :
  Geometry.calculate_center_shift p q = euclidean_distance p q.
Proof.
  unfold Geometry.calculate_center_shift, euclidean_distance, squared_distance.
  cbv zeta. f_equal; try lia.
Qed.

Lemma window_shifts_distances (history : list Point) (K : Z) :
  window_shifts history K = window_distances history K.
Proof.
  unfold window_shifts, window_distances, adjacent_shifts, adjacent_distances.
  assert (Hz : forall l1 l2 : list Point,
            zip_with Geometry.calculate_center_shift l1 l2
            = zip_with euclidean_distance l1 l2).
  { induction l1 as [|a l1 IH]; intros [|b l2]; cbn [zip_with]; try done.
    by rewrite calculate_center_shift_euclidean, IH. }
  by rewrite Hz.
Qed.

(** C6.  With fewer than two buffered centers, or a window [K <= 0],
    [get_max_center_shift] returns [None].  With at least two centers,
    image coordinates and a window [K >= 1], it returns the largest of
    the Euclidean distances (the square root of the sum of the squared
    coordinate differences) between consecutive samples over the last
    [min(K, length - 1)] adjacent pairs.  This is not the displacement
    from the oldest to the newest sample of the window: a center that
    moves away and comes back has a positive maximum shift and no net
    displacement. *)
Theorem max_center_shift_is_window_maximum :
  sqrt_exact ->
  (forall (tr : Tracker.AngleTracker) (K : Z),
      let history := Tracker.center_history tr in
      ((length history < 2)%nat -> Tracker.get_max_center_shift tr K = Ok None)
      /\ (K <= 0 -> Tracker.get_max_center_shift tr K = Ok None)
      /\ ((2 <= length history)%nat -> 1 <= K -> Forall in_range history ->
          exists m,
            Tracker.get_max_center_shift tr K = Ok (Some m)
            /\ is_maximum m (window_distances history K)))
  /\ (exists (tr : Tracker.AngleTracker) (m : Q) (oldest newest : Point),
        Forall in_range (Tracker.center_history tr)
        /\ Tracker.get_max_center_shift tr 5 = Ok (Some m)
        /\ (m == 5)%Q
        /\ head (window_points (Tracker.center_history tr) 5) = Some oldest
        /\ last (window_points (Tracker.center_history tr) 5) = Some newest
        /\ (net_displacement oldest newest == 0)%Q).
Proof.
  intros Hsqrt. split.
  - intros tr K history. rewrite get_max_center_shift_window. fold history.
    rewrite window_shifts_distances.
    split; [|split].
    + intros Hlt.
      by destruct (Z.ltb_spec (Z.of_nat (length history)) 2); [|lia].
    + intros HK.
      destruct (Z.ltb_spec (Z.of_nat (length history)) 2); [done|].
      replace (window_distances history K) with (@nil Q); [done|].
      symmetry. unfold window_distances.
      replace (Z.to_nat (Z.min K (Z.of_nat (length history) - 1))) with 0%nat by lia.
      apply drop_ge. lia.
    + intros Hge HK _.
      destruct (Z.ltb_spec (Z.of_nat (length history)) 2); [lia|].
      pose proof (window_shifts_nonempty history K Hge HK) as Hne.
      rewrite window_shifts_distances in Hne.
      destruct (window_distances history K) as [|x xs]; [done|].
      eexists. split; [reflexivity|]. apply fold_max_step_spec.
  - set (s := math_sqrt 25).
    exists {| Tracker.history_size := 30;
              Tracker.torso_history := [];
              Tracker.center_history := [(0, 0); (3, 4); (0, 0)];
              Tracker.head_height_history := [] |},
      (max_step s s), (0, 0), (0, 0).
    assert (H5 : (s == 5)%Q) by apply (Hsqrt 5 ltac:(lia) eq_refl).
    split; [repeat constructor; by vm_compute|].
    split; [reflexivity|].
    split; [unfold max_step; by destruct (Qgtb s s)|].
    split; [reflexivity|]. split; [reflexivity|].
    apply (Hsqrt 0 ltac:(lia) eq_refl).
Qed.

(** C8.  An alarm with no rule triggered.  From the default engine,
    calibrated, five frames that trigger the head rule raise the alarm, a
    sixth one is held back by the cooldown and takes the counter to 6;
    a seventh frame, after the cooldown, triggers nothing, brings the
    counter down to 5, still at the threshold, and [detect] returns
    [is_fall_detected = true] with no reason and severity NONE. *)
Theorem alarm_without_trigger :
  exists lm h clk self r self',
    reachable self
    /\ detect lm h clk self = Returned r self'
    /\ is_fall_detected r = true
    /\ trigger_reasons r = []
    /\ severity r = NONE
    /\ consecutive_frames self <= consecutive_detections self'
    /\ consecutive_detections self' < consecutive_detections self.
Proof.
  set (calls := map (fun t => Detect (nose_at 400) 480 (clock_at (inject_Z t)))
                  [1000; 1001; 1002; 1003; 1004; 1005]).
  destruct (run calls calibrated_detector) as [os s6|e s6] eqn:Hrun;
    [|by vm_compute in Hrun].
  assert (Hreach : reachable s6)
    by (eapply reachable_run; [apply calibrated_detector_reachable | exact Hrun]).
  vm_compute in Hrun. injection Hrun as _ <-.
  match goal with
  | _ : reachable ?s |- _ =>
      destruct (detect (nose_at 0) 480 (clock_at 1040) s) as [r s7|e s7] eqn:Hd;
      [|by vm_compute in Hd];
      exists (nose_at 0), 480, (clock_at 1040), s, r, s7
  end.
  split; [done|]. split; [done|].
  vm_compute in Hd. injection Hd as <- <-. by vm_compute.
Qed.

End Properties.

(** C10.  [calibrate] changes the three baseline fields and nothing else;
    [reset_calibration] clears the baseline fields and empties the three
    buffers of the tracker; neither changes [consecutive_detections],
    [last_alert_time] or the configuration. *)
Theorem calibration_keeps_alert_state (self : FallDetector) (head_height : Q)
    (center : Point) :
  (exists self',
      calibrate head_height center self = Returned tt self'
      /\ consecutive_detections self' = consecutive_detections self
      /\ last_alert_time self' = last_alert_time self
      /\ angle_tracker self' = angle_tracker self
      /\ same_config self self'
      /\ baseline_head_height self' = Some head_height
      /\ baseline_center self' = Some center
      /\ is_calibrated self' = true)
  /\ (exists self',
        reset_calibration self = Returned tt self'
        /\ consecutive_detections self' = consecutive_detections self
        /\ last_alert_time self' = last_alert_time self
        /\ same_config self self'
        /\ baseline_head_height self' = None
        /\ baseline_center self' = None
        /\ is_calibrated self' = false
        /\ Tracker.history_size (angle_tracker self')
           = Tracker.history_size (angle_tracker self)
        /\ Tracker.torso_history (angle_tracker self') = []
        /\ Tracker.center_history (angle_tracker self') = []
        /\ Tracker.head_height_history (angle_tracker self') = []).
Proof.
  split; eexists; (split; [reflexivity|]); repeat split.
Qed.

(** C4, as the code has it.  [__init__] validates nothing: for every
    configuration it returns an engine that stores the seven arguments as
    given, with counter 0, [last_alert_time] 0, no baseline and an empty
    tracker of capacity 30. *)
Theorem construction_always_succeeds (a1 a2 a3 : Q) (a4 : Z) (a5 : Q)
    (a6 : Q * Q) (a7 : Q) :
  exists self,
    __init__ a1 a2 a3 a4 a5 a6 a7 = Ok self
    /\ torso_angle_threshold self = a1
    /\ head_drop_threshold self = a2
    /\ center_shift_threshold self = a3
    /\ consecutive_frames self = a4
    /\ cooldown_seconds self = a5
    /\ mild_angle_range self = a6
    /\ severe_angle_min self = a7
    /\ angle_tracker self = Tracker.__init__ 30
    /\ consecutive_detections self = 0
    /\ last_alert_time self = 0%Q
    /\ baseline_head_height self = None
    /\ baseline_center self = None
    /\ is_calibrated self = false.
Proof. eexists. split; [reflexivity|]. repeat split. Qed.

(** C4 fails as stated: a negative threshold together with an inverted mild
    range is accepted and yields an engine. *)
Lemma construction_accepts_invalid_configuration :
  invalid_configuration (-1) 0.15 150.0 5 30.0 (50.0, 35.0)%Q 50.0
  /\ exists self, __init__ (-1) 0.15 150.0 5 30.0 (50.0, 35.0)%Q 50.0 = Ok self.
Proof.
  split; [left; reflexivity | eexists; reflexivity].
Qed.

(** ** Head height *)

(** C7.  The docstring of [calculate_head_height_ratio] gives the range of
    the value it returns as 0.0 to 1.0.  The function divides without
    clamping: a nose below the lower edge of the frame, which the pose
    source can report, gives a ratio above 1. *)
Lemma head_height_ratio_exceeds_one :
  nose_at 500 !! "nose" = Some (0, 500)
  /\ 0 < 480
  /\ Geometry.calculate_head_height_ratio (nose_at 500) 480
     = Ok (Some (inject_Z 500 / inject_Z 480)%Q)
  /\ ~ (inject_Z 500 / inject_Z 480 <= 1)%Q.
Proof.
  split; [reflexivity|]. split; [lia|]. split; [by vm_compute|].
  intros Hle. by vm_compute in Hle.
Qed.

(** ** The rational instance satisfies what is assumed of [math] *)

Lemma approx_math_atan2_horizontal : @atan2_horizontal approx_math.
Proof.
  intros y Hy. cbn [math_degrees math_atan2 approx_math]. unfold approx_atan2.
  destruct (Z.eqb_spec y 0); [lia|]. by vm_compute.
Qed.

Lemma approx_math_sqrt_exact : @sqrt_exact approx_math.
Proof.
  intros k Hk _. cbn [math_sqrt approx_math]. by rewrite Z.sqrt_square.
Qed.

(** ** The theorems at concrete frames *)

Ltac single_rule_step :=
  lazymatch goal with
  | |- @single_rule_frames ?M ?s (Detect ?lm ?h ?c :: _) =>
      let o := eval vm_compute in (@detect M lm h c s) in
      lazymatch o with
      | Returned ?r ?s' =>
          apply (@single_rule_cons M s lm h c _ r s');
          [ vm_compute; reflexivity | reflexivity | ]
      end
  | |- single_rule_frames _ [] => apply single_rule_nil
  end.

Lemma alarm_eligibility_witness :
  @atan2_horizontal approx_math
  /\ exists lm h clk self r self' angle,
      reachable (H := approx_math) self
      /\ detect (H := approx_math) lm h clk self = Returned r self'
      /\ trigger_reasons r = [TorsoAngleAbnormal angle; HeadHeightDropped]
      /\ consecutive_detections self' < consecutive_frames self'
      /\ is_fall_detected r = true.
Proof.
  split; [exact approx_math_atan2_horizontal|].
  exact (proj2 (alarm_eligibility (H := approx_math) approx_math_atan2_horizontal)).
Defined.

Lemma cooldown_suppresses_witness :
  exists r self1 os self2,
    detect (H := approx_math) lying_body 480 (clock_at 1000) calibrated_detector
    = Returned r self1
    /\ is_fall_detected r = true
    /\ Forall (within_cooldown 1000 30.0) [Detect lying_body 480 (clock_at 1010)]
    /\ run (H := approx_math) [Detect lying_body 480 (clock_at 1010)] self1
       = Returned os self2
    /\ last_alert_time self1 = 1000%Q
    /\ forall r', In (Some r') os -> is_fall_detected r' = false.
Proof.
  destruct (detect (H := approx_math) lying_body 480 (clock_at 1000)
              calibrated_detector) as [r self1|e self1] eqn:Hd;
    [|by vm_compute in Hd].
  assert (Hv := Hd). vm_compute in Hv. injection Hv as Hr Hs.
  assert (Hfire : is_fall_detected r = true) by (by rewrite <- Hr).
  destruct (run (H := approx_math) [Detect lying_body 480 (clock_at 1010)] self1)
    as [os self2|e self2] eqn:Hrun; [|by rewrite <- Hs in Hrun; vm_compute in Hrun].
  assert (Hwin : Forall (within_cooldown 1000 30.0)
                   [Detect lying_body 480 (clock_at 1010)]).
  { repeat constructor; by vm_compute. }
  exists r, self1, os, self2.
  split; [done|]. split; [done|]. split; [done|]. split; [done|].
  destruct (cooldown_suppresses lying_body 480 (clock_at 1000) calibrated_detector
              r self1 Hd Hfire) as [HT Hno].
  split; [exact HT|].
  apply (Hno [Detect lying_body 480 (clock_at 1010)] os self2); [|exact Hrun].
  rewrite <- Hs. exact Hwin.
Defined.

Lemma debounce_first_alarm_witness :
  consecutive_detections default_detector = 0
  /\ length five_lying_frames = Z.to_nat (consecutive_frames default_detector)
  /\ single_rule_frames (H := approx_math) default_detector five_lying_frames
  /\ exists rs self',
      run (H := approx_math) five_lying_frames default_detector
      = Returned (map Some rs) self'
      /\ length rs = length five_lying_frames
      /\ consecutive_detections self' = consecutive_frames default_detector
      /\ forall k r, rs !! k = Some r ->
           is_fall_detected r = bool_decide (S k = length five_lying_frames).
Proof.
  assert (Hs : single_rule_frames (H := approx_math) default_detector
                 five_lying_frames).
  { unfold five_lying_frames. cbn [map]. repeat single_rule_step. }
  split; [reflexivity|]. split; [reflexivity|]. split; [exact Hs|].
  apply (debounce_first_alarm (H := approx_math) default_detector five_lying_frames).
  - reflexivity.
  - by vm_compute.
  - reflexivity.
  - exact Hs.
  - intros c clock Hin Hclk. unfold five_lying_frames in Hin. cbn [map In] in Hin.
    repeat destruct Hin as [<-|Hin]; try destruct Hin;
      injection Hclk as <-; reflexivity.
Defined.

Lemma max_center_shift_is_window_maximum_witness :
  @sqrt_exact approx_math
  /\ (2 <= length (Tracker.center_history back_and_forth_tracker))%nat
  /\ 1 <= 5
  /\ Forall in_range (Tracker.center_history back_and_forth_tracker)
  /\ exists m,
       Tracker.get_max_center_shift (H := approx_math) back_and_forth_tracker 5
       = Ok (Some m)
       /\ is_maximum m
            (window_distances (H := approx_math)
               (Tracker.center_history back_and_forth_tracker) 5).
Proof.
  assert (Hlen : (2 <= length (Tracker.center_history back_and_forth_tracker))%nat)
    by (cbn; lia).
  assert (HK : 1 <= 5) by lia.
  assert (Hrange : Forall in_range (Tracker.center_history back_and_forth_tracker))
    by (repeat constructor; by vm_compute).
  split; [exact approx_math_sqrt_exact|]. split; [exact Hlen|].
  split; [exact HK|]. split; [exact Hrange|].
  exact (proj2 (proj2 (proj1 (max_center_shift_is_window_maximum (H := approx_math)
                                approx_math_sqrt_exact)
                         back_and_forth_tracker 5)) Hlen HK Hrange).
Defined.

Lemma severe_only_from_torso_witness :
  exists r self' r' self'' angle,
    detect (H := approx_math) lying_body 480 (clock_at 1000) calibrated_detector
    = Returned r self'
    /\ Geometry.calculate_torso_angle (H := approx_math) lying_body
       = Ok (Some angle)
    /\ (severe_angle_min calibrated_detector <= angle)%Q
    /\ torso_angle r = Some angle
    /\ severity r = SEVERE
    /\ detect (H := approx_math) (nose_at 400) 480 (clock_at 1000)
         calibrated_detector = Returned r' self''
    /\ Geometry.calculate_torso_angle (H := approx_math) (nose_at 400) = Ok None
    /\ trigger_reasons r' = [HeadHeightDropped]
    /\ severity r' = MILD.
Proof.
  destruct (detect (H := approx_math) lying_body 480 (clock_at 1000)
              calibrated_detector) as [r self'|e self'] eqn:Hd;
    [|by vm_compute in Hd].
  destruct (detect (H := approx_math) (nose_at 400) 480 (clock_at 1000)
              calibrated_detector) as [r' self''|e self''] eqn:Hd';
    [|by vm_compute in Hd'].
  destruct (Geometry.calculate_torso_angle (H := approx_math) lying_body)
    as [[angle|]|e] eqn:Ht; [|by vm_compute in Ht..].
  assert (Hge : (severe_angle_min calibrated_detector <= angle)%Q).
  { assert (Hv := Ht). vm_compute in Hv. injection Hv as <-. by vm_compute. }
  destruct (severe_only_from_torso (H := approx_math) lying_body 480 (clock_at 1000)
              calibrated_detector r self' Hd) as (Hang & Hsev & _).
  destruct (severe_only_from_torso (H := approx_math) (nose_at 400) 480
              (clock_at 1000) calibrated_detector r' self'' Hd')
    as (_ & _ & Hmild).
  assert (Hreasons : trigger_reasons r' = [HeadHeightDropped]).
  { assert (Hv := Hd'). vm_compute in Hv. injection Hv as Hr _. by rewrite <- Hr. }
  exists r, self', r', self'', angle.
  split; [reflexivity|]. split; [reflexivity|]. split; [exact Hge|].
  split; [rewrite Ht in Hang; by injection Hang|].
  split; [apply Hsev; exists angle; by rewrite Ht|].
  split; [reflexivity|]. split; [by vm_compute|]. split; [exact Hreasons|].
  apply Hmild; rewrite Hreasons; [done|].
  intros a [[=]|[]].
Defined.

(** * Further properties of the code *)

(** ** The bounded buffers of [AngleTracker] *)

Lemma length_last_n {A : Type} (n : nat) (l : list A) :
  length (last_n n l) = Nat.min n (length l).
Proof. unfold last_n. rewrite length_drop. lia. Qed.

(** pushing onto the last [size] samples gives the last [size] samples of
    the longer stream *)
Lemma push_last_n {A : Type} (size : Z) (xs : list A) (x : A) :
  Tracker.push size (last_n (Z.to_nat size) xs) x
  = last_n (Z.to_nat size) (xs ++ [x]).
Proof.
  unfold Tracker.push, last_n.
  rewrite length_app, (length_app xs), length_drop. cbn [length].
  set (n := Z.to_nat size). set (k := length xs).
  destruct (Z.gtb_spec (Z.of_nat (k - (k - n) + 1)) size) as [Hpop|Hkeep].
  - destruct (Nat.eq_dec n 0%nat) as [Hn0|Hn0].
    + rewrite (drop_ge xs) by lia. cbn [app drop].
      rewrite drop_ge; [done|]. rewrite length_app. cbn [length]. lia.
    + assert (Hk : (n <= k)%nat) by lia.
      rewrite (drop_app_le (drop (k - n) xs)) by (rewrite length_drop; lia).
      rewrite drop_drop, (drop_app_le xs) by lia.
      do 2 f_equal. lia.
  - assert (Hk : (k + 1 <= n)%nat) by lia.
    replace (k - n)%nat with 0%nat by lia.
    by replace (k + 1 - n)%nat with 0%nat by lia.
Qed.

Lemma push_opt_last_n {A : Type} (size : Z) (xs : list A) (x : option A) :
  Tracker.push_opt size (last_n (Z.to_nat size) xs) x
  = last_n (Z.to_nat size) (xs ++ option_list x).
Proof.
  destruct x as [v|]; cbn [Tracker.push_opt option_list].
  - apply push_last_n.
  - by rewrite app_nil_r.
Qed.

Lemma feed_last_n (tr : Tracker.AngleTracker)
    (samples : list (option Q * option Point * option Q))
    (ts : list Q) (cs : list Point) (hs : list Q) :
  let n := Z.to_nat (Tracker.history_size tr) in
  Tracker.torso_history tr = last_n n ts ->
  Tracker.center_history tr = last_n n cs ->
  Tracker.head_height_history tr = last_n n hs ->
  Tracker.history_size (feed tr samples) = Tracker.history_size tr
  /\ Tracker.torso_history (feed tr samples)
     = last_n n (ts ++ omap (fun s => s.1.1) samples)
  /\ Tracker.center_history (feed tr samples)
     = last_n n (cs ++ omap (fun s => s.1.2) samples)
  /\ Tracker.head_height_history (feed tr samples)
     = last_n n (hs ++ omap (fun s => s.2) samples).
Proof.
  revert tr ts cs hs.
  induction samples as [|[[a c] h] rest IH]; intros tr ts cs hs n Ht Hc Hh.
  - cbn. by rewrite !app_nil_r.
  - cbn [feed fold_left fst snd].
    set (tr1 := Tracker.update tr a c h).
    destruct (IH tr1 (ts ++ option_list a) (cs ++ option_list c)
                (hs ++ option_list h)) as (Hs & Ht' & Hc' & Hh').
    + cbn [tr1 Tracker.update Tracker.torso_history Tracker.history_size].
      rewrite Ht. apply push_opt_last_n.
    + cbn [tr1 Tracker.update Tracker.center_history Tracker.history_size].
      rewrite Hc. apply push_opt_last_n.
    + cbn [tr1 Tracker.update Tracker.head_height_history Tracker.history_size].
      rewrite Hh. apply push_opt_last_n.
    + change (Tracker.history_size tr1) with (Tracker.history_size tr) in *.
      fold n in Ht', Hc', Hh'.
      change (fold_left _ rest tr1) with (feed tr1 rest).
      rewrite Hs, Ht', Hc', Hh'. rewrite <- !app_assoc.
      repeat split; f_equal; f_equal; by destruct a, c, h.
Qed.

(** X1.  A tracker built with capacity [history_size] and fed any stream of
    samples holds, in each of its three buffers, exactly the last
    [history_size] values that were present for that signal, oldest first
    (absent values are skipped); so no buffer is ever longer than the
    capacity, and a capacity of 0 or less keeps the buffers empty. *)
Theorem tracker_holds_latest_samples (history_size : Z)
    (samples : list (option Q * option Point * option Q)) :
  let tr := feed (Tracker.__init__ history_size) samples in
  let n := Z.to_nat history_size in
  Tracker.history_size tr = history_size
  /\ Tracker.torso_history tr = last_n n (omap (fun s => s.1.1) samples)
  /\ Tracker.center_history tr = last_n n (omap (fun s => s.1.2) samples)
  /\ Tracker.head_height_history tr = last_n n (omap (fun s => s.2) samples)
  /\ (length (Tracker.torso_history tr) <= n)%nat
  /\ (length (Tracker.center_history tr) <= n)%nat
  /\ (length (Tracker.head_height_history tr) <= n)%nat.
Proof.
  intros tr n.
  destruct (feed_last_n (Tracker.__init__ history_size) samples [] [] [])
    as (Hs & Ht & Hc & Hh); try reflexivity.
  cbn [Tracker.__init__ Tracker.history_size app] in Hs, Ht, Hc, Hh.
  fold tr n in Hs, Ht, Hc, Hh.
  rewrite Ht, Hc, Hh, !length_last_n. repeat split; try done; lia.
Qed.

(** ** Queries on the last two samples *)

Lemma index_last_two {A : Type} (l : list A) (p q : A) :
  index (l ++ [p; q]) (-1) = Ok q /\ index (l ++ [p; q]) (-2) = Ok p.
Proof.
  change (-1) with (- Z.of_nat 1). change (-2) with (- Z.of_nat 2). split.
  - apply index_from_end; rewrite length_app; cbn [length]; [lia|].
    replace (length l + 2 - 1)%nat with (length l + 1)%nat by lia.
    rewrite lookup_app_r by lia.
    by replace (length l + 1 - length l)%nat with 1%nat by lia.
  - apply index_from_end; rewrite length_app; cbn [length]; [lia|].
    replace (length l + 2 - 2)%nat with (length l + 0)%nat by lia.
    rewrite lookup_app_r by lia.
    by replace (length l + 0 - length l)%nat with 0%nat by lia.
Qed.

(** a push onto a buffer that ends with [p], of capacity 2 or more, gives a
    buffer that ends with [p] and the new sample *)
Lemma push_ends_with {A : Type} (size : Z) (hist : list A) (p x : A) :
  2 <= size -> last hist = Some p ->
  exists l, Tracker.push size hist x = l ++ [p; x].
Proof.
  intros Hsize Hlast. apply last_Some in Hlast as [l1 ->].
  unfold Tracker.push. rewrite <- app_assoc. cbn [app].
  destruct (Z.gtb_spec (Z.of_nat (length (l1 ++ [p; x]))) size) as [Hpop|_];
    [|by exists l1].
  rewrite length_app in Hpop. cbn [length] in Hpop.
  destruct l1 as [|y l1]; [cbn [length] in Hpop; lia|].
  by exists l1.
Qed.

Section DeltaQueries.
Context `{MathLib}.

(** X2.  In a tracker of capacity 2 or more whose buffer is not empty, an
    update with a present sample makes the matching query return the
    difference between the new sample and the one before it: the change of
    head height, of torso angle, and the distance between the two centers. *)
Theorem change_after_update (tr : Tracker.AngleTracker) (a : option Q)
    (c : option Point) (h : option Q) :
  2 <= Tracker.history_size tr ->
  (forall p hv, last (Tracker.head_height_history tr) = Some p ->
     Tracker.get_head_height_change (Tracker.update tr a c (Some hv))
     = Ok (Some (hv - p)%Q))
  /\ (forall p av, last (Tracker.torso_history tr) = Some p ->
        Tracker.get_torso_angle_change_rate (Tracker.update tr (Some av) c h)
        = Ok (Some (av - p)%Q))
  /\ (forall p cv, last (Tracker.center_history tr) = Some p ->
        Tracker.get_center_shift (Tracker.update tr a (Some cv) h)
        = Ok (Some (Geometry.calculate_center_shift cv p))).
Proof.
  intros Hsize. split; [|split]; intros p v Hlast.
  - unfold Tracker.get_head_height_change.
    cbn [Tracker.update Tracker.head_height_history Tracker.push_opt].
    destruct (push_ends_with _ _ p v Hsize Hlast) as [l ->].
    destruct (index_last_two l p v) as [-> ->].
    rewrite length_app. cbn [length Py.bind].
    by destruct (Z.ltb_spec (Z.of_nat (length l + 2)) 2); [lia|].
  - unfold Tracker.get_torso_angle_change_rate.
    cbn [Tracker.update Tracker.torso_history Tracker.push_opt].
    destruct (push_ends_with _ _ p v Hsize Hlast) as [l ->].
    destruct (index_last_two l p v) as [-> ->].
    rewrite length_app. cbn [length Py.bind].
    by destruct (Z.ltb_spec (Z.of_nat (length l + 2)) 2); [lia|].
  - unfold Tracker.get_center_shift.
    cbn [Tracker.update Tracker.center_history Tracker.push_opt].
    destruct (push_ends_with _ _ p v Hsize Hlast) as [l ->].
    destruct (index_last_two l p v) as [-> ->].
    rewrite length_app. cbn [length Py.bind].
    by destruct (Z.ltb_spec (Z.of_nat (length l + 2)) 2); [lia|].
Qed.

End DeltaQueries.

Lemma change_after_update_witness :
  2 <= Tracker.history_size sampled_tracker
  /\ Tracker.get_head_height_change
       (Tracker.update sampled_tracker None None (Some (7 # 10)))
     = Ok (Some ((7 # 10) - (1 # 2))%Q)
  /\ Tracker.get_torso_angle_change_rate
       (Tracker.update sampled_tracker (Some 40%Q) None None)
     = Ok (Some (40 - 10)%Q)
  /\ Tracker.get_center_shift (H := approx_math)
       (Tracker.update sampled_tracker None (Some (3, 4)) None)
     = Ok (Some (Geometry.calculate_center_shift (H := approx_math) (3, 4) (0, 0))).
Proof.
  assert (Hsize : 2 <= Tracker.history_size sampled_tracker) by (cbn; lia).
  split; [exact Hsize|].
  split; [|split].
  - exact (proj1 (change_after_update (H := approx_math) sampled_tracker
                    None None (Some (7 # 10)) Hsize) (1 # 2) (7 # 10) eq_refl).
  - exact (proj1 (proj2 (change_after_update (H := approx_math) sampled_tracker
                    (Some 40%Q) None None Hsize)) 10%Q 40%Q eq_refl).
  - exact (proj2 (proj2 (change_after_update (H := approx_math) sampled_tracker
                    None (Some (3, 4)) None Hsize)) (0, 0) (3, 4) eq_refl).
Defined.

(** ** The center rule *)

Section CenterRule.
Context `{MathLib}.

(** the latest shift is one of the shifts of every window of one pair or
    more, so it is at most the maximum *)
Lemma latest_shift_le_max (tr : Tracker.AngleTracker) (K : Z) (s : Q) :
  1 <= K ->
  Tracker.get_center_shift tr = Ok (Some s) ->
  exists m, Tracker.get_max_center_shift tr K = Ok (Some m) /\ (s <= m)%Q.
Proof.
  intros HK Hs. rewrite get_max_center_shift_window.
  unfold Tracker.get_center_shift in Hs.
  set (history := Tracker.center_history tr) in *.
  destruct (Z.ltb_spec (Z.of_nat (length history)) 2) as [|Hlen]; [discriminate|].
  change (-1) with (- Z.of_nat 1) in Hs. change (-2) with (- Z.of_nat 2) in Hs.
  destruct (index_from_end_total history 1) as (a & Ha & Ea); [lia|].
  destruct (index_from_end_total history 2) as (b & Hb & Eb); [lia|].
  rewrite Ea, Eb in Hs. cbn [Py.bind] in Hs. injection Hs as <-.
  assert (Hin : In (Geometry.calculate_center_shift a b) (window_shifts history K)).
  { apply list_elem_of_In.
    apply (list_elem_of_lookup_2 _
             (Z.to_nat (Z.min K (Z.of_nat (length history) - 1)) - 1)).
    unfold window_shifts. rewrite lookup_drop, length_adjacent_shifts.
    replace (length history - 1
             - Z.to_nat (Z.min K (Z.of_nat (length history) - 1))
             + (Z.to_nat (Z.min K (Z.of_nat (length history) - 1)) - 1))%nat
      with (length history - 2)%nat by lia.
    apply lookup_adjacent_shifts.
    - by replace (S (length history - 2)) with (length history - 1)%nat by lia.
    - done. }
  destruct (window_shifts history K) as [|x xs]; [destruct Hin|].
  eexists. split; [reflexivity|].
  by apply (proj2 (fold_max_step_spec xs x)).
Qed.

(** [_check_center_shift] reads the buffered centers and the threshold,
    nothing else of the engine *)
Lemma _check_center_shift_ext (s1 s2 : FallDetector) :
  Tracker.center_history (angle_tracker s1) = Tracker.center_history (angle_tracker s2) ->
  center_shift_threshold s1 = center_shift_threshold s2 ->
  _check_center_shift s1 = _check_center_shift s2.
Proof.
  intros Hc Ht. unfold _check_center_shift.
  rewrite !get_max_center_shift_window, Hc, Ht. reflexivity.
Qed.

Lemma center_reason_iff (torso : option Q) (b1 b2 b3 : bool) :
  In BodyCenterShifted (reasons_of torso b1 b2 b3) <-> b3 = true.
Proof.
  unfold reasons_of. destruct b1, torso, b2, b3; cbn; intuition discriminate.
Qed.

(** what a returning [detect] call does to the tracker, and how the center
    rule of the frame shows in the result *)
Lemma detect_center_rule lm h clk self r self' :
  detect lm h clk self = Returned r self' ->
  exists torso center head b3,
    Geometry.calculate_body_center lm = Ok center
    /\ angle_tracker self'
       = Tracker.update (angle_tracker self) torso center head
    /\ center_shift_threshold self' = center_shift_threshold self
    /\ _check_center_shift self' = Ok b3
    /\ (In BodyCenterShifted (trigger_reasons r) <-> b3 = true)
    /\ Tracker.get_center_shift (angle_tracker self') = Ok (center_shift r).
Proof.
  intros Hd.
  destruct (detect_Returned _ _ _ _ _ _ Hd)
    as (torso & center & head & b2 & b3 & conf & shift & Hall).
  cbv zeta in Hall.
  destruct Hall as (_ & Ec & _ & _ & E3 & _ & Es & -> & ->).
  exists torso, center, head, b3.
  cbn [trigger_reasons center_shift].
  split; [done|].
  match goal with
  | |- context [if ?c then _ else _] => destruct c
  end; (split; [reflexivity|]); (split; [reflexivity|]);
    (split; [rewrite <- E3; by apply _check_center_shift_ext|]);
    (split; [apply center_reason_iff | exact Es]).
Qed.

(** X3.  The center rule looks at the buffered centers only.  Once it
    holds, every following frame that has no body center (a torso joint is
    missing) triggers it again, since such a frame adds nothing to the
    buffer: the counter goes up by one with every such frame. *)
Theorem center_rule_persists_without_center (calls : list Call)
    (self self' : FallDetector) (os : list (option DetectionResult)) :
  _check_center_shift self = Ok true ->
  Forall centerless calls ->
  run calls self = Returned os self' ->
  Forall (fun o => exists r, o = Some r /\ In BodyCenterShifted (trigger_reasons r)) os
  /\ _check_center_shift self' = Ok true
  /\ consecutive_detections self'
     = consecutive_detections self + Z.of_nat (length calls).
Proof.
  revert self os. induction calls as [|c rest IH]; intros self os Hrule Hall Hrun.
  - injection Hrun as <- <-. repeat split; [constructor | done | cbn; lia].
  - apply Forall_cons in Hall as [Hc Hrest].
    destruct c as [lm h clk| | |]; [|destruct Hc..].
    cbn [run exec] in Hrun. unfold mbind at 1 2, ret at 1 in Hrun.
    destruct (detect lm h clk self) as [r s1|] eqn:Hd; [|discriminate].
    unfold mbind at 1 in Hrun.
    destruct (run rest s1) as [os' s2|] eqn:Er; [|discriminate].
    injection Hrun as <- <-.
    destruct (detect_center_rule _ _ _ _ _ _ Hd)
      as (torso & center & head & b3 & Ec & Htr & Hth & E3 & Hin & _).
    cbn [centerless] in Hc. rewrite Hc in Ec. injection Ec as <-.
    assert (Hsame : _check_center_shift s1 = _check_center_shift self).
    { apply _check_center_shift_ext; [by rewrite Htr | done]. }
    rewrite Hsame, Hrule in E3. injection E3 as <-.
    destruct (IH s1 os') as (Hos & Hrule' & Hcnt); [congruence | done | done |].
    assert (Hr : In BodyCenterShifted (trigger_reasons r)) by by apply Hin.
    pose proof (detect_summary _ _ _ _ _ _ Hd) as (Hc1 & _).
    cbv zeta in Hc1. unfold next_counter in Hc1.
    destruct (trigger_reasons r) as [|x l] eqn:Hl; [destruct Hr|].
    replace (Z.of_nat (length (x :: l)) >? 0) with true in Hc1
      by (symmetry; apply Z.gtb_lt; cbn [length]; lia).
    repeat split.
    + constructor; [|done]. exists r. split; [done|]. by rewrite Hl.
    + done.
    + rewrite Hcnt, Hc1. cbn [length]. lia.
Qed.

(** X4.  The shift that a result reports is the latest of the shifts that
    the center rule takes the maximum of: when [center_shift] is above
    [center_shift_threshold], the center rule is among the reasons. *)
Theorem reported_shift_above_threshold_triggers lm h clk self r self' (s : Q) :
  detect lm h clk self = Returned r self' ->
  center_shift r = Some s ->
  (center_shift_threshold self < s)%Q ->
  In BodyCenterShifted (trigger_reasons r).
Proof.
  intros Hd Hs Hlt.
  destruct (detect_center_rule _ _ _ _ _ _ Hd)
    as (torso & center & head & b3 & _ & _ & Hth & E3 & Hin & Eshift).
  apply Hin. rewrite Hs in Eshift.
  destruct (latest_shift_le_max _ 5 s ltac:(lia) Eshift) as (m & Em & Hle).
  unfold _check_center_shift in E3. rewrite Em in E3. cbn [Py.bind] in E3.
  assert (Hgt : Qgtb m (center_shift_threshold self') = true).
  { apply Qgtb_true. rewrite Hth. lra. }
  rewrite Hgt in E3. by injection E3 as <-.
Qed.

End CenterRule.

Lemma center_rule_persists_without_center_witness :
  exists os self',
    _check_center_shift (H := approx_math) shifted_detector = Ok true
    /\ Forall centerless two_nose_frames
    /\ run (H := approx_math) two_nose_frames shifted_detector = Returned os self'
    /\ Forall (fun o => exists r, o = Some r /\ In BodyCenterShifted (trigger_reasons r)) os
    /\ _check_center_shift (H := approx_math) self' = Ok true
    /\ consecutive_detections self'
       = consecutive_detections shifted_detector + Z.of_nat (length two_nose_frames).
Proof.
  assert (Hrule : _check_center_shift (H := approx_math) shifted_detector = Ok true)
    by (by vm_compute).
  assert (Hall : Forall centerless two_nose_frames)
    by (repeat constructor; by vm_compute).
  destruct (run (H := approx_math) two_nose_frames shifted_detector)
    as [os self'|e self'] eqn:Hrun; [|by vm_compute in Hrun].
  exists os, self'.
  split; [exact Hrule|]. split; [exact Hall|]. split; [reflexivity|].
  exact (center_rule_persists_without_center (H := approx_math) two_nose_frames
           shifted_detector self' os Hrule Hall Hrun).
Defined.

Lemma reported_shift_above_threshold_triggers_witness :
  exists r self',
    detect (H := approx_math) (upright_body 400) 480 (clock_at 1001)
      first_frame_detector = Returned r self'
    /\ center_shift r = Some 300%Q
    /\ (center_shift_threshold first_frame_detector < 300)%Q
    /\ In BodyCenterShifted (trigger_reasons r).
Proof.
  destruct (detect (H := approx_math) (upright_body 400) 480 (clock_at 1001)
              first_frame_detector) as [r self'|e self'] eqn:Hd;
    [|by vm_compute in Hd].
  assert (Hv := Hd). vm_compute in Hv. injection Hv as Hr _.
  assert (Hs : center_shift r = Some 300%Q) by (by rewrite <- Hr).
  assert (Hlt : (center_shift_threshold first_frame_detector < 300)%Q)
    by (by vm_compute).
  exists r, self'.
  split; [reflexivity|]. split; [exact Hs|]. split; [exact Hlt|].
  exact (reported_shift_above_threshold_triggers (H := approx_math) _ _ _ _ r self'
           300%Q Hd Hs Hlt).
Defined.

(** ** Invariants of the engine *)

Lemma push_length_le {A : Type} (size : Z) (hist : list A) (x : A) :
  Z.of_nat (length hist) <= size ->
  Z.of_nat (length (Tracker.push size hist x)) <= size.
Proof.
  intros Hle. unfold Tracker.push.
  destruct (Z.gtb_spec (Z.of_nat (length (hist ++ [x]))) size) as [Hgt|Hgt].
  - rewrite length_drop, length_app in *. cbn [length] in *. lia.
  - done.
Qed.

Lemma push_opt_length_le {A : Type} (size : Z) (hist : list A) (x : option A) :
  Z.of_nat (length hist) <= size ->
  Z.of_nat (length (Tracker.push_opt size hist x)) <= size.
Proof.
  destruct x as [v|]; [apply push_length_le | done].
Qed.

Section Invariants.
Context `{MathLib}.

Lemma engine_invariant_init a1 a2 a3 a4 a5 a6 a7 self :
  __init__ a1 a2 a3 a4 a5 a6 a7 = Ok self -> engine_invariant self.
Proof.
  intros [= <-]. unfold engine_invariant. cbn.
  repeat split; try lia; try done.
  - by intros [[? [=]] _].
Qed.

Lemma engine_invariant_exec (c : Call) (self self' : FallDetector) o :
  engine_invariant self -> exec c self = Returned o self' -> engine_invariant self'.
Proof.
  intros (Hc & Hsz & Ht & Hce & Hh & Hcal1 & Hcal2) He.
  destruct c as [lm h clk|hh center| |]; cbn [exec] in He.
  - unfold mbind at 1, ret at 1 in He.
    destruct (detect lm h clk self) as [r s1|] eqn:Hd; [|discriminate].
    injection He as _ <-.
    pose proof (detect_summary _ _ _ _ _ _ Hd) as (Hcnt & _ & _ & _ & _ & Hb).
    cbv zeta in Hcnt.
    destruct Hb as (Hb1 & Hb2 & Hb3).
    destruct (detect_center_rule _ _ _ _ _ _ Hd)
      as (torso & center & head & b3 & _ & Htr & _).
    unfold engine_invariant. rewrite Hcnt, Htr, Hb1, Hb2, Hb3.
    cbn [Tracker.history_size Tracker.torso_history Tracker.center_history
         Tracker.head_height_history Tracker.update].
    rewrite Hsz.
    split; [unfold next_counter; destruct (_ >? 0); lia|].
    split; [done|].
    split; [|split; [|split; [|done]]].
    all: apply Nat2Z.inj_le; apply (push_opt_length_le 30); lia.
  - injection He as _ <-. unfold engine_invariant. cbn.
    repeat split; try done; try lia; try by eexists.
    all: by intros [[=] _] || by intros [=].
  - injection He as _ <-. unfold engine_invariant. cbn.
    repeat split; try done; try lia.
    by intros [[? [=]] _].
  - injection He as _ <-. unfold engine_invariant. cbn.
    repeat split; try lia; try done; try apply Hcal1; try apply Hcal2; try done.
Qed.

(** X5.  Every engine that [__init__] returned and that has then been used
    through its public methods has a counter that is not negative, a
    tracker of capacity 30 whose three buffers hold at most 30 samples, and
    [is_calibrated] set exactly when both baselines are. *)
Theorem reachable_engine_invariant (self : FallDetector) :
  reachable self -> engine_invariant self.
Proof.
  induction 1 as [a1 a2 a3 a4 a5 a6 a7 self Hi | self c o self' _ IH He].
  - by eapply engine_invariant_init.
  - by eapply engine_invariant_exec.
Qed.

Lemma exec_same_config (c : Call) (self self' : FallDetector) o :
  exec c self = Returned o self' ->
  same_config self self' /\ (is_detect c = true <-> is_Some o).
Proof.
  intros He. destruct c as [lm h clk|hh center| |]; cbn [exec is_detect] in *.
  - unfold mbind at 1, ret at 1 in He.
    destruct (detect lm h clk self) as [r s1|] eqn:Hd; [|discriminate].
    injection He as <- <-.
    pose proof (detect_summary _ _ _ _ _ _ Hd) as (_ & _ & _ & _ & Hcfg & _).
    split; [done|]. split; [by eexists | done].
  - injection He as <- <-. split; [by repeat split|].
    split; [done | by intros [? [=]]].
  - injection He as <- <-. split; [by repeat split|].
    split; [done | by intros [? [=]]].
  - injection He as <- <-. split; [by repeat split|].
    split; [done | by intros [? [=]]].
Qed.

(** X6.  No sequence of calls changes the seven settings given to
    [__init__]; a sequence that returns gives one outcome per call, a result
    for each [detect] and none for the other methods. *)
Theorem run_keeps_configuration (calls : list Call) (self self' : FallDetector)
    (os : list (option DetectionResult)) :
  run calls self = Returned os self' ->
  same_config self self'
  /\ Forall2 (fun c o => is_detect c = true <-> is_Some o) calls os.
Proof.
  revert self os. induction calls as [|c rest IH]; intros self os Hrun.
  - injection Hrun as <- <-. split; [by repeat split | constructor].
  - cbn [run] in Hrun. unfold mbind at 1 in Hrun.
    destruct (exec c self) as [o s1|] eqn:Ec; [|discriminate].
    unfold mbind at 1 in Hrun.
    destruct (run rest s1) as [os' s2|] eqn:Er; [|discriminate].
    injection Hrun as <- <-.
    destruct (exec_same_config _ _ _ _ Ec) as [Hc1 Ho].
    destruct (IH _ _ Er) as [Hc2 Hos].
    split; [|by constructor].
    unfold same_config in *.
    destruct Hc1 as (? & ? & ? & ? & ? & ? & ?), Hc2 as (? & ? & ? & ? & ? & ? & ?).
    repeat split; congruence.
Qed.

End Invariants.

Lemma reachable_engine_invariant_witness :
  reachable (H := approx_math) calibrated_detector
  /\ engine_invariant calibrated_detector.
Proof.
  split; [exact (calibrated_detector_reachable (H := approx_math))|].
  exact (reachable_engine_invariant (H := approx_math) calibrated_detector
           (calibrated_detector_reachable (H := approx_math))).
Defined.

Lemma run_keeps_configuration_witness :
  exists os self',
    run (H := approx_math) five_lying_frames default_detector = Returned os self'
    /\ same_config default_detector self'
    /\ Forall2 (fun c o => is_detect c = true <-> is_Some o) five_lying_frames os.
Proof.
  destruct (run (H := approx_math) five_lying_frames default_detector)
    as [os self'|e self'] eqn:Hrun; [|by vm_compute in Hrun].
  exists os, self'. split; [reflexivity|].
  exact (run_keeps_configuration (H := approx_math) five_lying_frames
           default_detector self' os Hrun).
Defined.

(** ** The result of one frame *)

Lemma min2_cases (x y : Q) :
  (min2 x y = x /\ (x <= y)%Q) \/ (min2 x y = y /\ (y < x)%Q).
Proof.
  unfold min2. destruct (Qltb y x) eqn:E.
  - right. split; [done|]. by apply Qltb_true.
  - left. split; [done|]. by apply Qltb_false.
Qed.

Section FrameResult.
Context `{MathLib}.

Lemma _calculate_confidence_range (self : FallDetector) (n : Z)
    (sev : AlertSeverity) (conf : Q) :
  0 <= n -> 0 <= consecutive_detections self -> 0 < consecutive_frames self ->
  _calculate_confidence self n sev = Ok conf ->
  (0 <= conf)%Q /\ (conf <= 1)%Q /\ ((conf == 0)%Q <-> n = 0).
Proof.
  intros Hn Hc HF Hconf.
  unfold _calculate_confidence, int_truediv in Hconf.
  destruct (Z.eqb_spec (consecutive_frames self) 0) as [|_]; [lia|].
  cbn [Py.bind] in Hconf. injection Hconf as <-.
  set (ratio := (inject_Z (consecutive_detections self)
                 / inject_Z (consecutive_frames self))%Q).
  assert (Hratio : (0 <= ratio)%Q).
  { apply Qle_shift_div_l.
    - change 0%Q with (inject_Z 0). by rewrite <- Zlt_Qlt.
    - rewrite Qmult_0_l. change 0%Q with (inject_Z 0). by rewrite <- Zle_Qle. }
  assert (Hfr : (0 <= min2 ratio 1.0 /\ min2 ratio 1.0 <= 1)%Q).
  { destruct (min2_cases ratio 1.0) as [[-> ?]|[-> ?]]; split; lra. }
  set (fr := min2 ratio 1.0) in *.
  assert (Hn' : (0 <= inject_Z n)%Q)
    by (change 0%Q with (inject_Z 0); by rewrite <- Zle_Qle).
  set (base := (if is_SEVERE sev then inject_Z n / 3.0 * 1.2
                else if is_MILD sev then inject_Z n / 3.0 * 1.0
                     else inject_Z n / 3.0)%Q).
  assert (Hbase : (0 <= base)%Q /\ ((base == 0)%Q <-> n = 0)).
  { assert (Hz : (inject_Z n == 0)%Q <-> n = 0).
    { change 0%Q with (inject_Z 0). rewrite inject_Z_injective. done. }
    subst base. unfold Qdiv. change (/ 3.0)%Q with (10 # 30)%Q.
    destruct (is_SEVERE sev); [|destruct (is_MILD sev)];
      (split; [lra|]); rewrite <- Hz; split; intros; lra. }
  destruct Hbase as [Hb0 Hbz].
  set (p := (base * (0.5 + 0.5 * fr))%Q).
  assert (Hp : (0 <= p)%Q /\ ((p == 0)%Q <-> n = 0)).
  { subst p. split; [nra|]. rewrite <- Hbz. split; intros Hz.
    - destruct (Qlt_le_dec 0 base) as [Hpos|]; [|lra].
      exfalso. nra.
    - rewrite Hz. lra. }
  destruct Hp as [Hp0 Hpz].
  destruct (min2_cases p 1.0) as [[-> ?]|[-> ?]].
  - split; [done|]. split; [lra|done].
  - split; [lra|]. split; [lra|]. rewrite <- Hpz. split; intros; lra.
Qed.

(** X7.  On an engine whose counter is not negative and whose
    [consecutive_frames] is positive, the confidence of every result lies
    in [[0, 1]], and it is 0 exactly when no rule triggered. *)
Theorem confidence_range lm h clk self r self' :
  0 <= consecutive_detections self ->
  0 < consecutive_frames self ->
  detect lm h clk self = Returned r self' ->
  (0 <= confidence r)%Q /\ (confidence r <= 1)%Q
  /\ ((confidence r == 0)%Q <-> trigger_reasons r = []).
Proof.
  intros Hc HF Hd.
  destruct (detect_Returned _ _ _ _ _ _ Hd)
    as (torso & center & head & b2 & b3 & conf & shift & Hall).
  cbv zeta in Hall.
  destruct Hall as (_ & _ & _ & _ & _ & Econf & _ & -> & _).
  cbn [confidence trigger_reasons].
  apply _calculate_confidence_range in Econf.
  - destruct Econf as (H0 & H1 & Hz). split; [done|]. split; [done|].
    rewrite Hz. split.
    + intros Hlen. apply length_zero_iff_nil. lia.
    + by intros ->.
  - lia.
  - cbn [consecutive_detections set_consecutive_detections].
    unfold next_counter. destruct (_ >? 0); lia.
  - done.
Qed.

Lemma reasons_of_torso (torso : option Q) (b1 b2 b3 : bool) (a : Q) :
  In (TorsoAngleAbnormal a) (reasons_of torso b1 b2 b3)
  <-> torso = Some a /\ b1 = true.
Proof.
  unfold reasons_of. destruct b1, torso as [a'|], b2, b3; cbn;
    split; try (intros [[=]|H']; try destruct H'); try (intros [[=] [=]]);
    try intuition congruence.
Qed.

Lemma reasons_of_NoDup (torso : option Q) (b1 b2 b3 : bool) :
  NoDup (reasons_of torso b1 b2 b3).
Proof.
  unfold reasons_of. destruct b1, torso as [a'|], b2, b3; cbn;
    repeat (constructor; [rewrite ?elem_of_cons, ?elem_of_nil; intuition discriminate|]);
    constructor.
Qed.

(** X8.  The reasons of a result, against the frame: the torso reason is
    there exactly when [calculate_torso_angle] gives an angle for the joints
    of the frame and this angle is at least [severe_angle_min] or the lower
    end of [mild_angle_range] ([torso_angle_threshold] plays no part); no
    reason comes twice, so there are three at most; and the severity is
    [NONE] exactly when there is no reason. *)
Theorem trigger_reasons_shape lm h clk self r self' :
  detect lm h clk self = Returned r self' ->
  (forall a, In (TorsoAngleAbnormal a) (trigger_reasons r)
             <-> Geometry.calculate_torso_angle lm = Ok (Some a)
                 /\ ((severe_angle_min self <= a)%Q
                     \/ ((mild_angle_range self).1 <= a)%Q))
  /\ NoDup (trigger_reasons r)
  /\ (length (trigger_reasons r) <= 3)%nat
  /\ (severity r = NONE <-> trigger_reasons r = []).
Proof.
  intros Hd.
  destruct (detect_Returned _ _ _ _ _ _ Hd)
    as (torso & center & head & b2 & b3 & conf & shift & Hall).
  cbv zeta in Hall.
  destruct Hall as (Et & _ & _ & _ & _ & _ & _ & -> & _).
  cbn [trigger_reasons torso_angle severity]. rewrite Et.
  split; [|split; [|split]].
  - intros a. rewrite reasons_of_torso.
    split.
    + intros [-> Hb]. split; [done|].
      unfold torso_rule, _check_torso_angle in Hb.
      cbn [severe_angle_min mild_angle_range set_angle_tracker] in Hb.
      destruct (Qgeb a (severe_angle_min self)) eqn:E1;
        [left; by apply Qgeb_true|].
      destruct (Qgeb a (mild_angle_range self).1) eqn:E2;
        [right; by apply Qgeb_true | discriminate].
    + intros [[= ->] Hor]. split; [done|].
      unfold torso_rule, _check_torso_angle.
      cbn [severe_angle_min mild_angle_range set_angle_tracker].
      destruct (Qgeb a (severe_angle_min self)) eqn:E1; [done|].
      destruct (Qgeb a (mild_angle_range self).1) eqn:E2; [done|].
      destruct Hor as [Hs|Hm]; apply Qgeb_true in Hs || apply Qgeb_true in Hm;
        congruence.
  - apply reasons_of_NoDup.
  - unfold reasons_of.
    destruct (torso_rule _ torso).1, torso, b2, b3; cbn; lia.
  - destruct (torso_rule_cases
                (set_angle_tracker
                   (Tracker.update (angle_tracker self) torso center head) self)
                torso) as [E|(a & -> & [E|E])]; rewrite E;
      unfold severity_of, reasons_of; cbn [fst snd];
      destruct b2, b3; cbn; split; intros; congruence.
Qed.

End FrameResult.

Lemma confidence_range_witness :
  exists r self',
    0 <= consecutive_detections calibrated_detector
    /\ 0 < consecutive_frames calibrated_detector
    /\ detect (H := approx_math) lying_body 480 (clock_at 1000) calibrated_detector
       = Returned r self'
    /\ (0 <= confidence r)%Q /\ (confidence r <= 1)%Q
    /\ ((confidence r == 0)%Q <-> trigger_reasons r = []).
Proof.
  destruct (detect (H := approx_math) lying_body 480 (clock_at 1000)
              calibrated_detector) as [r self'|e self'] eqn:Hd;
    [|by vm_compute in Hd].
  assert (Hc : 0 <= consecutive_detections calibrated_detector) by (cbn; lia).
  assert (HF : 0 < consecutive_frames calibrated_detector) by (cbn; lia).
  exists r, self'.
  split; [exact Hc|]. split; [exact HF|]. split; [reflexivity|].
  exact (confidence_range (H := approx_math) lying_body 480 (clock_at 1000)
           calibrated_detector r self' Hc HF Hd).
Defined.

Lemma trigger_reasons_shape_witness :
  exists r self' angle,
    detect (H := approx_math) lying_body 480 (clock_at 1000) calibrated_detector
    = Returned r self'
    /\ Geometry.calculate_torso_angle (H := approx_math) lying_body
       = Ok (Some angle)
    /\ (severe_angle_min calibrated_detector <= angle)%Q
    /\ In (TorsoAngleAbnormal angle) (trigger_reasons r)
    /\ NoDup (trigger_reasons r)
    /\ severity r <> NONE.
Proof.
  destruct (detect (H := approx_math) lying_body 480 (clock_at 1000)
              calibrated_detector) as [r self'|e self'] eqn:Hd;
    [|by vm_compute in Hd].
  destruct (Geometry.calculate_torso_angle (H := approx_math) lying_body)
    as [[angle|]|e] eqn:Ht; [|by vm_compute in Ht..].
  assert (Hge : (severe_angle_min calibrated_detector <= angle)%Q).
  { assert (Hv := Ht). vm_compute in Hv. injection Hv as <-. by vm_compute. }
  destruct (trigger_reasons_shape (H := approx_math) lying_body 480 (clock_at 1000)
              calibrated_detector r self' Hd) as (Htorso & Hnd & _ & Hnone).
  assert (Hin : In (TorsoAngleAbnormal angle) (trigger_reasons r)).
  { apply Htorso. rewrite Ht. split; [done | by left]. }
  exists r, self', angle.
  split; [reflexivity|]. split; [reflexivity|]. split; [exact Hge|].
  split; [exact Hin|]. split; [exact Hnd|].
  intros Hsev. apply Hnone in Hsev. rewrite Hsev in Hin. destruct Hin.
Defined.

(** ** Settings that are never read *)

Section UnreadSettings.
Context `{MathLib}.

(** the closing part of [detect], forwards *)
Lemma decide_forward reasons sev torso head clk self1 conf shift :
  let n := Z.of_nat (length reasons) in
  let self2 := set_consecutive_detections (next_counter self1 n) self1 in
  let alert :=
    eligible self1 n (next_counter self1 n)
    && negb (_is_in_cooldown self1 (t_cooldown clk)) in
  _calculate_confidence self2 n sev = Ok conf ->
  Tracker.get_center_shift (angle_tracker self1) = Ok shift ->
  decide reasons sev torso head clk self1
  = Returned {| is_fall_detected := alert;
                severity := sev;
                torso_angle := torso;
                head_height := head;
                center_shift := shift;
                trigger_reasons := reasons;
                timestamp := t_stamp clk;
                confidence := conf |}
      (if alert then set_last_alert_time (t_alert clk) self2 else self2).
Proof.
  intros n self2 alert Ec Es.
  destruct (decide_returns reasons sev torso head clk self1) as (r & self' & Hd).
  { intros HF. subst self2.
    rewrite _calculate_confidence_zero in Ec; [discriminate | done]. }
  rewrite Hd.
  destruct (decide_Returned _ _ _ _ _ _ _ _ Hd) as (conf' & shift' & Hall).
  cbv zeta in Hall. destruct Hall as (Ec' & Es' & -> & ->).
  fold n in Ec'. fold self2 in Ec'.
  rewrite Ec in Ec'. rewrite Es in Es'.
  injection Ec' as <-. injection Es' as <-. reflexivity.
Qed.

(** X9.  [detect] reads neither [torso_angle_threshold] nor the upper end
    of [mild_angle_range]: with any other values for the two, the same
    frame gives the same result and the same next state. *)
Theorem detect_ignores_unread_settings lm h clk self r self' (threshold upper : Q) :
  detect lm h clk self = Returned r self' ->
  detect lm h clk (with_unread_settings threshold upper self)
  = Returned r (with_unread_settings threshold upper self').
Proof.
  intros Hd.
  destruct (detect_Returned _ _ _ _ _ _ Hd)
    as (torso & center & head & b2 & b3 & conf & shift & Hall).
  cbv zeta in Hall.
  destruct Hall as (Et & Ec & Eh & E2 & E3 & Econf & Es & -> & ->).
  rewrite (detect_forward lm h clk (with_unread_settings threshold upper self)
             torso center head b2 b3 Et Ec Eh); [|exact E2|exact E3].
  erewrite decide_forward; [|exact Econf|exact Es].
  match goal with
  | |- Returned _ (if ?c then _ else _)
       = Returned _ (with_unread_settings _ _ (if ?d then _ else _)) =>
      change c with d; destruct d; reflexivity
  end.
Qed.

End UnreadSettings.

Lemma detect_ignores_unread_settings_witness :
  exists r self',
    detect (H := approx_math) lying_body 480 (clock_at 1000) calibrated_detector
    = Returned r self'
    /\ detect (H := approx_math) lying_body 480 (clock_at 1000)
         (with_unread_settings 80 20 calibrated_detector)
       = Returned r (with_unread_settings 80 20 self').
Proof.
  destruct (detect (H := approx_math) lying_body 480 (clock_at 1000)
              calibrated_detector) as [r self'|e self'] eqn:Hd;
    [|by vm_compute in Hd].
  exists r, self'. split; [reflexivity|].
  exact (detect_ignores_unread_settings (H := approx_math) lying_body 480
           (clock_at 1000) calibrated_detector r self' 80 20 Hd).
Defined.

(** ** The counter between alarms *)

Section Counter.
Context `{MathLib}.

Lemma quiet_run (frames : list Call) (self : FallDetector) :
  quiet_frames self frames ->
  0 <= consecutive_detections self <= consecutive_frames self ->
  0 < consecutive_frames self ->
  exists os self',
    run frames self = Returned os self'
    /\ consecutive_detections self'
       = Z.max 0 (consecutive_detections self - Z.of_nat (length frames))
    /\ consecutive_frames self' = consecutive_frames self
    /\ forall r, In (Some r) os -> is_fall_detected r = false.
Proof.
  induction 1 as [self | self lm h clk rest r s1 Hd Hnone _ IH]; intros Hc HF.
  - exists [], self. repeat split; [cbn [length]; lia | by intros r []].
  - pose proof (detect_summary _ _ _ _ _ _ Hd) as (Hcnt & Hfire & _ & _ & Hcfg & _).
    cbv zeta in Hcnt, Hfire. rewrite Hnone in Hcnt, Hfire.
    cbn [length] in Hcnt, Hfire. unfold next_counter in Hcnt.
    change (Z.of_nat 0 >? 0) with false in Hcnt. cbv iota in Hcnt.
    destruct Hcfg as (_ & _ & _ & HF1 & _).
    destruct IH as (os & self' & Hrun & Hcnt' & HF' & Hno); [lia | lia |].
    exists (Some r :: os), self'.
    cbn [run exec]. unfold mbind at 1 2, ret at 1. rewrite Hd.
    unfold mbind at 1. rewrite Hrun.
    split; [reflexivity|]. split; [rewrite Hcnt', Hcnt; cbn [length]; lia|].
    split; [congruence|].
    intros r' [[= <-]|Hin]; [|by apply Hno].
    rewrite Hfire. unfold eligible.
    change (Z.of_nat 0 >=? 2) with false. cbn [orb].
    replace (consecutive_detections s1 >=? consecutive_frames self) with false;
      [done|].
    symmetry. rewrite Z.geb_leb. apply Z.leb_gt. lia.
Qed.

(** X10.  Frames on which no rule triggers, met with a counter between 0
    and [consecutive_frames] (positive): none of them raises the alarm, and
    each lowers the counter by one, down to 0. *)
Theorem quiet_frames_lower_counter (frames : list Call) (self : FallDetector) :
  quiet_frames self frames ->
  0 <= consecutive_detections self <= consecutive_frames self ->
  0 < consecutive_frames self ->
  exists os self',
    run frames self = Returned os self'
    /\ consecutive_detections self'
       = Z.max 0 (consecutive_detections self - Z.of_nat (length frames))
    /\ forall r, In (Some r) os -> is_fall_detected r = false.
Proof.
  intros Hq Hc HF.
  destruct (quiet_run frames self Hq Hc HF) as (os & self' & Hrun & Hcnt & _ & Hno).
  by exists os, self'.
Qed.

(** X11.  [force_reset_cooldown] returns with the counter and the time of
    the last alarm at 0 and nothing else changed.  On the next frame, read
    at a clock that is past [cooldown_seconds], an engine that needs more
    than one frame alarms exactly when two rules or more trigger. *)
Theorem force_reset_rearms (self self1 : FallDetector) lm h clk r self2 :
  force_reset_cooldown self = Returned tt self1 ->
  (cooldown_seconds self <= t_cooldown clk)%Q ->
  1 < consecutive_frames self ->
  detect lm h clk self1 = Returned r self2 ->
  consecutive_detections self1 = 0 /\ last_alert_time self1 = 0%Q
  /\ angle_tracker self1 = angle_tracker self
  /\ same_config self self1 /\ same_baseline self self1
  /\ (is_fall_detected r = true <-> (2 <= length (trigger_reasons r))%nat).
Proof.
  intros Hf Hclk HF Hd. injection Hf as <-.
  split; [reflexivity|]. split; [reflexivity|]. split; [reflexivity|].
  split; [by repeat split|]. split; [by repeat split|].
  pose proof (detect_summary _ _ _ _ _ _ Hd) as (Hcnt & Hfire & _).
  cbv zeta in Hcnt, Hfire. rewrite Hfire, andb_true_iff, eligible_true, Hcnt.
  unfold next_counter, _is_in_cooldown.
  cbn [consecutive_detections consecutive_frames last_alert_time cooldown_seconds
       set_consecutive_detections set_last_alert_time].
  rewrite negb_true_iff, Qltb_false.
  split.
  - intros [[Hn|Hn] _]; [lia|]. destruct (_ >? 0); lia.
  - intros Hn. split; [left; lia | lra].
Qed.

End Counter.

Lemma quiet_frames_lower_counter_witness :
  exists os self',
    quiet_frames (H := approx_math) counting_detector three_upright_frames
    /\ 0 <= consecutive_detections counting_detector
            <= consecutive_frames counting_detector
    /\ 0 < consecutive_frames counting_detector
    /\ run (H := approx_math) three_upright_frames counting_detector
       = Returned os self'
    /\ consecutive_detections self'
       = Z.max 0 (consecutive_detections counting_detector
                  - Z.of_nat (length three_upright_frames))
    /\ forall r, In (Some r) os -> is_fall_detected r = false.
Proof.
  assert (Hq : quiet_frames (H := approx_math) counting_detector three_upright_frames).
  { unfold three_upright_frames. cbn [map].
    repeat (eapply quiet_cons; [by vm_compute | reflexivity |]).
    apply quiet_nil. }
  assert (Hc : 0 <= consecutive_detections counting_detector
                 <= consecutive_frames counting_detector) by (cbn; lia).
  assert (HF : 0 < consecutive_frames counting_detector) by (cbn; lia).
  destruct (quiet_frames_lower_counter (H := approx_math) three_upright_frames
              counting_detector Hq Hc HF) as (os & self' & Hrest).
  exists os, self'. split; [exact Hq|]. split; [exact Hc|]. split; [exact HF|].
  exact Hrest.
Defined.

Lemma force_reset_rearms_witness :
  exists self1 r self2,
    force_reset_cooldown shifted_detector = Returned tt self1
    /\ (cooldown_seconds shifted_detector <= t_cooldown (clock_at 1002))%Q
    /\ 1 < consecutive_frames shifted_detector
    /\ detect (H := approx_math) lying_body 480 (clock_at 1002) self1
       = Returned r self2
    /\ consecutive_detections self1 = 0
    /\ is_fall_detected r = true.
Proof.
  assert (Hclk : (cooldown_seconds shifted_detector <= t_cooldown (clock_at 1002))%Q)
    by (by vm_compute).
  assert (HF : 1 < consecutive_frames shifted_detector) by (by vm_compute).
  set (self1 := set_consecutive_detections 0 (set_last_alert_time 0 shifted_detector)).
  assert (Hf : force_reset_cooldown shifted_detector = Returned tt self1)
    by reflexivity.
  destruct (detect (H := approx_math) lying_body 480 (clock_at 1002) self1)
    as [r self2|e self2] eqn:Hd; [|by vm_compute in Hd].
  exists self1, r, self2.
  split; [exact Hf|]. split; [exact Hclk|]. split; [exact HF|].
  split; [exact Hd|].
  destruct (force_reset_rearms (H := approx_math) shifted_detector self1 lying_body
              480 (clock_at 1002) r self2 Hf Hclk HF Hd)
    as (Hc & _ & _ & _ & _ & Hiff).
  split; [exact Hc|].
  apply Hiff.
  assert (Hv := Hd). vm_compute in Hv. injection Hv as Hr _.
  rewrite <- Hr. cbn. lia.
Defined.

(** ** Exceptions *)

Section Exceptions.
Context `{MathLib}.





End Exceptions.




(** ** Geometry of one frame *)

Lemma int_of_float_between (m M : Z) (q : Q) :
  (inject_Z m <= q)%Q -> (q <= inject_Z M)%Q ->
  m <= int_of_float q <= M.
Proof.
  destruct q as [n d]. unfold int_of_float, Qle, inject_Z. cbn [Qnum Qden].
  intros Hm HM. rewrite Z.mul_1_r in Hm, HM.
  pose proof (Z.quot_rem' n (Z.pos d)) as Hqr.
  assert (Hr : 0 <= n /\ 0 <= Z.rem n (Z.pos d) < Z.pos d
               \/ n < 0 /\ - Z.pos d < Z.rem n (Z.pos d) <= 0).
  { destruct (Z.le_gt_cases 0 n) as [Hn|Hn].
    - left. split; [done|]. apply Z.rem_bound_pos; lia.
    - right. split; [done|]. apply Z.rem_bound_pos_neg; lia. }
  generalize dependent (Z.rem n (Z.pos d)).
  generalize dependent (Z.quot n (Z.pos d)).
  generalize dependent (Z.pos d).
  intros D Hm HM q r Hqr Hr.
  assert (0 < D) by lia.
  split; nia.
Qed.

Section FrameGeometry.
Context `{MathLib}.

Lemma calculate_angle_from_vertical_sym (p q : Point) :
  Geometry.calculate_angle_from_vertical p q
  = Geometry.calculate_angle_from_vertical q p.
Proof.
  unfold Geometry.calculate_angle_from_vertical. cbv zeta.
  replace (q.1 - p.1) with (- (p.1 - q.1)) by lia.
  replace (q.2 - p.2) with (- (p.2 - q.2)) by lia.
  by rewrite !Z.abs_opp.
Qed.

Lemma calculate_torso_angle_joints (lm : JointMap) :
  Geometry.calculate_torso_angle lm
  = match lm !! "left_shoulder", lm !! "right_shoulder",
          lm !! "left_hip", lm !! "right_hip" with
    | Some ls, Some rs, Some lh, Some rh =>
        Ok (Some (Geometry.calculate_angle_from_vertical
                    (int_of_float (inject_Z (ls.1 + rs.1) / 2),
                     int_of_float (inject_Z (ls.2 + rs.2) / 2))
                    (int_of_float (inject_Z (lh.1 + rh.1) / 2),
                     int_of_float (inject_Z (lh.2 + rh.2) / 2))))
    | _, _, _, _ => Ok None
    end.
Proof.
  unfold Geometry.calculate_torso_angle, Geometry.required_points,
    Geometry.any_missing, Geometry.contains, Geometry.getitem.
  destruct (lm !! "left_shoulder"), (lm !! "right_shoulder"),
    (lm !! "left_hip"), (lm !! "right_hip"); reflexivity.
Qed.

Lemma calculate_body_center_joints (lm : JointMap) :
  Geometry.calculate_body_center lm
  = match lm !! "left_shoulder", lm !! "right_shoulder",
          lm !! "left_hip", lm !! "right_hip" with
    | Some ls, Some rs, Some lh, Some rh =>
        Ok (Some
              (int_of_float
                 ((inject_Z (ls.1 + rs.1) / 2 + inject_Z lh.1 + inject_Z rh.1) / 3),
               int_of_float
                 ((inject_Z (ls.2 + rs.2) / 2 + inject_Z lh.2 + inject_Z rh.2) / 3)))
    | _, _, _, _ => Ok None
    end.
Proof.
  unfold Geometry.calculate_body_center, Geometry.required_points,
    Geometry.any_missing, Geometry.contains, Geometry.getitem.
  destruct (lm !! "left_shoulder"), (lm !! "right_shoulder"),
    (lm !! "left_hip"), (lm !! "right_hip"); reflexivity.
Qed.

(** X13.  The torso angle does not tell which end of the torso is up, nor
    left from right: a frame in which shoulders and hips have changed
    places, or the left and right joints have, has the same torso angle. *)
Theorem torso_angle_symmetries (lm upside_down mirrored : JointMap) :
  upside_down !! "left_shoulder" = lm !! "left_hip" ->
  upside_down !! "right_shoulder" = lm !! "right_hip" ->
  upside_down !! "left_hip" = lm !! "left_shoulder" ->
  upside_down !! "right_hip" = lm !! "right_shoulder" ->
  mirrored !! "left_shoulder" = lm !! "right_shoulder" ->
  mirrored !! "right_shoulder" = lm !! "left_shoulder" ->
  mirrored !! "left_hip" = lm !! "right_hip" ->
  mirrored !! "right_hip" = lm !! "left_hip" ->
  Geometry.calculate_torso_angle upside_down = Geometry.calculate_torso_angle lm
  /\ Geometry.calculate_torso_angle mirrored = Geometry.calculate_torso_angle lm.
Proof.
  intros U1 U2 U3 U4 M1 M2 M3 M4.
  rewrite !calculate_torso_angle_joints, U1, U2, U3, U4, M1, M2, M3, M4.
  destruct (lm !! "left_shoulder") as [ls|], (lm !! "right_shoulder") as [rs|],
    (lm !! "left_hip") as [lh|], (lm !! "right_hip") as [rh|]; try done.
  split.
  - by rewrite calculate_angle_from_vertical_sym.
  - by rewrite (Z.add_comm rs.1), (Z.add_comm rs.2), (Z.add_comm rh.1),
      (Z.add_comm rh.2).
Qed.

(** X14.  On the coordinates of an image, the body center of a frame lies
    in the bounding box of the two shoulders and the two hips. *)
Theorem body_center_in_bounding_box (lm : JointMap) (c : Point) (x0 x1 y0 y1 : Z) :
  joints_in_range lm ->
  Geometry.calculate_body_center lm = Ok (Some c) ->
  (forall name p, In name Geometry.required_points -> lm !! name = Some p ->
                  x0 <= p.1 <= x1 /\ y0 <= p.2 <= y1) ->
  x0 <= c.1 <= x1 /\ y0 <= c.2 <= y1.
Proof.
  intros _ Hc Hbox. rewrite calculate_body_center_joints in Hc.
  destruct (lm !! "left_shoulder") as [ls|] eqn:E1; [|discriminate].
  destruct (lm !! "right_shoulder") as [rs|] eqn:E2; [|discriminate].
  destruct (lm !! "left_hip") as [lh|] eqn:E3; [|discriminate].
  destruct (lm !! "right_hip") as [rh|] eqn:E4; [|discriminate].
  injection Hc as <-. cbn [fst snd].
  destruct (Hbox "left_shoulder" _ ltac:(cbn; tauto) E1) as [[? ?] [? ?]].
  destruct (Hbox "right_shoulder" _ ltac:(cbn; tauto) E2) as [[? ?] [? ?]].
  destruct (Hbox "left_hip" _ ltac:(cbn; tauto) E3) as [[? ?] [? ?]].
  destruct (Hbox "right_hip" _ ltac:(cbn; tauto) E4) as [[? ?] [? ?]].
  assert (Hq : forall a b : Z, (a <= b)%Z -> (inject_Z a <= inject_Z b)%Q)
    by (intros a b; by rewrite <- Zle_Qle).
  split; apply int_of_float_between; unfold Qdiv;
    change (/ 2)%Q with (1 # 2)%Q; change (/ 3)%Q with (1 # 3)%Q;
    rewrite inject_Z_plus.
  all: repeat match goal with
         | Hle : (?a <= ?b)%Z |- _ => apply Hq in Hle
         end; lra.
Qed.

(** X15.  Which joints each feature needs, on the coordinates of an image:
    the torso angle and the body center are there exactly when both
    shoulders and both hips are, the shoulder (hip) angle exactly when both
    shoulders (hips) are, and the angle of a leg exactly when the hip and
    the ankle of that side are, whatever the other leg; no joint that is
    missing makes any of them raise. *)
Theorem features_need_their_joints (lm : JointMap) :
  joints_in_range lm ->
  ((exists a, Geometry.calculate_torso_angle lm = Ok (Some a))
   <-> Forall (fun p => is_Some (lm !! p)) Geometry.required_points)
  /\ ((exists c, Geometry.calculate_body_center lm = Ok (Some c))
      <-> Forall (fun p => is_Some (lm !! p)) Geometry.required_points)
  /\ ((exists a, Geometry.calculate_shoulder_angle lm = Ok (Some a))
      <-> is_Some (lm !! "left_shoulder") /\ is_Some (lm !! "right_shoulder"))
  /\ ((exists a, Geometry.calculate_hip_angle lm = Ok (Some a))
      <-> is_Some (lm !! "left_hip") /\ is_Some (lm !! "right_hip"))
  /\ (exists torso center shoulder hip,
        Geometry.calculate_torso_angle lm = Ok torso
        /\ Geometry.calculate_body_center lm = Ok center
        /\ Geometry.calculate_shoulder_angle lm = Ok shoulder
        /\ Geometry.calculate_hip_angle lm = Ok hip)
  /\ exists left_leg right_leg,
       Geometry.calculate_leg_angles lm = Ok (left_leg, right_leg)
       /\ (is_Some left_leg
           <-> is_Some (lm !! "left_hip") /\ is_Some (lm !! "left_ankle"))
       /\ (is_Some right_leg
           <-> is_Some (lm !! "right_hip") /\ is_Some (lm !! "right_ankle")).
Proof.
  intros _.
  assert (Hret : exists torso center shoulder hip,
            Geometry.calculate_torso_angle lm = Ok torso
            /\ Geometry.calculate_body_center lm = Ok center
            /\ Geometry.calculate_shoulder_angle lm = Ok shoulder
            /\ Geometry.calculate_hip_angle lm = Ok hip).
  { destruct (calculate_torso_angle_returns lm) as [torso ->].
    destruct (calculate_body_center_returns lm) as [center ->].
    destruct (calculate_shoulder_angle_returns lm) as [shoulder ->].
    destruct (calculate_hip_angle_returns lm) as [hip ->].
    by exists torso, center, shoulder, hip. }
  assert (Hs : forall (A : Type) (x : A), is_Some (Some x)) by (by eexists).
  assert (Hn : forall A : Type, ~ is_Some (@None A)) by (by intros A [? [=]]).
  split; [|split; [|split; [|split; [|split; [exact Hret|]]]]]; clear Hret.
  all: rewrite ?calculate_torso_angle_joints, ?calculate_body_center_joints.
  all: unfold Geometry.required_points; rewrite ?Forall_cons, ?Forall_nil.
  all: unfold Geometry.calculate_shoulder_angle, Geometry.calculate_hip_angle,
         Geometry.calculate_leg_angles, Geometry.contains, Geometry.getitem.
  1, 2: destruct (lm !! "left_shoulder"), (lm !! "right_shoulder"),
          (lm !! "left_hip"), (lm !! "right_hip");
        (split; [intros [? [=]] | intros (? & ? & ? & ? & _)]);
        try (exfalso; by eapply Hn); try (by eauto); repeat split; by eauto.
  - destruct (lm !! "left_shoulder"), (lm !! "right_shoulder"); cbn;
      (split; [intros [? [=]] | intros (? & ?)]);
      try (exfalso; by eapply Hn); repeat split; by eauto.
  - destruct (lm !! "left_hip"), (lm !! "right_hip"); cbn;
      (split; [intros [? [=]] | intros (? & ?)]);
      try (exfalso; by eapply Hn); repeat split; by eauto.
  - destruct (lm !! "left_hip"), (lm !! "left_ankle"),
      (lm !! "right_hip"), (lm !! "right_ankle"); cbn;
      eexists _, _; (split; [reflexivity|]);
      split; (split; [intros ? | intros (? & ?)]);
      try (exfalso; by eapply Hn); repeat split; by eauto.
Qed.

End FrameGeometry.

Lemma torso_angle_symmetries_witness :
  headstand_body 150 !! "left_shoulder" = upright_body 150 !! "left_hip"
  /\ mirrored_body 150 !! "left_shoulder" = upright_body 150 !! "right_shoulder"
  /\ Geometry.calculate_torso_angle (H := approx_math) (headstand_body 150)
     = Geometry.calculate_torso_angle (H := approx_math) (upright_body 150)
  /\ Geometry.calculate_torso_angle (H := approx_math) (mirrored_body 150)
     = Geometry.calculate_torso_angle (H := approx_math) (upright_body 150).
Proof.
  split; [reflexivity|]. split; [reflexivity|].
  exact (torso_angle_symmetries (H := approx_math) (upright_body 150)
           (headstand_body 150) (mirrored_body 150)
           eq_refl eq_refl eq_refl eq_refl eq_refl eq_refl eq_refl eq_refl).
Defined.

Lemma upright_body_in_range : joints_in_range (upright_body 150).
Proof.
  intros name p Hp. unfold upright_body in Hp.
  repeat (apply lookup_insert_Some in Hp as [[_ <-]|[_ Hp]];
          [split; by vm_compute|]).
  by rewrite lookup_empty in Hp.
Qed.

Lemma body_center_in_bounding_box_witness :
  exists c,
    joints_in_range (upright_body 150)
    /\ Geometry.calculate_body_center (upright_body 150) = Ok (Some c)
    /\ (forall name p, In name Geometry.required_points ->
          upright_body 150 !! name = Some p ->
          100 <= p.1 <= 200 /\ 100 <= p.2 <= 300)
    /\ 100 <= c.1 <= 200 /\ 100 <= c.2 <= 300.
Proof.
  assert (Hbox : forall name p, In name Geometry.required_points ->
            upright_body 150 !! name = Some p ->
            100 <= p.1 <= 200 /\ 100 <= p.2 <= 300).
  { intros name p [<-|[<-|[<-|[<-|[]]]]] Hp; vm_compute in Hp;
      injection Hp as <-; cbn; lia. }
  destruct (Geometry.calculate_body_center (upright_body 150)) as [[c|]|e] eqn:Hc;
    [|by vm_compute in Hc..].
  exists c. split; [exact upright_body_in_range|].
  split; [reflexivity|]. split; [exact Hbox|].
  exact (body_center_in_bounding_box (upright_body 150) c 100 200 100 300
           upright_body_in_range Hc Hbox).
Defined.

Lemma features_need_their_joints_witness :
  joints_in_range (upright_body 150)
  /\ (exists a, Geometry.calculate_torso_angle (H := approx_math) (upright_body 150)
                = Ok (Some a))
  /\ (exists c, Geometry.calculate_body_center (upright_body 150) = Ok (Some c))
  /\ Geometry.calculate_leg_angles (H := approx_math) (upright_body 150)
     = Ok (None, None).
Proof.
  split; [exact upright_body_in_range|].
  destruct (features_need_their_joints (H := approx_math) (upright_body 150)
              upright_body_in_range) as (Ht & Hc & _ & _ & _ & Hlegs).
  assert (Hall : Forall (fun p => is_Some (upright_body 150 !! p))
                   Geometry.required_points)
    by (repeat constructor; by eexists).
  split; [by apply Ht|]. split; [by apply Hc|].
  destruct Hlegs as (left_leg & right_leg & -> & Hl & Hr).
  destruct left_leg as [a|].
  { destruct (proj1 Hl ltac:(by eexists)) as [_ [? Hankle]].
    by vm_compute in Hankle. }
  destruct right_leg as [a|]; [|reflexivity].
  destruct (proj1 Hr ltac:(by eexists)) as [_ [? Hankle]].
  by vm_compute in Hankle.
Defined.

(** ** From the pose to the joints *)

Lemma index_nonneg {A : Type} (l : list A) (i : Z) :
  0 <= i < Z.of_nat (length l) ->
  exists x, index l i = Ok x /\ l !! Z.to_nat i = Some x.
Proof.
  intros Hi. unfold index.
  destruct (Z.ltb_spec i 0) as [|_]; [lia|].
  destruct (Z.ltb_spec i 0) as [|_]; [lia|].
  destruct (Z.leb_spec (Z.of_nat (length l)) i) as [|_]; [lia|].
  cbn [orb].
  destruct (l !! Z.to_nat i) as [x|] eqn:E; [by eauto|].
  apply lookup_ge_None in E. lia.
Qed.

Lemma index_Ok_In {A : Type} (l : list A) (i : Z) (x : A) :
  index l i = Ok x -> In x l.
Proof.
  unfold index.
  destruct (_ || _); [discriminate|].
  destruct (l !! _) as [y|] eqn:E; [|discriminate].
  intros [= <-]. apply list_elem_of_In. by eapply list_elem_of_lookup_2.
Qed.

Lemma lookup_name_None (items : list (string * Z)) (name : string) :
  name ∉ items.*1 -> Pose.lookup_name items name = None.
Proof.
  induction items as [|[k idx] rest IH]; [done|].
  cbn [Pose.lookup_name fmap list_fmap fst]. rewrite not_elem_of_cons.
  intros [Hne Hrest].
  destruct (String.eqb_spec k name) as [->|_]; [done | by apply IH].
Qed.

Lemma fill_landmarks_lookup (lms : list Pose.Landmark) (items : list (string * Z))
    (w h : Z) (d0 d : JointMap) (name : string) :
  NoDup items.*1 ->
  Pose.fill_landmarks lms items w h d0 = Ok d ->
  match Pose.lookup_name items name with
  | Some idx => exists landmark,
                  index lms idx = Ok landmark
                  /\ d !! name = Some (Pose.to_pixel landmark w h)
  | None => d !! name = d0 !! name
  end.
Proof.
  revert d0. induction items as [|[k idx] rest IH]; intros d0 Hnd Hfill.
  - by injection Hfill as <-.
  - cbn [fmap list_fmap fst] in Hnd. apply NoDup_cons in Hnd as [Hk Hnd].
    cbn [Pose.fill_landmarks Pose.lookup_name] in *.
    destruct (index lms idx) as [landmark|] eqn:Ei; [|discriminate].
    cbn [Py.bind] in Hfill.
    specialize (IH _ Hnd Hfill).
    destruct (String.eqb_spec k name) as [->|Hne].
    + rewrite (lookup_name_None rest name Hk) in IH.
      exists landmark. split; [done|]. by rewrite IH, lookup_insert_eq.
    + destruct (Pose.lookup_name rest name); [done|].
      by rewrite IH, lookup_insert_ne.
Qed.

Lemma fill_landmarks_returns (lms : list Pose.Landmark) (items : list (string * Z))
    (w h : Z) (d0 : JointMap) :
  Forall (fun item => 0 <= item.2 < Z.of_nat (length lms)) items ->
  exists d, Pose.fill_landmarks lms items w h d0 = Ok d.
Proof.
  revert d0. induction items as [|[k idx] rest IH]; intros d0 Hall.
  - by eexists.
  - apply Forall_cons in Hall as [Hi Hall]. cbn [snd] in Hi.
    cbn [Pose.fill_landmarks].
    destruct (index_nonneg lms idx Hi) as (landmark & -> & _).
    cbn [Py.bind]. by apply IH.
Qed.

Lemma LANDMARKS_NoDup : NoDup Pose.LANDMARKS.*1.
Proof. apply (bool_decide_unpack _). by vm_compute. Qed.

Lemma get_all_landmarks_lookup (self : Pose.PoseDetector) (w h : Z) (d : JointMap)
    (name : string) :
  Pose.get_all_landmarks self w h = Ok d ->
  match Pose.landmarks self, Pose.lookup_name Pose.LANDMARKS name with
  | Some lms, Some idx =>
      exists landmark, index lms idx = Ok landmark
                       /\ d !! name = Some (Pose.to_pixel landmark w h)
  | _, _ => d !! name = None
  end.
Proof.
  unfold Pose.get_all_landmarks. intros Hd.
  destruct (Pose.landmarks self) as [lms|].
  - pose proof (fill_landmarks_lookup lms Pose.LANDMARKS w h ∅ d name
                  LANDMARKS_NoDup Hd) as Hl.
    destruct (Pose.lookup_name Pose.LANDMARKS name); [done|].
    by rewrite Hl.
  - by injection Hd as <-.
Qed.

Lemma LANDMARKS_indices :
  Forall (fun item : string * Z => 0 <= item.2 < 33) Pose.LANDMARKS.
Proof. unfold Pose.LANDMARKS. repeat (constructor; [cbn; lia|]). constructor. Qed.

Lemma get_all_landmarks_returns (self : Pose.PoseDetector)
    (lms : list Pose.Landmark) (w h : Z) :
  Pose.landmarks self = Some lms -> 33 <= Z.of_nat (length lms) ->
  exists d, Pose.get_all_landmarks self w h = Ok d.
Proof.
  intros Hlms Hlen. unfold Pose.get_all_landmarks. rewrite Hlms.
  apply fill_landmarks_returns.
  eapply Forall_impl; [exact LANDMARKS_indices|].
  intros item Hi. cbv beta in Hi. lia.
Qed.

Lemma standing_landmarks_length : 33 <= Z.of_nat (length standing_landmarks).
Proof. by vm_compute. Qed.

(** X17.  The dictionary of [get_all_landmarks] and the single lookups of
    [get_landmark_position] agree on every name, also on names that are
    not landmarks and when no pose is stored. *)
Theorem get_all_landmarks_agrees (self : Pose.PoseDetector) (w h : Z) (d : JointMap) :
  Pose.get_all_landmarks self w h = Ok d ->
  forall name, Pose.get_landmark_position self name w h = Ok (d !! name).
Proof.
  intros Hd name.
  pose proof (get_all_landmarks_lookup self w h d name Hd) as Hl.
  unfold Pose.get_landmark_position.
  destruct (Pose.landmarks self) as [lms|]; [|by rewrite Hl].
  destruct (Pose.lookup_name Pose.LANDMARKS name) as [idx|]; [|by rewrite Hl].
  destruct Hl as (landmark & -> & ->). reflexivity.
Qed.

Lemma get_all_landmarks_agrees_witness :
  exists d,
    Pose.get_all_landmarks standing_pose 640 480 = Ok d
    /\ forall name, Pose.get_landmark_position standing_pose name 640 480
                    = Ok (d !! name).
Proof.
  destruct (get_all_landmarks_returns standing_pose standing_landmarks 640 480
              eq_refl standing_landmarks_length) as [d Hd].
  exists d. split; [exact Hd|].
  exact (get_all_landmarks_agrees standing_pose 640 480 d Hd).
Defined.

(** X18.  When MediaPipe places the nose inside the image (its normalized
    height is in [[0, 1]]) and the frame height is positive, the head
    height ratio computed from the joints of [get_all_landmarks] is there
    and lies in [[0, 1]]. *)
Theorem pipeline_head_height_in_unit_interval (self : Pose.PoseDetector)
    (lms : list Pose.Landmark) (w h : Z) (d : JointMap) :
  Pose.landmarks self = Some lms ->
  Forall (fun landmark => (0 <= Pose.y landmark)%Q /\ (Pose.y landmark <= 1)%Q) lms ->
  0 < h ->
  Pose.get_all_landmarks self w h = Ok d ->
  exists ratio,
    Geometry.calculate_head_height_ratio d h = Ok (Some ratio)
    /\ (0 <= ratio)%Q /\ (ratio <= 1)%Q.
Proof.
  intros Hlms Hall Hh Hd.
  pose proof (get_all_landmarks_lookup self w h d "nose" Hd) as Hl.
  rewrite Hlms in Hl. cbn [Pose.lookup_name Pose.LANDMARKS String.eqb] in Hl.
  change (String.eqb "nose" "nose") with true in Hl. cbv iota in Hl.
  destruct Hl as (nose & Hi & Hn).
  apply index_Ok_In, list_elem_of_In in Hi.
  rewrite Forall_forall in Hall. destruct (Hall nose Hi) as [Hy0 Hy1].
  rewrite (calculate_head_height_ratio_present d h _ Hn) by lia.
  eexists. split; [reflexivity|].
  cbn [Pose.to_pixel snd].
  assert (HhQ : (0 < inject_Z h)%Q)
    by (change 0%Q with (inject_Z 0); by rewrite <- Zlt_Qlt).
  destruct (int_of_float_between 0 h (Pose.y nose * inject_Z h)) as [Hp0 Hp1].
  { change (inject_Z 0) with 0%Q. nra. }
  { nra. }
  split.
  - apply Qle_shift_div_l; [done|]. rewrite Qmult_0_l.
    change 0%Q with (inject_Z 0). by rewrite <- Zle_Qle.
  - apply Qle_shift_div_r; [done|]. rewrite Qmult_1_l. by rewrite <- Zle_Qle.
Qed.

Lemma pipeline_head_height_in_unit_interval_witness :
  exists d ratio,
    Pose.landmarks standing_pose = Some standing_landmarks
    /\ Forall (fun landmark => (0 <= Pose.y landmark)%Q /\ (Pose.y landmark <= 1)%Q)
         standing_landmarks
    /\ 0 < 480
    /\ Pose.get_all_landmarks standing_pose 640 480 = Ok d
    /\ Geometry.calculate_head_height_ratio d 480 = Ok (Some ratio)
    /\ (0 <= ratio)%Q /\ (ratio <= 1)%Q.
Proof.
  assert (Hall : Forall (fun landmark =>
                           (0 <= Pose.y landmark)%Q /\ (Pose.y landmark <= 1)%Q)
                   standing_landmarks).
  { unfold standing_landmarks. apply Forall_forall. intros l Hl.
    apply list_elem_of_fmap in Hl as (i & -> & _).
    repeat match goal with
      | |- context [if ?c then _ else _] => destruct c
      end; split; by vm_compute. }
  assert (Hh : 0 < 480) by lia.
  destruct (get_all_landmarks_returns standing_pose standing_landmarks 640 480
              eq_refl standing_landmarks_length) as [d Hd].
  destruct (pipeline_head_height_in_unit_interval standing_pose standing_landmarks
              640 480 d eq_refl Hall Hh Hd) as (ratio & Hr).
  exists d, ratio. split; [reflexivity|]. split; [exact Hall|].
  split; [exact Hh|]. split; [exact Hd|]. exact Hr.
Defined.

(** ** The body center and the head of [PoseDetector] *)







(** ** The loop of the application *)

Lemma get_all_landmarks_joint (self : Pose.PoseDetector) (lms : list Pose.Landmark)
    (w h : Z) (d : JointMap) (name : string) (idx : Z) :
  Pose.landmarks self = Some lms ->
  Pose.get_all_landmarks self w h = Ok d ->
  Pose.lookup_name Pose.LANDMARKS name = Some idx ->
  exists landmark,
    index lms idx = Ok landmark /\ d !! name = Some (Pose.to_pixel landmark w h).
Proof.
  intros Hlms Hd Hname.
  pose proof (get_all_landmarks_lookup self w h d name Hd) as Hl.
  by rewrite Hlms, Hname in Hl.
Qed.

Lemma Qeq_bool_ratio (a b : Z) :
  b <> 0 -> Qeq_bool (inject_Z a / inject_Z b) 0 = (a =? 0).
Proof.
  intros Hb.
  assert (HbQ : ~ (inject_Z b == 0)%Q).
  { change 0%Q with (inject_Z 0). by rewrite inject_Z_injective. }
  destruct (Z.eqb_spec a 0) as [->|Ha].
  - apply Qeq_bool_iff. unfold Qdiv. change (inject_Z 0) with 0%Q. ring.
  - apply not_true_is_false. rewrite Qeq_bool_iff. intros Hz.
    apply Ha. apply inject_Z_injective. change (inject_Z 0) with 0%Q.
    rewrite <- (Qmult_div_r (inject_Z a) (inject_Z b)) by done.
    rewrite Hz. ring.
Qed.

Section Application.
Context `{MathLib}.

Lemma pose_features (self : Pose.PoseDetector) (lms : list Pose.Landmark)
    (w h : Z) :
  Pose.landmarks self = Some lms -> 33 <= Z.of_nat (length lms) -> h <> 0 ->
  exists d nose angle center,
    Pose.get_all_landmarks self w h = Ok d
    /\ index lms 0 = Ok nose
    /\ Geometry.calculate_torso_angle d = Ok (Some angle)
    /\ Geometry.calculate_body_center d = Ok (Some center)
    /\ Geometry.calculate_head_height_ratio d h
       = Ok (Some (inject_Z (Pose.to_pixel nose w h).2 / inject_Z h)%Q).
Proof.
  intros Hlms Hlen Hh.
  destruct (get_all_landmarks_returns self lms w h Hlms Hlen) as [d Hd].
  destruct (get_all_landmarks_joint self lms w h d "nose" 0 Hlms Hd eq_refl)
    as (nose & Hi & Hn).
  destruct (get_all_landmarks_joint self lms w h d "left_shoulder" 11 Hlms Hd eq_refl)
    as (ls & _ & Hls).
  destruct (get_all_landmarks_joint self lms w h d "right_shoulder" 12 Hlms Hd eq_refl)
    as (rs & _ & Hrs).
  destruct (get_all_landmarks_joint self lms w h d "left_hip" 23 Hlms Hd eq_refl)
    as (lh & _ & Hlh).
  destruct (get_all_landmarks_joint self lms w h d "right_hip" 24 Hlms Hd eq_refl)
    as (rh & _ & Hrh).
  exists d, nose. eexists _, _.
  split; [done|]. split; [done|].
  rewrite calculate_torso_angle_joints, calculate_body_center_joints,
    Hls, Hrs, Hlh, Hrh.
  split; [reflexivity|]. split; [reflexivity|].
  by apply calculate_head_height_ratio_present.
Qed.

(** X20.  When a pose was found (MediaPipe gives its 33 landmarks), the
    frame height is not 0 and [consecutive_frames] is not 0, the loop's call
    of [detect] returns, and its result has a torso angle and a head
    height: no joint is ever missing on this path, whatever the visibility
    of the landmarks. *)
Theorem detected_pose_gives_every_feature (pose_detector : Pose.PoseDetector)
    (lms : list Pose.Landmark) (w h : Z) (clk : Clock) (self : FallDetector) :
  Pose.landmarks pose_detector = Some lms ->
  33 <= Z.of_nat (length lms) ->
  h <> 0 ->
  consecutive_frames self <> 0 ->
  exists r self',
    App.process_frame pose_detector w h clk self = Returned r self'
    /\ is_Some (torso_angle r) /\ is_Some (head_height r).
Proof.
  intros Hlms Hlen Hh HF.
  destruct (pose_features pose_detector lms w h Hlms Hlen Hh)
    as (d & nose & angle & center & Hd & _ & Ht & Hc & Hhead).
  destruct (detect_returns d h clk self Hh HF) as (r & self' & Hdet).
  exists r, self'.
  unfold App.process_frame. rewrite Hlms.
  unfold mbind at 1, lift, call. rewrite Hd.
  split; [exact Hdet|].
  destruct (detect_Returned _ _ _ _ _ _ Hdet)
    as (torso & center' & head & b2 & b3 & conf & shift & Hall).
  cbv zeta in Hall.
  destruct Hall as (Et & _ & Eh & _ & _ & _ & _ & -> & _).
  cbn [torso_angle head_height].
  rewrite Ht in Et. rewrite Hhead in Eh.
  injection Et as <-. injection Eh as <-. by split; eexists.
Qed.

(** X21.  The key [c] calibrates with the head height ratio and the body
    center of the frame, unless the nose is in the top row of the image:
    the ratio is then 0.0, which counts as false, and the engine is left
    as it was. *)
Theorem calibration_key_skips_top_row (pose_detector : Pose.PoseDetector)
    (lms : list Pose.Landmark) (w h : Z) (self : FallDetector) :
  Pose.landmarks pose_detector = Some lms ->
  33 <= Z.of_nat (length lms) ->
  h <> 0 ->
  exists d nose center,
    Pose.get_all_landmarks pose_detector w h = Ok d
    /\ index lms 0 = Ok nose
    /\ Geometry.calculate_body_center d = Ok (Some center)
    /\ App.on_key_c pose_detector w h self
       = Returned tt
           (if (Pose.to_pixel nose w h).2 =? 0 then self
            else set_baseline
                   (Some (inject_Z (Pose.to_pixel nose w h).2 / inject_Z h)%Q)
                   (Some center) true self).
Proof.
  intros Hlms Hlen Hh.
  destruct (pose_features pose_detector lms w h Hlms Hlen Hh)
    as (d & nose & angle & center & Hd & Hi & _ & Hc & Hhead).
  exists d, nose, center.
  split; [done|]. split; [done|]. split; [done|].
  unfold App.on_key_c. rewrite Hlms.
  unfold mbind, lift, call. rewrite Hd, Hc, Hhead.
  rewrite (Qeq_bool_ratio _ h Hh).
  by destruct (_ =? 0).
Qed.

End Application.

Lemma detected_pose_gives_every_feature_witness :
  exists r self',
    Pose.landmarks standing_pose = Some standing_landmarks
    /\ 33 <= Z.of_nat (length standing_landmarks)
    /\ 480 <> 0
    /\ consecutive_frames default_detector <> 0
    /\ App.process_frame (H := approx_math) standing_pose 640 480 (clock_at 1000)
         default_detector = Returned r self'
    /\ is_Some (torso_angle r) /\ is_Some (head_height r).
Proof.
  assert (Hh : 480 <> 0) by lia.
  assert (HF : consecutive_frames default_detector <> 0) by (cbn; lia).
  destruct (detected_pose_gives_every_feature (H := approx_math) standing_pose
              standing_landmarks 640 480 (clock_at 1000) default_detector
              eq_refl standing_landmarks_length Hh HF) as (r & self' & Hr).
  exists r, self'. split; [reflexivity|].
  split; [exact standing_landmarks_length|]. split; [exact Hh|].
  split; [exact HF|]. exact Hr.
Defined.

Lemma top_row_landmarks_length :
  33 <= Z.of_nat (length (default [] (Pose.landmarks top_row_pose))).
Proof. by vm_compute. Qed.

Lemma calibration_key_skips_top_row_witness :
  Pose.landmarks top_row_pose
  = Some (default [] (Pose.landmarks top_row_pose))
  /\ 480 <> 0
  /\ App.on_key_c top_row_pose 640 480 default_detector
     = Returned tt default_detector.
Proof.
  assert (Hh : 480 <> 0) by lia.
  split; [reflexivity|]. split; [exact Hh|].
  destruct (calibration_key_skips_top_row (H := approx_math) top_row_pose
              (default [] (Pose.landmarks top_row_pose)) 640 480 default_detector
              eq_refl top_row_landmarks_length Hh)
    as (d & nose & center & _ & Hi & _ & Hkey).
  vm_compute in Hi. injection Hi as <-.
  exact Hkey.
Defined.

(** ** The first frame *)

Section HeadRule.
Context `{MathLib}.

Lemma push_opt_empty_length {A : Type} (size : Z) (x : option A) :
  (length (Tracker.push_opt size [] x) <= 1)%nat.
Proof.
  destruct x as [v|]; cbn [Tracker.push_opt length]; [|lia].
  unfold Tracker.push. cbn [app]. destruct (_ >? _); cbn; lia.
Qed.

(** X23.  On an engine that holds no head height and no center yet and has
    no baseline (newly constructed, or after [reset_calibration]), the
    first frame can trigger the torso rule only: the two other rules
    compare with an earlier sample or with the baseline. *)
Theorem first_frame_triggers_torso_only lm h clk self r self' :
  Tracker.head_height_history (angle_tracker self) = [] ->
  Tracker.center_history (angle_tracker self) = [] ->
  baseline_head_height self = None ->
  detect lm h clk self = Returned r self' ->
  (forall reason, In reason (trigger_reasons r) ->
     exists angle, reason = TorsoAngleAbnormal angle)
  /\ center_shift r = None.
Proof.
  intros Hhead Hcenter Hbase Hd.
  destruct (detect_Returned _ _ _ _ _ _ Hd)
    as (torso & center & head & b2 & b3 & conf & shift & Hall).
  cbv zeta in Hall.
  destruct Hall as (_ & _ & _ & E2 & E3 & _ & Es & -> & _).
  cbn [trigger_reasons center_shift].
  assert (Hb2 : b2 = false).
  { destruct head as [hh|]; cbn [head_rule] in E2; [|by injection E2].
    unfold _check_head_drop, Tracker.get_head_height_change in E2.
    cbn [angle_tracker set_angle_tracker head_drop_threshold baseline_head_height
         Tracker.update Tracker.head_height_history] in E2.
    rewrite Hhead, Hbase in E2.
    pose proof (push_opt_empty_length (Tracker.history_size (angle_tracker self))
                  (Some hh)) as Hlen.
    destruct (Z.ltb_spec
                (Z.of_nat (length (Tracker.push_opt
                                     (Tracker.history_size (angle_tracker self))
                                     [] (Some hh)))) 2) as [_|]; [|lia].
    by injection E2. }
  pose proof (push_opt_empty_length (Tracker.history_size (angle_tracker self))
                center) as Hlen.
  assert (Hb3 : b3 = false /\ shift = None).
  { unfold _check_center_shift, Tracker.get_max_center_shift in E3.
    unfold Tracker.get_center_shift in Es.
    cbn [angle_tracker set_angle_tracker Tracker.update Tracker.center_history]
      in E3, Es.
    rewrite Hcenter in E3, Es.
    destruct (Z.ltb_spec
                (Z.of_nat (length (Tracker.push_opt
                                     (Tracker.history_size (angle_tracker self))
                                     [] center))) 2) as [_|]; [|lia].
    cbn [Py.bind] in E3. split; [by injection E3 | by injection Es]. }
  destruct Hb3 as [-> ->]. subst b2. split; [|done].
  intros reason. unfold reasons_of.
  destruct (torso_rule _ torso).1, torso; cbn; try tauto.
  intros [<-|[]]. by eexists.
Qed.

End HeadRule.

Lemma first_frame_triggers_torso_only_witness :
  exists r self',
    Tracker.head_height_history (angle_tracker default_detector) = []
    /\ Tracker.center_history (angle_tracker default_detector) = []
    /\ baseline_head_height default_detector = None
    /\ detect (H := approx_math) lying_body 480 (clock_at 1000) default_detector
       = Returned r self'
    /\ (forall reason, In reason (trigger_reasons r) ->
          exists angle, reason = TorsoAngleAbnormal angle)
    /\ center_shift r = None.
Proof.
  destruct (detect (H := approx_math) lying_body 480 (clock_at 1000)
              default_detector) as [r self'|e self'] eqn:Hd;
    [|by vm_compute in Hd].
  exists r, self'. split; [reflexivity|]. split; [reflexivity|].
  split; [reflexivity|]. split; [reflexivity|].
  exact (first_frame_triggers_torso_only (H := approx_math) lying_body 480
           (clock_at 1000) default_detector r self' eq_refl eq_refl eq_refl Hd).
Defined.

(** ** One jump of the body center *)

Section Jump.
Context `{MathLib}.

Lemma jump_in_window_start (threshold : Q) (size : Z) (hist : list Point)
    (p q : Point) :
  2 <= size -> last hist = Some p ->
  (threshold < Geometry.calculate_center_shift q p)%Q ->
  jump_in_window threshold (Tracker.push size hist q) 0.
Proof.
  intros Hsize Hlast Hlt.
  destruct (push_ends_with size hist p q Hsize Hlast) as [l ->].
  exists l, p, q, []. by rewrite app_nil_r.
Qed.

Lemma jump_in_window_push (threshold : Q) (size : Z) (hist : list Point)
    (k : nat) (c : Point) :
  6 <= size -> (k <= 3)%nat ->
  jump_in_window threshold hist k ->
  jump_in_window threshold (Tracker.push size hist c) (S k).
Proof.
  intros Hsize Hk (l & p & q & rest & -> & Hlen & Hlt).
  unfold Tracker.push.
  replace ((l ++ [p; q] ++ rest) ++ [c]) with (l ++ [p; q] ++ (rest ++ [c]))
    by (by rewrite <- !app_assoc).
  destruct (Z.gtb_spec (Z.of_nat (length (l ++ [p; q] ++ rest ++ [c]))) size)
    as [Hpop|_].
  - rewrite !length_app in Hpop. cbn [length] in Hpop.
    destruct l as [|y l]; [cbn [length] in Hpop; lia|].
    exists l, p, q, (rest ++ [c]). split; [done|].
    split; [rewrite length_app; cbn [length]; lia | done].
  - exists l, p, q, (rest ++ [c]). split; [done|].
    split; [rewrite length_app; cbn [length]; lia | done].
Qed.

Lemma jump_in_window_triggers (self : FallDetector) (k : nat) :
  (k <= 4)%nat ->
  jump_in_window (center_shift_threshold self)
    (Tracker.center_history (angle_tracker self)) k ->
  _check_center_shift self = Ok true.
Proof.
  intros Hk (l & p & q & rest & Hhist & Hlen & Hlt).
  unfold _check_center_shift. rewrite get_max_center_shift_window, Hhist.
  set (history := l ++ [p; q] ++ rest).
  assert (Hl : length history = (length l + 2 + k)%nat).
  { subst history. rewrite !length_app. cbn [length]. lia. }
  destruct (Z.ltb_spec (Z.of_nat (length history)) 2) as [|_]; [lia|].
  assert (Hin : In (Geometry.calculate_center_shift q p) (window_shifts history 5)).
  { apply list_elem_of_In.
    apply (list_elem_of_lookup_2 _
             (length l
              - (length history - 1
                 - Z.to_nat (Z.min 5 (Z.of_nat (length history) - 1))))).
    unfold window_shifts. rewrite lookup_drop, length_adjacent_shifts.
    replace (length history - 1
             - Z.to_nat (Z.min 5 (Z.of_nat (length history) - 1))
             + (length l
                - (length history - 1
                   - Z.to_nat (Z.min 5 (Z.of_nat (length history) - 1)))))%nat
      with (length l) by lia.
    apply lookup_adjacent_shifts; subst history.
    - rewrite lookup_app_r by lia.
      by replace (S (length l) - length l)%nat with 1%nat by lia.
    - rewrite lookup_app_r by lia.
      by replace (length l - length l)%nat with 0%nat by lia. }
  destruct (window_shifts history 5) as [|x xs]; [destruct Hin|].
  cbn [Py.bind].
  pose proof (proj2 (fold_max_step_spec xs x) _ Hin) as Hle.
  assert (Hgt : Qgtb (fold_left max_step xs x) (center_shift_threshold self) = true)
    by (apply Qgtb_true; lra).
  by rewrite Hgt.
Qed.

(** one frame with a body center, once the jump is in the buffer *)
Lemma jump_step lm h clk self r self' (c : Point) (k : nat) :
  Geometry.calculate_body_center lm = Ok (Some c) ->
  (k <= 4)%nat ->
  jump_in_window (center_shift_threshold self)
    (Tracker.push (Tracker.history_size (angle_tracker self))
       (Tracker.center_history (angle_tracker self)) c) k ->
  detect lm h clk self = Returned r self' ->
  In BodyCenterShifted (trigger_reasons r)
  /\ consecutive_detections self' = consecutive_detections self + 1
  /\ center_shift_threshold self' = center_shift_threshold self
  /\ Tracker.history_size (angle_tracker self')
     = Tracker.history_size (angle_tracker self)
  /\ Tracker.center_history (angle_tracker self')
     = Tracker.push (Tracker.history_size (angle_tracker self))
         (Tracker.center_history (angle_tracker self)) c.
Proof.
  intros Hc Hk Hjump Hd.
  destruct (detect_center_rule _ _ _ _ _ _ Hd)
    as (torso & center & head & b3 & Ec & Htr & Hth & E3 & Hin & _).
  rewrite Hc in Ec. injection Ec as <-.
  assert (Hhist : Tracker.center_history (angle_tracker self')
                  = Tracker.push (Tracker.history_size (angle_tracker self))
                      (Tracker.center_history (angle_tracker self)) c)
    by (by rewrite Htr).
  assert (Hrule : _check_center_shift self' = Ok true).
  { apply (jump_in_window_triggers self' k Hk). by rewrite Hth, Hhist. }
  rewrite Hrule in E3. injection E3 as <-.
  assert (Hr : In BodyCenterShifted (trigger_reasons r)) by by apply Hin.
  pose proof (detect_summary _ _ _ _ _ _ Hd) as (Hc1 & _).
  cbv zeta in Hc1. unfold next_counter in Hc1.
  destruct (trigger_reasons r) as [|x l] eqn:Hl; [destruct Hr|].
  replace (Z.of_nat (length (x :: l)) >? 0) with true in Hc1
    by (symmetry; apply Z.gtb_lt; cbn [length]; lia).
  split; [exact Hr|]. split; [done|]. split; [done|].
  split; [by rewrite Htr | done].
Qed.

Lemma jump_run (calls : list Call) (centers : list Point) (self self' : FallDetector)
    (os : list (option DetectionResult)) (k : nat) :
  6 <= Tracker.history_size (angle_tracker self) ->
  jump_in_window (center_shift_threshold self)
    (Tracker.center_history (angle_tracker self)) k ->
  Forall2 frame_center calls centers ->
  (k + length calls <= 4)%nat ->
  run calls self = Returned os self' ->
  Forall (fun o => exists r, o = Some r /\ In BodyCenterShifted (trigger_reasons r)) os
  /\ consecutive_detections self'
     = consecutive_detections self + Z.of_nat (length calls).
Proof.
  intros Hsize Hjump Hall. revert self os k Hsize Hjump.
  induction Hall as [|call c calls centers Hc _ IH];
    intros self os k Hsize Hjump Hk Hrun.
  - injection Hrun as <- <-. split; [constructor | cbn [length]; lia].
  - destruct call as [lm h clk| | |]; [|destruct Hc..].
    cbn [frame_center] in Hc. cbn [length] in Hk.
    cbn [run exec] in Hrun. unfold mbind at 1 2, ret at 1 in Hrun.
    destruct (detect lm h clk self) as [r s1|] eqn:Hd; [|discriminate].
    unfold mbind at 1 in Hrun.
    destruct (run calls s1) as [os' s2|] eqn:Er; [|discriminate].
    injection Hrun as <- <-.
    assert (Hpush : jump_in_window (center_shift_threshold self)
              (Tracker.push (Tracker.history_size (angle_tracker self))
                 (Tracker.center_history (angle_tracker self)) c) (S k))
      by (apply jump_in_window_push; [done | lia | done]).
    destruct (jump_step lm h clk self r s1 c (S k) Hc ltac:(lia) Hpush Hd)
      as (Hr & Hcnt & Hth & Hsz & Hhist).
    destruct (IH s1 os' (S k)) as [Hos Hcnt'].
    + by rewrite Hsz.
    + by rewrite Hth, Hhist.
    + lia.
    + done.
    + split; [constructor; [by exists r | done]|].
      rewrite Hcnt', Hcnt. cbn [length]. lia.
Qed.

(** X24.  One jump of the body center by more than
    [center_shift_threshold] between two successive frames makes the center
    rule trigger on the frame of the jump and on the four frames with a
    body center that follow, wherever the body is in them: the counter
    rises by one on each of the five frames. *)
Theorem jump_triggers_five_frames (calls : list Call) (p q : Point)
    (rest : list Point) (self self' : FallDetector)
    (os : list (option DetectionResult)) :
  6 <= Tracker.history_size (angle_tracker self) ->
  last (Tracker.center_history (angle_tracker self)) = Some p ->
  (center_shift_threshold self < Geometry.calculate_center_shift q p)%Q ->
  Forall2 frame_center calls (q :: rest) ->
  (length rest <= 4)%nat ->
  run calls self = Returned os self' ->
  Forall (fun o => exists r, o = Some r /\ In BodyCenterShifted (trigger_reasons r)) os
  /\ consecutive_detections self'
     = consecutive_detections self + Z.of_nat (length calls).
Proof.
  intros Hsize Hlast Hlt Hall Hlen Hrun.
  inversion Hall as [|call c calls' centers Hc Hrest]; subst.
  destruct call as [lm h clk| | |]; [|destruct Hc..].
  cbn [frame_center] in Hc.
  cbn [run exec] in Hrun. unfold mbind at 1 2, ret at 1 in Hrun.
  destruct (detect lm h clk self) as [r s1|] eqn:Hd; [|discriminate].
  unfold mbind at 1 in Hrun.
  destruct (run calls' s1) as [os' s2|] eqn:Er; [|discriminate].
  injection Hrun as <- <-.
  assert (Hstart : jump_in_window (center_shift_threshold self)
            (Tracker.push (Tracker.history_size (angle_tracker self))
               (Tracker.center_history (angle_tracker self)) q) 0)
    by (apply (jump_in_window_start _ _ _ p); [lia | done | done]).
  destruct (jump_step lm h clk self r s1 q 0 Hc ltac:(lia) Hstart Hd)
    as (Hr & Hcnt & Hth & Hsz & Hhist).
  pose proof (Forall2_length _ _ _ Hrest) as Hl.
  destruct (jump_run calls' rest s1 s2 os' 0) as [Hos Hcnt'].
  - by rewrite Hsz.
  - by rewrite Hth, Hhist.
  - done.
  - lia.
  - done.
  - split; [constructor; [by exists r | done]|].
    rewrite Hcnt', Hcnt. cbn [length]. lia.
Qed.

End Jump.

Lemma jump_triggers_five_frames_witness :
  exists os self',
    6 <= Tracker.history_size (angle_tracker first_frame_detector)
    /\ last (Tracker.center_history (angle_tracker first_frame_detector))
       = Some center_before_jump
    /\ (center_shift_threshold first_frame_detector
        < Geometry.calculate_center_shift (H := approx_math) center_after_jump center_before_jump)%Q
    /\ Forall2 frame_center jump_frames
         (repeat center_after_jump 5)
    /\ run (H := approx_math) jump_frames first_frame_detector = Returned os self'
    /\ Forall (fun o => exists r, o = Some r
                                  /\ In BodyCenterShifted (trigger_reasons r)) os
    /\ consecutive_detections self'
       = consecutive_detections first_frame_detector
         + Z.of_nat (length jump_frames).
Proof.
  assert (Hsize : 6 <= Tracker.history_size (angle_tracker first_frame_detector))
    by (by vm_compute).
  assert (Hlast : last (Tracker.center_history (angle_tracker first_frame_detector))
                  = Some center_before_jump) by (by vm_compute).
  assert (Hlt : (center_shift_threshold first_frame_detector
                 < Geometry.calculate_center_shift (H := approx_math)
                     center_after_jump center_before_jump)%Q) by (by vm_compute).
  assert (Hall : Forall2 frame_center jump_frames
                   (repeat center_after_jump 5))
    by (unfold jump_frames; cbn [map]; repeat constructor; by vm_compute).
  destruct (run (H := approx_math) jump_frames first_frame_detector)
    as [os self'|e self'] eqn:Hrun; [|by vm_compute in Hrun].
  exists os, self'.
  split; [exact Hsize|]. split; [exact Hlast|]. split; [exact Hlt|].
  split; [exact Hall|]. split; [reflexivity|].
  exact (jump_triggers_five_frames (H := approx_math) jump_frames center_before_jump
           center_after_jump (repeat center_after_jump 4)
           first_frame_detector self' os Hsize Hlast Hlt Hall ltac:(cbn; lia) Hrun).
Defined.
